(** * Garment sizing and try-on placement: a shallow embedding of
      [garment_sizing.py]

    The development follows the Python module top-down: the numeric values
    the module works on, the two enumerations, the size catalog and the
    tolerance table, [GarmentSizingSystem] (size recommendation, fit
    analysis, size comparison), the geometry of
    [VirtualTryOnVisualizer.apply_garment_overlay], and the entry point
    [process_virtual_tryon_with_sizing].  The helpers of
    [BodyMeasurementPredictor] in [body_measurements.py], which produce the
    chest measurement the sizing functions consume, follow.

    Modelling conventions.

    - A Python [float] is a value of [pyfloat]: a rational number or one of
      the IEEE special values [+inf], [-inf], [nan].  Comparisons, [min],
      [max], [abs] and [int()] follow Python on the special values
      (every comparison with [nan] is false; [min]/[max] keep their first
      argument unless the second is strictly smaller/larger).  Arithmetic on
      finite values is exact: binary rounding and the sign of zero are not
      represented.  Where rounding decides a comparison the statements keep
      to what holds in binary64 as well: the size search is described for
      chests up to [chest_limit], and the ranges of the BMI factor are
      closed at the limits that rounding reaches.
    - A Python [int] is a [Z]; [//] is [Z.div] (floor), [int()] truncates
      toward zero.
    - A [str] is the [string] of its UTF-8 bytes.  [upper] is Unicode's
      full uppercase mapping, code point by code point; [lower], which the
      module only uses to compare with two ASCII words, maps the ASCII
      letters.
    - A raised exception is the [Raise] branch of [result].
    - Images are represented by their [shape[:2]]; pixel contents, which
      only OpenCV calls touch, are not represented.  OpenCV's [resize] is
      represented by its size contract. *)

From Stdlib Require Import ZArith NArith QArith Qabs Lqa Lia List String Ascii Bool.
From Stdlib Require Import Qround DecimalString.
Import ListNotations.
Open Scope string_scope.

(* ------------------------------------------------------------------ *)
(** ** Exceptions *)

Inductive exn : Type :=
| IndexError
| KeyError
| ValueError
| OverflowError
| cv2_error.

Inductive result (A : Type) : Type :=
| Ok (a : A)
| Raise (e : exn).

Arguments Ok {A} a.
Arguments Raise {A} e.

Definition bind {A B : Type} (m : result A) (k : A -> result B) : result B :=
  match m with
  | Ok a => k a
  | Raise e => Raise e
  end.

Declare Scope result_scope.
Delimit Scope result_scope with result.
Notation "x <- m ;; k" := (bind m (fun x => k))
  (at level 61, m at next level, right associativity) : result_scope.

(* ------------------------------------------------------------------ *)
(** ** Python floats *)

Inductive pyfloat : Type :=
| Fin (q : Q)
| PInf
| NInf
| NaN.

Definition Qlt_bool (a b : Q) : bool :=
  match (a ?= b)%Q with Lt => true | _ => false end.

Definition of_int (z : Z) : pyfloat := Fin (inject_Z z).

Definition is_nan (a : pyfloat) : bool :=
  match a with NaN => true | _ => false end.

Definition is_finite (a : pyfloat) : bool :=
  match a with Fin _ => true | _ => false end.

Definition fneg (a : pyfloat) : pyfloat :=
  match a with
  | Fin q => Fin (- q)
  | PInf => NInf
  | NInf => PInf
  | NaN => NaN
  end.

(** [abs(a)] *)
Definition fabs (a : pyfloat) : pyfloat :=
  match a with
  | Fin q => Fin (Qabs q)
  | PInf | NInf => PInf
  | NaN => NaN
  end.

(** [a + b] *)
Definition fadd (a b : pyfloat) : pyfloat :=
  match a, b with
  | NaN, _ | _, NaN => NaN
  | Fin x, Fin y => Fin (x + y)
  | PInf, NInf | NInf, PInf => NaN
  | PInf, _ | _, PInf => PInf
  | NInf, _ | _, NInf => NInf
  end.

(** [a - b] *)
Definition fsub (a b : pyfloat) : pyfloat := fadd a (fneg b).

(** The infinity carrying the sign of [s * t], [nan] when [s] is zero. *)
Definition signed_inf (s : Q) (positive : bool) : pyfloat :=
  match (s ?= 0)%Q with
  | Eq => NaN
  | Gt => if positive then PInf else NInf
  | Lt => if positive then NInf else PInf
  end.

(** [a * b] *)
Definition fmul (a b : pyfloat) : pyfloat :=
  match a, b with
  | NaN, _ | _, NaN => NaN
  | Fin x, Fin y => Fin (x * y)
  | Fin x, PInf | PInf, Fin x => signed_inf x true
  | Fin x, NInf | NInf, Fin x => signed_inf x false
  | PInf, PInf | NInf, NInf => PInf
  | PInf, NInf | NInf, PInf => NInf
  end.

(** [a / b].  Python raises [ZeroDivisionError] on a zero divisor; the
    module only ever divides by the literals [20.0], [15.0] and [2], so that
    case is left as [nan] here. *)
Definition fdiv (a b : pyfloat) : pyfloat :=
  match a, b with
  | NaN, _ | _, NaN => NaN
  | Fin x, Fin y => if Qeq_bool y 0 then NaN else Fin (x / y)
  | Fin _, (PInf | NInf) => Fin 0
  | PInf, Fin y => if Qeq_bool y 0 then NaN else signed_inf y true
  | NInf, Fin y => if Qeq_bool y 0 then NaN else signed_inf y false
  | (PInf | NInf), (PInf | NInf) => NaN
  end.

(** [a < b] *)
Definition flt (a b : pyfloat) : bool :=
  match a, b with
  | NaN, _ | _, NaN => false
  | Fin x, Fin y => Qlt_bool x y
  | NInf, NInf => false
  | NInf, _ => true
  | _, NInf => false
  | PInf, _ => false
  | Fin _, PInf => true
  end.

(** [a <= b] *)
Definition fle (a b : pyfloat) : bool :=
  match a, b with
  | NaN, _ | _, NaN => false
  | Fin x, Fin y => Qle_bool x y
  | NInf, _ => true
  | _, NInf => false
  | _, PInf => true
  | PInf, Fin _ => false
  end.

(** [a > b] and [a >= b] *)
Definition fgt (a b : pyfloat) : bool := flt b a.
Definition fge (a b : pyfloat) : bool := fle b a.

(** [a == b] *)
Definition feqb (a b : pyfloat) : bool :=
  match a, b with
  | Fin x, Fin y => Qeq_bool x y
  | PInf, PInf | NInf, NInf => true
  | _, _ => false
  end.

(** The builtin [min(a, b)]: [b] replaces [a] only when [b < a]. *)
Definition py_min (a b : pyfloat) : pyfloat := if flt b a then b else a.

(** The builtin [max(a, b)]: [b] replaces [a] only when [b > a]. *)
Definition py_max (a b : pyfloat) : pyfloat := if fgt b a then b else a.

(** [int(a)]: truncation toward zero; [nan] and the infinities raise. *)
Definition py_int (a : pyfloat) : result Z :=
  match a with
  | Fin q => Ok (Z.quot (Qnum q) (Zpos (Qden q)))
  | PInf | NInf => Raise OverflowError
  | NaN => Raise ValueError
  end.

Declare Scope pyfloat_scope.
Delimit Scope pyfloat_scope with F.
Bind Scope pyfloat_scope with pyfloat.
Notation "a + b" := (fadd a b) : pyfloat_scope.
Notation "a - b" := (fsub a b) : pyfloat_scope.
Notation "a * b" := (fmul a b) : pyfloat_scope.
Notation "a / b" := (fdiv a b) : pyfloat_scope.
Notation "a <? b" := (flt a b) : pyfloat_scope.
Notation "a <=? b" := (fle a b) : pyfloat_scope.
Notation "a >? b" := (fgt a b) : pyfloat_scope.
Notation "a >=? b" := (fge a b) : pyfloat_scope.
Notation "a == b" := (feqb a b = true) : pyfloat_scope.

(** Float literals of the source. *)
Definition lit (n : Z) (d : positive) : pyfloat := Fin (n # d).

(* ------------------------------------------------------------------ *)
(** ** Strings *)

Definition ascii_lower (c : ascii) : ascii :=
  let n := nat_of_ascii c in
  if ((65 <=? n) && (n <=? 90))%nat then ascii_of_nat (n + 32) else c.

Definition ascii_upper (c : ascii) : ascii :=
  let n := nat_of_ascii c in
  if ((97 <=? n) && (n <=? 122))%nat then ascii_of_nat (n - 32) else c.

Fixpoint str_map (f : ascii -> ascii) (s : string) : string :=
  match s with
  | EmptyString => EmptyString
  | String c s' => String (f c) (str_map f s')
  end.

(** [s.lower()], on the ASCII letters.  The module only compares the result
    with ["female"] and ["male"]; the one code point outside ASCII whose
    lowercase is an ASCII letter is U+212A (KELVIN SIGN, lowercase [k]),
    which occurs in neither word, so these comparisons come out as in
    Python for every string. *)
Definition lower (s : string) : string := str_map ascii_lower s.

(** The code points from U+0080 on that [str.upper()] changes, each with
    the code points that replace it: the full uppercase mapping of the
    Unicode Character Database, version 14.0 (the simple mapping of
    UnicodeData.txt and the unconditional entries of SpecialCasing.txt).
    On ASCII the mapping is [ascii_upper]. *)
Definition uppercase_mapping : list (N * list N) :=
 [
  (0x00b5, [0x039c]); (0x00df, [0x0053; 0x0053]); (0x00e0, [0x00c0]);
  (0x00e1, [0x00c1]); (0x00e2, [0x00c2]); (0x00e3, [0x00c3]);
  (0x00e4, [0x00c4]); (0x00e5, [0x00c5]); (0x00e6, [0x00c6]);
  (0x00e7, [0x00c7]); (0x00e8, [0x00c8]); (0x00e9, [0x00c9]);
  (0x00ea, [0x00ca]); (0x00eb, [0x00cb]); (0x00ec, [0x00cc]);
  (0x00ed, [0x00cd]); (0x00ee, [0x00ce]); (0x00ef, [0x00cf]);
  (0x00f0, [0x00d0]); (0x00f1, [0x00d1]); (0x00f2, [0x00d2]);
  (0x00f3, [0x00d3]); (0x00f4, [0x00d4]); (0x00f5, [0x00d5]);
  (0x00f6, [0x00d6]); (0x00f8, [0x00d8]); (0x00f9, [0x00d9]);
  (0x00fa, [0x00da]); (0x00fb, [0x00db]); (0x00fc, [0x00dc]);
  (0x00fd, [0x00dd]); (0x00fe, [0x00de]); (0x00ff, [0x0178]);
  (0x0101, [0x0100]); (0x0103, [0x0102]); (0x0105, [0x0104]);
  (0x0107, [0x0106]); (0x0109, [0x0108]); (0x010b, [0x010a]);
  (0x010d, [0x010c]); (0x010f, [0x010e]); (0x0111, [0x0110]);
  (0x0113, [0x0112]); (0x0115, [0x0114]); (0x0117, [0x0116]);
  (0x0119, [0x0118]); (0x011b, [0x011a]); (0x011d, [0x011c]);
  (0x011f, [0x011e]); (0x0121, [0x0120]); (0x0123, [0x0122]);
  (0x0125, [0x0124]); (0x0127, [0x0126]); (0x0129, [0x0128]);
  (0x012b, [0x012a]); (0x012d, [0x012c]); (0x012f, [0x012e]);
  (0x0131, [0x0049]); (0x0133, [0x0132]); (0x0135, [0x0134]);
  (0x0137, [0x0136]); (0x013a, [0x0139]); (0x013c, [0x013b]);
  (0x013e, [0x013d]); (0x0140, [0x013f]); (0x0142, [0x0141]);
  (0x0144, [0x0143]); (0x0146, [0x0145]); (0x0148, [0x0147]);
  (0x0149, [0x02bc; 0x004e]); (0x014b, [0x014a]); (0x014d, [0x014c]);
  (0x014f, [0x014e]); (0x0151, [0x0150]); (0x0153, [0x0152]);
  (0x0155, [0x0154]); (0x0157, [0x0156]); (0x0159, [0x0158]);
  (0x015b, [0x015a]); (0x015d, [0x015c]); (0x015f, [0x015e]);
  (0x0161, [0x0160]); (0x0163, [0x0162]); (0x0165, [0x0164]);
  (0x0167, [0x0166]); (0x0169, [0x0168]); (0x016b, [0x016a]);
  (0x016d, [0x016c]); (0x016f, [0x016e]); (0x0171, [0x0170]);
  (0x0173, [0x0172]); (0x0175, [0x0174]); (0x0177, [0x0176]);
  (0x017a, [0x0179]); (0x017c, [0x017b]); (0x017e, [0x017d]);
  (0x017f, [0x0053]); (0x0180, [0x0243]); (0x0183, [0x0182]);
  (0x0185, [0x0184]); (0x0188, [0x0187]); (0x018c, [0x018b]);
  (0x0192, [0x0191]); (0x0195, [0x01f6]); (0x0199, [0x0198]);
  (0x019a, [0x023d]); (0x019e, [0x0220]); (0x01a1, [0x01a0]);
  (0x01a3, [0x01a2]); (0x01a5, [0x01a4]); (0x01a8, [0x01a7]);
  (0x01ad, [0x01ac]); (0x01b0, [0x01af]); (0x01b4, [0x01b3]);
  (0x01b6, [0x01b5]); (0x01b9, [0x01b8]); (0x01bd, [0x01bc]);
  (0x01bf, [0x01f7]); (0x01c5, [0x01c4]); (0x01c6, [0x01c4]);
  (0x01c8, [0x01c7]); (0x01c9, [0x01c7]); (0x01cb, [0x01ca]);
  (0x01cc, [0x01ca]); (0x01ce, [0x01cd]); (0x01d0, [0x01cf]);
  (0x01d2, [0x01d1]); (0x01d4, [0x01d3]); (0x01d6, [0x01d5]);
  (0x01d8, [0x01d7]); (0x01da, [0x01d9]); (0x01dc, [0x01db]);
  (0x01dd, [0x018e]); (0x01df, [0x01de]); (0x01e1, [0x01e0]);
  (0x01e3, [0x01e2]); (0x01e5, [0x01e4]); (0x01e7, [0x01e6]);
  (0x01e9, [0x01e8]); (0x01eb, [0x01ea]); (0x01ed, [0x01ec]);
  (0x01ef, [0x01ee]); (0x01f0, [0x004a; 0x030c]); (0x01f2, [0x01f1]);
  (0x01f3, [0x01f1]); (0x01f5, [0x01f4]); (0x01f9, [0x01f8]);
  (0x01fb, [0x01fa]); (0x01fd, [0x01fc]); (0x01ff, [0x01fe]);
  (0x0201, [0x0200]); (0x0203, [0x0202]); (0x0205, [0x0204]);
  (0x0207, [0x0206]); (0x0209, [0x0208]); (0x020b, [0x020a]);
  (0x020d, [0x020c]); (0x020f, [0x020e]); (0x0211, [0x0210]);
  (0x0213, [0x0212]); (0x0215, [0x0214]); (0x0217, [0x0216]);
  (0x0219, [0x0218]); (0x021b, [0x021a]); (0x021d, [0x021c]);
  (0x021f, [0x021e]); (0x0223, [0x0222]); (0x0225, [0x0224]);
  (0x0227, [0x0226]); (0x0229, [0x0228]); (0x022b, [0x022a]);
  (0x022d, [0x022c]); (0x022f, [0x022e]); (0x0231, [0x0230]);
  (0x0233, [0x0232]); (0x023c, [0x023b]); (0x023f, [0x2c7e]);
  (0x0240, [0x2c7f]); (0x0242, [0x0241]); (0x0247, [0x0246]);
  (0x0249, [0x0248]); (0x024b, [0x024a]); (0x024d, [0x024c]);
  (0x024f, [0x024e]); (0x0250, [0x2c6f]); (0x0251, [0x2c6d]);
  (0x0252, [0x2c70]); (0x0253, [0x0181]); (0x0254, [0x0186]);
  (0x0256, [0x0189]); (0x0257, [0x018a]); (0x0259, [0x018f]);
  (0x025b, [0x0190]); (0x025c, [0xa7ab]); (0x0260, [0x0193]);
  (0x0261, [0xa7ac]); (0x0263, [0x0194]); (0x0265, [0xa78d]);
  (0x0266, [0xa7aa]); (0x0268, [0x0197]); (0x0269, [0x0196]);
  (0x026a, [0xa7ae]); (0x026b, [0x2c62]); (0x026c, [0xa7ad]);
  (0x026f, [0x019c]); (0x0271, [0x2c6e]); (0x0272, [0x019d]);
  (0x0275, [0x019f]); (0x027d, [0x2c64]); (0x0280, [0x01a6]);
  (0x0282, [0xa7c5]); (0x0283, [0x01a9]); (0x0287, [0xa7b1]);
  (0x0288, [0x01ae]); (0x0289, [0x0244]); (0x028a, [0x01b1]);
  (0x028b, [0x01b2]); (0x028c, [0x0245]); (0x0292, [0x01b7]);
  (0x029d, [0xa7b2]); (0x029e, [0xa7b0]); (0x0345, [0x0399]);
  (0x0371, [0x0370]); (0x0373, [0x0372]); (0x0377, [0x0376]);
  (0x037b, [0x03fd]); (0x037c, [0x03fe]); (0x037d, [0x03ff]);
  (0x0390, [0x0399; 0x0308; 0x0301]); (0x03ac, [0x0386]); (0x03ad, [0x0388]);
  (0x03ae, [0x0389]); (0x03af, [0x038a]); (0x03b0, [0x03a5; 0x0308; 0x0301]);
  (0x03b1, [0x0391]); (0x03b2, [0x0392]); (0x03b3, [0x0393]);
  (0x03b4, [0x0394]); (0x03b5, [0x0395]); (0x03b6, [0x0396]);
  (0x03b7, [0x0397]); (0x03b8, [0x0398]); (0x03b9, [0x0399]);
  (0x03ba, [0x039a]); (0x03bb, [0x039b]); (0x03bc, [0x039c]);
  (0x03bd, [0x039d]); (0x03be, [0x039e]); (0x03bf, [0x039f]);
  (0x03c0, [0x03a0]); (0x03c1, [0x03a1]); (0x03c2, [0x03a3]);
  (0x03c3, [0x03a3]); (0x03c4, [0x03a4]); (0x03c5, [0x03a5]);
  (0x03c6, [0x03a6]); (0x03c7, [0x03a7]); (0x03c8, [0x03a8]);
  (0x03c9, [0x03a9]); (0x03ca, [0x03aa]); (0x03cb, [0x03ab]);
  (0x03cc, [0x038c]); (0x03cd, [0x038e]); (0x03ce, [0x038f]);
  (0x03d0, [0x0392]); (0x03d1, [0x0398]); (0x03d5, [0x03a6]);
  (0x03d6, [0x03a0]); (0x03d7, [0x03cf]); (0x03d9, [0x03d8]);
  (0x03db, [0x03da]); (0x03dd, [0x03dc]); (0x03df, [0x03de]);
  (0x03e1, [0x03e0]); (0x03e3, [0x03e2]); (0x03e5, [0x03e4]);
  (0x03e7, [0x03e6]); (0x03e9, [0x03e8]); (0x03eb, [0x03ea]);
  (0x03ed, [0x03ec]); (0x03ef, [0x03ee]); (0x03f0, [0x039a]);
  (0x03f1, [0x03a1]); (0x03f2, [0x03f9]); (0x03f3, [0x037f]);
  (0x03f5, [0x0395]); (0x03f8, [0x03f7]); (0x03fb, [0x03fa]);
  (0x0430, [0x0410]); (0x0431, [0x0411]); (0x0432, [0x0412]);
  (0x0433, [0x0413]); (0x0434, [0x0414]); (0x0435, [0x0415]);
  (0x0436, [0x0416]); (0x0437, [0x0417]); (0x0438, [0x0418]);
  (0x0439, [0x0419]); (0x043a, [0x041a]); (0x043b, [0x041b]);
  (0x043c, [0x041c]); (0x043d, [0x041d]); (0x043e, [0x041e]);
  (0x043f, [0x041f]); (0x0440, [0x0420]); (0x0441, [0x0421]);
  (0x0442, [0x0422]); (0x0443, [0x0423]); (0x0444, [0x0424]);
  (0x0445, [0x0425]); (0x0446, [0x0426]); (0x0447, [0x0427]);
  (0x0448, [0x0428]); (0x0449, [0x0429]); (0x044a, [0x042a]);
  (0x044b, [0x042b]); (0x044c, [0x042c]); (0x044d, [0x042d]);
  (0x044e, [0x042e]); (0x044f, [0x042f]); (0x0450, [0x0400]);
  (0x0451, [0x0401]); (0x0452, [0x0402]); (0x0453, [0x0403]);
  (0x0454, [0x0404]); (0x0455, [0x0405]); (0x0456, [0x0406]);
  (0x0457, [0x0407]); (0x0458, [0x0408]); (0x0459, [0x0409]);
  (0x045a, [0x040a]); (0x045b, [0x040b]); (0x045c, [0x040c]);
  (0x045d, [0x040d]); (0x045e, [0x040e]); (0x045f, [0x040f]);
  (0x0461, [0x0460]); (0x0463, [0x0462]); (0x0465, [0x0464]);
  (0x0467, [0x0466]); (0x0469, [0x0468]); (0x046b, [0x046a]);
  (0x046d, [0x046c]); (0x046f, [0x046e]); (0x0471, [0x0470]);
  (0x0473, [0x0472]); (0x0475, [0x0474]); (0x0477, [0x0476]);
  (0x0479, [0x0478]); (0x047b, [0x047a]); (0x047d, [0x047c]);
  (0x047f, [0x047e]); (0x0481, [0x0480]); (0x048b, [0x048a]);
  (0x048d, [0x048c]); (0x048f, [0x048e]); (0x0491, [0x0490]);
  (0x0493, [0x0492]); (0x0495, [0x0494]); (0x0497, [0x0496]);
  (0x0499, [0x0498]); (0x049b, [0x049a]); (0x049d, [0x049c]);
  (0x049f, [0x049e]); (0x04a1, [0x04a0]); (0x04a3, [0x04a2]);
  (0x04a5, [0x04a4]); (0x04a7, [0x04a6]); (0x04a9, [0x04a8]);
  (0x04ab, [0x04aa]); (0x04ad, [0x04ac]); (0x04af, [0x04ae]);
  (0x04b1, [0x04b0]); (0x04b3, [0x04b2]); (0x04b5, [0x04b4]);
  (0x04b7, [0x04b6]); (0x04b9, [0x04b8]); (0x04bb, [0x04ba]);
  (0x04bd, [0x04bc]); (0x04bf, [0x04be]); (0x04c2, [0x04c1]);
  (0x04c4, [0x04c3]); (0x04c6, [0x04c5]); (0x04c8, [0x04c7]);
  (0x04ca, [0x04c9]); (0x04cc, [0x04cb]); (0x04ce, [0x04cd]);
  (0x04cf, [0x04c0]); (0x04d1, [0x04d0]); (0x04d3, [0x04d2]);
  (0x04d5, [0x04d4]); (0x04d7, [0x04d6]); (0x04d9, [0x04d8]);
  (0x04db, [0x04da]); (0x04dd, [0x04dc]); (0x04df, [0x04de]);
  (0x04e1, [0x04e0]); (0x04e3, [0x04e2]); (0x04e5, [0x04e4]);
  (0x04e7, [0x04e6]); (0x04e9, [0x04e8]); (0x04eb, [0x04ea]);
  (0x04ed, [0x04ec]); (0x04ef, [0x04ee]); (0x04f1, [0x04f0]);
  (0x04f3, [0x04f2]); (0x04f5, [0x04f4]); (0x04f7, [0x04f6]);
  (0x04f9, [0x04f8]); (0x04fb, [0x04fa]); (0x04fd, [0x04fc]);
  (0x04ff, [0x04fe]); (0x0501, [0x0500]); (0x0503, [0x0502]);
  (0x0505, [0x0504]); (0x0507, [0x0506]); (0x0509, [0x0508]);
  (0x050b, [0x050a]); (0x050d, [0x050c]); (0x050f, [0x050e]);
  (0x0511, [0x0510]); (0x0513, [0x0512]); (0x0515, [0x0514]);
  (0x0517, [0x0516]); (0x0519, [0x0518]); (0x051b, [0x051a]);
  (0x051d, [0x051c]); (0x051f, [0x051e]); (0x0521, [0x0520]);
  (0x0523, [0x0522]); (0x0525, [0x0524]); (0x0527, [0x0526]);
  (0x0529, [0x0528]); (0x052b, [0x052a]); (0x052d, [0x052c]);
  (0x052f, [0x052e]); (0x0561, [0x0531]); (0x0562, [0x0532]);
  (0x0563, [0x0533]); (0x0564, [0x0534]); (0x0565, [0x0535]);
  (0x0566, [0x0536]); (0x0567, [0x0537]); (0x0568, [0x0538]);
  (0x0569, [0x0539]); (0x056a, [0x053a]); (0x056b, [0x053b]);
  (0x056c, [0x053c]); (0x056d, [0x053d]); (0x056e, [0x053e]);
  (0x056f, [0x053f]); (0x0570, [0x0540]); (0x0571, [0x0541]);
  (0x0572, [0x0542]); (0x0573, [0x0543]); (0x0574, [0x0544]);
  (0x0575, [0x0545]); (0x0576, [0x0546]); (0x0577, [0x0547]);
  (0x0578, [0x0548]); (0x0579, [0x0549]); (0x057a, [0x054a]);
  (0x057b, [0x054b]); (0x057c, [0x054c]); (0x057d, [0x054d]);
  (0x057e, [0x054e]); (0x057f, [0x054f]); (0x0580, [0x0550]);
  (0x0581, [0x0551]); (0x0582, [0x0552]); (0x0583, [0x0553]);
  (0x0584, [0x0554]); (0x0585, [0x0555]); (0x0586, [0x0556]);
  (0x0587, [0x0535; 0x0552]); (0x10d0, [0x1c90]); (0x10d1, [0x1c91]);
  (0x10d2, [0x1c92]); (0x10d3, [0x1c93]); (0x10d4, [0x1c94]);
  (0x10d5, [0x1c95]); (0x10d6, [0x1c96]); (0x10d7, [0x1c97]);
  (0x10d8, [0x1c98]); (0x10d9, [0x1c99]); (0x10da, [0x1c9a]);
  (0x10db, [0x1c9b]); (0x10dc, [0x1c9c]); (0x10dd, [0x1c9d]);
  (0x10de, [0x1c9e]); (0x10df, [0x1c9f]); (0x10e0, [0x1ca0]);
  (0x10e1, [0x1ca1]); (0x10e2, [0x1ca2]); (0x10e3, [0x1ca3]);
  (0x10e4, [0x1ca4]); (0x10e5, [0x1ca5]); (0x10e6, [0x1ca6]);
  (0x10e7, [0x1ca7]); (0x10e8, [0x1ca8]); (0x10e9, [0x1ca9]);
  (0x10ea, [0x1caa]); (0x10eb, [0x1cab]); (0x10ec, [0x1cac]);
  (0x10ed, [0x1cad]); (0x10ee, [0x1cae]); (0x10ef, [0x1caf]);
  (0x10f0, [0x1cb0]); (0x10f1, [0x1cb1]); (0x10f2, [0x1cb2]);
  (0x10f3, [0x1cb3]); (0x10f4, [0x1cb4]); (0x10f5, [0x1cb5]);
  (0x10f6, [0x1cb6]); (0x10f7, [0x1cb7]); (0x10f8, [0x1cb8]);
  (0x10f9, [0x1cb9]); (0x10fa, [0x1cba]); (0x10fd, [0x1cbd]);
  (0x10fe, [0x1cbe]); (0x10ff, [0x1cbf]); (0x13f8, [0x13f0]);
  (0x13f9, [0x13f1]); (0x13fa, [0x13f2]); (0x13fb, [0x13f3]);
  (0x13fc, [0x13f4]); (0x13fd, [0x13f5]); (0x1c80, [0x0412]);
  (0x1c81, [0x0414]); (0x1c82, [0x041e]); (0x1c83, [0x0421]);
  (0x1c84, [0x0422]); (0x1c85, [0x0422]); (0x1c86, [0x042a]);
  (0x1c87, [0x0462]); (0x1c88, [0xa64a]); (0x1d79, [0xa77d]);
  (0x1d7d, [0x2c63]); (0x1d8e, [0xa7c6]); (0x1e01, [0x1e00]);
  (0x1e03, [0x1e02]); (0x1e05, [0x1e04]); (0x1e07, [0x1e06]);
  (0x1e09, [0x1e08]); (0x1e0b, [0x1e0a]); (0x1e0d, [0x1e0c]);
  (0x1e0f, [0x1e0e]); (0x1e11, [0x1e10]); (0x1e13, [0x1e12]);
  (0x1e15, [0x1e14]); (0x1e17, [0x1e16]); (0x1e19, [0x1e18]);
  (0x1e1b, [0x1e1a]); (0x1e1d, [0x1e1c]); (0x1e1f, [0x1e1e]);
  (0x1e21, [0x1e20]); (0x1e23, [0x1e22]); (0x1e25, [0x1e24]);
  (0x1e27, [0x1e26]); (0x1e29, [0x1e28]); (0x1e2b, [0x1e2a]);
  (0x1e2d, [0x1e2c]); (0x1e2f, [0x1e2e]); (0x1e31, [0x1e30]);
  (0x1e33, [0x1e32]); (0x1e35, [0x1e34]); (0x1e37, [0x1e36]);
  (0x1e39, [0x1e38]); (0x1e3b, [0x1e3a]); (0x1e3d, [0x1e3c]);
  (0x1e3f, [0x1e3e]); (0x1e41, [0x1e40]); (0x1e43, [0x1e42]);
  (0x1e45, [0x1e44]); (0x1e47, [0x1e46]); (0x1e49, [0x1e48]);
  (0x1e4b, [0x1e4a]); (0x1e4d, [0x1e4c]); (0x1e4f, [0x1e4e]);
  (0x1e51, [0x1e50]); (0x1e53, [0x1e52]); (0x1e55, [0x1e54]);
  (0x1e57, [0x1e56]); (0x1e59, [0x1e58]); (0x1e5b, [0x1e5a]);
  (0x1e5d, [0x1e5c]); (0x1e5f, [0x1e5e]); (0x1e61, [0x1e60]);
  (0x1e63, [0x1e62]); (0x1e65, [0x1e64]); (0x1e67, [0x1e66]);
  (0x1e69, [0x1e68]); (0x1e6b, [0x1e6a]); (0x1e6d, [0x1e6c]);
  (0x1e6f, [0x1e6e]); (0x1e71, [0x1e70]); (0x1e73, [0x1e72]);
  (0x1e75, [0x1e74]); (0x1e77, [0x1e76]); (0x1e79, [0x1e78]);
  (0x1e7b, [0x1e7a]); (0x1e7d, [0x1e7c]); (0x1e7f, [0x1e7e]);
  (0x1e81, [0x1e80]); (0x1e83, [0x1e82]); (0x1e85, [0x1e84]);
  (0x1e87, [0x1e86]); (0x1e89, [0x1e88]); (0x1e8b, [0x1e8a]);
  (0x1e8d, [0x1e8c]); (0x1e8f, [0x1e8e]); (0x1e91, [0x1e90]);
  (0x1e93, [0x1e92]); (0x1e95, [0x1e94]); (0x1e96, [0x0048; 0x0331]);
  (0x1e97, [0x0054; 0x0308]); (0x1e98, [0x0057; 0x030a]);
  (0x1e99, [0x0059; 0x030a]); (0x1e9a, [0x0041; 0x02be]); (0x1e9b, [0x1e60]);
  (0x1ea1, [0x1ea0]); (0x1ea3, [0x1ea2]); (0x1ea5, [0x1ea4]);
  (0x1ea7, [0x1ea6]); (0x1ea9, [0x1ea8]); (0x1eab, [0x1eaa]);
  (0x1ead, [0x1eac]); (0x1eaf, [0x1eae]); (0x1eb1, [0x1eb0]);
  (0x1eb3, [0x1eb2]); (0x1eb5, [0x1eb4]); (0x1eb7, [0x1eb6]);
  (0x1eb9, [0x1eb8]); (0x1ebb, [0x1eba]); (0x1ebd, [0x1ebc]);
  (0x1ebf, [0x1ebe]); (0x1ec1, [0x1ec0]); (0x1ec3, [0x1ec2]);
  (0x1ec5, [0x1ec4]); (0x1ec7, [0x1ec6]); (0x1ec9, [0x1ec8]);
  (0x1ecb, [0x1eca]); (0x1ecd, [0x1ecc]); (0x1ecf, [0x1ece]);
  (0x1ed1, [0x1ed0]); (0x1ed3, [0x1ed2]); (0x1ed5, [0x1ed4]);
  (0x1ed7, [0x1ed6]); (0x1ed9, [0x1ed8]); (0x1edb, [0x1eda]);
  (0x1edd, [0x1edc]); (0x1edf, [0x1ede]); (0x1ee1, [0x1ee0]);
  (0x1ee3, [0x1ee2]); (0x1ee5, [0x1ee4]); (0x1ee7, [0x1ee6]);
  (0x1ee9, [0x1ee8]); (0x1eeb, [0x1eea]); (0x1eed, [0x1eec]);
  (0x1eef, [0x1eee]); (0x1ef1, [0x1ef0]); (0x1ef3, [0x1ef2]);
  (0x1ef5, [0x1ef4]); (0x1ef7, [0x1ef6]); (0x1ef9, [0x1ef8]);
  (0x1efb, [0x1efa]); (0x1efd, [0x1efc]); (0x1eff, [0x1efe]);
  (0x1f00, [0x1f08]); (0x1f01, [0x1f09]); (0x1f02, [0x1f0a]);
  (0x1f03, [0x1f0b]); (0x1f04, [0x1f0c]); (0x1f05, [0x1f0d]);
  (0x1f06, [0x1f0e]); (0x1f07, [0x1f0f]); (0x1f10, [0x1f18]);
  (0x1f11, [0x1f19]); (0x1f12, [0x1f1a]); (0x1f13, [0x1f1b]);
  (0x1f14, [0x1f1c]); (0x1f15, [0x1f1d]); (0x1f20, [0x1f28]);
  (0x1f21, [0x1f29]); (0x1f22, [0x1f2a]); (0x1f23, [0x1f2b]);
  (0x1f24, [0x1f2c]); (0x1f25, [0x1f2d]); (0x1f26, [0x1f2e]);
  (0x1f27, [0x1f2f]); (0x1f30, [0x1f38]); (0x1f31, [0x1f39]);
  (0x1f32, [0x1f3a]); (0x1f33, [0x1f3b]); (0x1f34, [0x1f3c]);
  (0x1f35, [0x1f3d]); (0x1f36, [0x1f3e]); (0x1f37, [0x1f3f]);
  (0x1f40, [0x1f48]); (0x1f41, [0x1f49]); (0x1f42, [0x1f4a]);
  (0x1f43, [0x1f4b]); (0x1f44, [0x1f4c]); (0x1f45, [0x1f4d]);
  (0x1f50, [0x03a5; 0x0313]); (0x1f51, [0x1f59]);
  (0x1f52, [0x03a5; 0x0313; 0x0300]); (0x1f53, [0x1f5b]);
  (0x1f54, [0x03a5; 0x0313; 0x0301]); (0x1f55, [0x1f5d]);
  (0x1f56, [0x03a5; 0x0313; 0x0342]); (0x1f57, [0x1f5f]); (0x1f60, [0x1f68]);
  (0x1f61, [0x1f69]); (0x1f62, [0x1f6a]); (0x1f63, [0x1f6b]);
  (0x1f64, [0x1f6c]); (0x1f65, [0x1f6d]); (0x1f66, [0x1f6e]);
  (0x1f67, [0x1f6f]); (0x1f70, [0x1fba]); (0x1f71, [0x1fbb]);
  (0x1f72, [0x1fc8]); (0x1f73, [0x1fc9]); (0x1f74, [0x1fca]);
  (0x1f75, [0x1fcb]); (0x1f76, [0x1fda]); (0x1f77, [0x1fdb]);
  (0x1f78, [0x1ff8]); (0x1f79, [0x1ff9]); (0x1f7a, [0x1fea]);
  (0x1f7b, [0x1feb]); (0x1f7c, [0x1ffa]); (0x1f7d, [0x1ffb]);
  (0x1f80, [0x1f08; 0x0399]); (0x1f81, [0x1f09; 0x0399]);
  (0x1f82, [0x1f0a; 0x0399]); (0x1f83, [0x1f0b; 0x0399]);
  (0x1f84, [0x1f0c; 0x0399]); (0x1f85, [0x1f0d; 0x0399]);
  (0x1f86, [0x1f0e; 0x0399]); (0x1f87, [0x1f0f; 0x0399]);
  (0x1f88, [0x1f08; 0x0399]); (0x1f89, [0x1f09; 0x0399]);
  (0x1f8a, [0x1f0a; 0x0399]); (0x1f8b, [0x1f0b; 0x0399]);
  (0x1f8c, [0x1f0c; 0x0399]); (0x1f8d, [0x1f0d; 0x0399]);
  (0x1f8e, [0x1f0e; 0x0399]); (0x1f8f, [0x1f0f; 0x0399]);
  (0x1f90, [0x1f28; 0x0399]); (0x1f91, [0x1f29; 0x0399]);
  (0x1f92, [0x1f2a; 0x0399]); (0x1f93, [0x1f2b; 0x0399]);
  (0x1f94, [0x1f2c; 0x0399]); (0x1f95, [0x1f2d; 0x0399]);
  (0x1f96, [0x1f2e; 0x0399]); (0x1f97, [0x1f2f; 0x0399]);
  (0x1f98, [0x1f28; 0x0399]); (0x1f99, [0x1f29; 0x0399]);
  (0x1f9a, [0x1f2a; 0x0399]); (0x1f9b, [0x1f2b; 0x0399]);
  (0x1f9c, [0x1f2c; 0x0399]); (0x1f9d, [0x1f2d; 0x0399]);
  (0x1f9e, [0x1f2e; 0x0399]); (0x1f9f, [0x1f2f; 0x0399]);
  (0x1fa0, [0x1f68; 0x0399]); (0x1fa1, [0x1f69; 0x0399]);
  (0x1fa2, [0x1f6a; 0x0399]); (0x1fa3, [0x1f6b; 0x0399]);
  (0x1fa4, [0x1f6c; 0x0399]); (0x1fa5, [0x1f6d; 0x0399]);
  (0x1fa6, [0x1f6e; 0x0399]); (0x1fa7, [0x1f6f; 0x0399]);
  (0x1fa8, [0x1f68; 0x0399]); (0x1fa9, [0x1f69; 0x0399]);
  (0x1faa, [0x1f6a; 0x0399]); (0x1fab, [0x1f6b; 0x0399]);
  (0x1fac, [0x1f6c; 0x0399]); (0x1fad, [0x1f6d; 0x0399]);
  (0x1fae, [0x1f6e; 0x0399]); (0x1faf, [0x1f6f; 0x0399]); (0x1fb0, [0x1fb8]);
  (0x1fb1, [0x1fb9]); (0x1fb2, [0x1fba; 0x0399]); (0x1fb3, [0x0391; 0x0399]);
  (0x1fb4, [0x0386; 0x0399]); (0x1fb6, [0x0391; 0x0342]);
  (0x1fb7, [0x0391; 0x0342; 0x0399]); (0x1fbc, [0x0391; 0x0399]);
  (0x1fbe, [0x0399]); (0x1fc2, [0x1fca; 0x0399]); (0x1fc3, [0x0397; 0x0399]);
  (0x1fc4, [0x0389; 0x0399]); (0x1fc6, [0x0397; 0x0342]);
  (0x1fc7, [0x0397; 0x0342; 0x0399]); (0x1fcc, [0x0397; 0x0399]);
  (0x1fd0, [0x1fd8]); (0x1fd1, [0x1fd9]); (0x1fd2, [0x0399; 0x0308; 0x0300]);
  (0x1fd3, [0x0399; 0x0308; 0x0301]); (0x1fd6, [0x0399; 0x0342]);
  (0x1fd7, [0x0399; 0x0308; 0x0342]); (0x1fe0, [0x1fe8]); (0x1fe1, [0x1fe9]);
  (0x1fe2, [0x03a5; 0x0308; 0x0300]); (0x1fe3, [0x03a5; 0x0308; 0x0301]);
  (0x1fe4, [0x03a1; 0x0313]); (0x1fe5, [0x1fec]); (0x1fe6, [0x03a5; 0x0342]);
  (0x1fe7, [0x03a5; 0x0308; 0x0342]); (0x1ff2, [0x1ffa; 0x0399]);
  (0x1ff3, [0x03a9; 0x0399]); (0x1ff4, [0x038f; 0x0399]);
  (0x1ff6, [0x03a9; 0x0342]); (0x1ff7, [0x03a9; 0x0342; 0x0399]);
  (0x1ffc, [0x03a9; 0x0399]); (0x214e, [0x2132]); (0x2170, [0x2160]);
  (0x2171, [0x2161]); (0x2172, [0x2162]); (0x2173, [0x2163]);
  (0x2174, [0x2164]); (0x2175, [0x2165]); (0x2176, [0x2166]);
  (0x2177, [0x2167]); (0x2178, [0x2168]); (0x2179, [0x2169]);
  (0x217a, [0x216a]); (0x217b, [0x216b]); (0x217c, [0x216c]);
  (0x217d, [0x216d]); (0x217e, [0x216e]); (0x217f, [0x216f]);
  (0x2184, [0x2183]); (0x24d0, [0x24b6]); (0x24d1, [0x24b7]);
  (0x24d2, [0x24b8]); (0x24d3, [0x24b9]); (0x24d4, [0x24ba]);
  (0x24d5, [0x24bb]); (0x24d6, [0x24bc]); (0x24d7, [0x24bd]);
  (0x24d8, [0x24be]); (0x24d9, [0x24bf]); (0x24da, [0x24c0]);
  (0x24db, [0x24c1]); (0x24dc, [0x24c2]); (0x24dd, [0x24c3]);
  (0x24de, [0x24c4]); (0x24df, [0x24c5]); (0x24e0, [0x24c6]);
  (0x24e1, [0x24c7]); (0x24e2, [0x24c8]); (0x24e3, [0x24c9]);
  (0x24e4, [0x24ca]); (0x24e5, [0x24cb]); (0x24e6, [0x24cc]);
  (0x24e7, [0x24cd]); (0x24e8, [0x24ce]); (0x24e9, [0x24cf]);
  (0x2c30, [0x2c00]); (0x2c31, [0x2c01]); (0x2c32, [0x2c02]);
  (0x2c33, [0x2c03]); (0x2c34, [0x2c04]); (0x2c35, [0x2c05]);
  (0x2c36, [0x2c06]); (0x2c37, [0x2c07]); (0x2c38, [0x2c08]);
  (0x2c39, [0x2c09]); (0x2c3a, [0x2c0a]); (0x2c3b, [0x2c0b]);
  (0x2c3c, [0x2c0c]); (0x2c3d, [0x2c0d]); (0x2c3e, [0x2c0e]);
  (0x2c3f, [0x2c0f]); (0x2c40, [0x2c10]); (0x2c41, [0x2c11]);
  (0x2c42, [0x2c12]); (0x2c43, [0x2c13]); (0x2c44, [0x2c14]);
  (0x2c45, [0x2c15]); (0x2c46, [0x2c16]); (0x2c47, [0x2c17]);
  (0x2c48, [0x2c18]); (0x2c49, [0x2c19]); (0x2c4a, [0x2c1a]);
  (0x2c4b, [0x2c1b]); (0x2c4c, [0x2c1c]); (0x2c4d, [0x2c1d]);
  (0x2c4e, [0x2c1e]); (0x2c4f, [0x2c1f]); (0x2c50, [0x2c20]);
  (0x2c51, [0x2c21]); (0x2c52, [0x2c22]); (0x2c53, [0x2c23]);
  (0x2c54, [0x2c24]); (0x2c55, [0x2c25]); (0x2c56, [0x2c26]);
  (0x2c57, [0x2c27]); (0x2c58, [0x2c28]); (0x2c59, [0x2c29]);
  (0x2c5a, [0x2c2a]); (0x2c5b, [0x2c2b]); (0x2c5c, [0x2c2c]);
  (0x2c5d, [0x2c2d]); (0x2c5e, [0x2c2e]); (0x2c5f, [0x2c2f]);
  (0x2c61, [0x2c60]); (0x2c65, [0x023a]); (0x2c66, [0x023e]);
  (0x2c68, [0x2c67]); (0x2c6a, [0x2c69]); (0x2c6c, [0x2c6b]);
  (0x2c73, [0x2c72]); (0x2c76, [0x2c75]); (0x2c81, [0x2c80]);
  (0x2c83, [0x2c82]); (0x2c85, [0x2c84]); (0x2c87, [0x2c86]);
  (0x2c89, [0x2c88]); (0x2c8b, [0x2c8a]); (0x2c8d, [0x2c8c]);
  (0x2c8f, [0x2c8e]); (0x2c91, [0x2c90]); (0x2c93, [0x2c92]);
  (0x2c95, [0x2c94]); (0x2c97, [0x2c96]); (0x2c99, [0x2c98]);
  (0x2c9b, [0x2c9a]); (0x2c9d, [0x2c9c]); (0x2c9f, [0x2c9e]);
  (0x2ca1, [0x2ca0]); (0x2ca3, [0x2ca2]); (0x2ca5, [0x2ca4]);
  (0x2ca7, [0x2ca6]); (0x2ca9, [0x2ca8]); (0x2cab, [0x2caa]);
  (0x2cad, [0x2cac]); (0x2caf, [0x2cae]); (0x2cb1, [0x2cb0]);
  (0x2cb3, [0x2cb2]); (0x2cb5, [0x2cb4]); (0x2cb7, [0x2cb6]);
  (0x2cb9, [0x2cb8]); (0x2cbb, [0x2cba]); (0x2cbd, [0x2cbc]);
  (0x2cbf, [0x2cbe]); (0x2cc1, [0x2cc0]); (0x2cc3, [0x2cc2]);
  (0x2cc5, [0x2cc4]); (0x2cc7, [0x2cc6]); (0x2cc9, [0x2cc8]);
  (0x2ccb, [0x2cca]); (0x2ccd, [0x2ccc]); (0x2ccf, [0x2cce]);
  (0x2cd1, [0x2cd0]); (0x2cd3, [0x2cd2]); (0x2cd5, [0x2cd4]);
  (0x2cd7, [0x2cd6]); (0x2cd9, [0x2cd8]); (0x2cdb, [0x2cda]);
  (0x2cdd, [0x2cdc]); (0x2cdf, [0x2cde]); (0x2ce1, [0x2ce0]);
  (0x2ce3, [0x2ce2]); (0x2cec, [0x2ceb]); (0x2cee, [0x2ced]);
  (0x2cf3, [0x2cf2]); (0x2d00, [0x10a0]); (0x2d01, [0x10a1]);
  (0x2d02, [0x10a2]); (0x2d03, [0x10a3]); (0x2d04, [0x10a4]);
  (0x2d05, [0x10a5]); (0x2d06, [0x10a6]); (0x2d07, [0x10a7]);
  (0x2d08, [0x10a8]); (0x2d09, [0x10a9]); (0x2d0a, [0x10aa]);
  (0x2d0b, [0x10ab]); (0x2d0c, [0x10ac]); (0x2d0d, [0x10ad]);
  (0x2d0e, [0x10ae]); (0x2d0f, [0x10af]); (0x2d10, [0x10b0]);
  (0x2d11, [0x10b1]); (0x2d12, [0x10b2]); (0x2d13, [0x10b3]);
  (0x2d14, [0x10b4]); (0x2d15, [0x10b5]); (0x2d16, [0x10b6]);
  (0x2d17, [0x10b7]); (0x2d18, [0x10b8]); (0x2d19, [0x10b9]);
  (0x2d1a, [0x10ba]); (0x2d1b, [0x10bb]); (0x2d1c, [0x10bc]);
  (0x2d1d, [0x10bd]); (0x2d1e, [0x10be]); (0x2d1f, [0x10bf]);
  (0x2d20, [0x10c0]); (0x2d21, [0x10c1]); (0x2d22, [0x10c2]);
  (0x2d23, [0x10c3]); (0x2d24, [0x10c4]); (0x2d25, [0x10c5]);
  (0x2d27, [0x10c7]); (0x2d2d, [0x10cd]); (0xa641, [0xa640]);
  (0xa643, [0xa642]); (0xa645, [0xa644]); (0xa647, [0xa646]);
  (0xa649, [0xa648]); (0xa64b, [0xa64a]); (0xa64d, [0xa64c]);
  (0xa64f, [0xa64e]); (0xa651, [0xa650]); (0xa653, [0xa652]);
  (0xa655, [0xa654]); (0xa657, [0xa656]); (0xa659, [0xa658]);
  (0xa65b, [0xa65a]); (0xa65d, [0xa65c]); (0xa65f, [0xa65e]);
  (0xa661, [0xa660]); (0xa663, [0xa662]); (0xa665, [0xa664]);
  (0xa667, [0xa666]); (0xa669, [0xa668]); (0xa66b, [0xa66a]);
  (0xa66d, [0xa66c]); (0xa681, [0xa680]); (0xa683, [0xa682]);
  (0xa685, [0xa684]); (0xa687, [0xa686]); (0xa689, [0xa688]);
  (0xa68b, [0xa68a]); (0xa68d, [0xa68c]); (0xa68f, [0xa68e]);
  (0xa691, [0xa690]); (0xa693, [0xa692]); (0xa695, [0xa694]);
  (0xa697, [0xa696]); (0xa699, [0xa698]); (0xa69b, [0xa69a]);
  (0xa723, [0xa722]); (0xa725, [0xa724]); (0xa727, [0xa726]);
  (0xa729, [0xa728]); (0xa72b, [0xa72a]); (0xa72d, [0xa72c]);
  (0xa72f, [0xa72e]); (0xa733, [0xa732]); (0xa735, [0xa734]);
  (0xa737, [0xa736]); (0xa739, [0xa738]); (0xa73b, [0xa73a]);
  (0xa73d, [0xa73c]); (0xa73f, [0xa73e]); (0xa741, [0xa740]);
  (0xa743, [0xa742]); (0xa745, [0xa744]); (0xa747, [0xa746]);
  (0xa749, [0xa748]); (0xa74b, [0xa74a]); (0xa74d, [0xa74c]);
  (0xa74f, [0xa74e]); (0xa751, [0xa750]); (0xa753, [0xa752]);
  (0xa755, [0xa754]); (0xa757, [0xa756]); (0xa759, [0xa758]);
  (0xa75b, [0xa75a]); (0xa75d, [0xa75c]); (0xa75f, [0xa75e]);
  (0xa761, [0xa760]); (0xa763, [0xa762]); (0xa765, [0xa764]);
  (0xa767, [0xa766]); (0xa769, [0xa768]); (0xa76b, [0xa76a]);
  (0xa76d, [0xa76c]); (0xa76f, [0xa76e]); (0xa77a, [0xa779]);
  (0xa77c, [0xa77b]); (0xa77f, [0xa77e]); (0xa781, [0xa780]);
  (0xa783, [0xa782]); (0xa785, [0xa784]); (0xa787, [0xa786]);
  (0xa78c, [0xa78b]); (0xa791, [0xa790]); (0xa793, [0xa792]);
  (0xa794, [0xa7c4]); (0xa797, [0xa796]); (0xa799, [0xa798]);
  (0xa79b, [0xa79a]); (0xa79d, [0xa79c]); (0xa79f, [0xa79e]);
  (0xa7a1, [0xa7a0]); (0xa7a3, [0xa7a2]); (0xa7a5, [0xa7a4]);
  (0xa7a7, [0xa7a6]); (0xa7a9, [0xa7a8]); (0xa7b5, [0xa7b4]);
  (0xa7b7, [0xa7b6]); (0xa7b9, [0xa7b8]); (0xa7bb, [0xa7ba]);
  (0xa7bd, [0xa7bc]); (0xa7bf, [0xa7be]); (0xa7c1, [0xa7c0]);
  (0xa7c3, [0xa7c2]); (0xa7c8, [0xa7c7]); (0xa7ca, [0xa7c9]);
  (0xa7d1, [0xa7d0]); (0xa7d7, [0xa7d6]); (0xa7d9, [0xa7d8]);
  (0xa7f6, [0xa7f5]); (0xab53, [0xa7b3]); (0xab70, [0x13a0]);
  (0xab71, [0x13a1]); (0xab72, [0x13a2]); (0xab73, [0x13a3]);
  (0xab74, [0x13a4]); (0xab75, [0x13a5]); (0xab76, [0x13a6]);
  (0xab77, [0x13a7]); (0xab78, [0x13a8]); (0xab79, [0x13a9]);
  (0xab7a, [0x13aa]); (0xab7b, [0x13ab]); (0xab7c, [0x13ac]);
  (0xab7d, [0x13ad]); (0xab7e, [0x13ae]); (0xab7f, [0x13af]);
  (0xab80, [0x13b0]); (0xab81, [0x13b1]); (0xab82, [0x13b2]);
  (0xab83, [0x13b3]); (0xab84, [0x13b4]); (0xab85, [0x13b5]);
  (0xab86, [0x13b6]); (0xab87, [0x13b7]); (0xab88, [0x13b8]);
  (0xab89, [0x13b9]); (0xab8a, [0x13ba]); (0xab8b, [0x13bb]);
  (0xab8c, [0x13bc]); (0xab8d, [0x13bd]); (0xab8e, [0x13be]);
  (0xab8f, [0x13bf]); (0xab90, [0x13c0]); (0xab91, [0x13c1]);
  (0xab92, [0x13c2]); (0xab93, [0x13c3]); (0xab94, [0x13c4]);
  (0xab95, [0x13c5]); (0xab96, [0x13c6]); (0xab97, [0x13c7]);
  (0xab98, [0x13c8]); (0xab99, [0x13c9]); (0xab9a, [0x13ca]);
  (0xab9b, [0x13cb]); (0xab9c, [0x13cc]); (0xab9d, [0x13cd]);
  (0xab9e, [0x13ce]); (0xab9f, [0x13cf]); (0xaba0, [0x13d0]);
  (0xaba1, [0x13d1]); (0xaba2, [0x13d2]); (0xaba3, [0x13d3]);
  (0xaba4, [0x13d4]); (0xaba5, [0x13d5]); (0xaba6, [0x13d6]);
  (0xaba7, [0x13d7]); (0xaba8, [0x13d8]); (0xaba9, [0x13d9]);
  (0xabaa, [0x13da]); (0xabab, [0x13db]); (0xabac, [0x13dc]);
  (0xabad, [0x13dd]); (0xabae, [0x13de]); (0xabaf, [0x13df]);
  (0xabb0, [0x13e0]); (0xabb1, [0x13e1]); (0xabb2, [0x13e2]);
  (0xabb3, [0x13e3]); (0xabb4, [0x13e4]); (0xabb5, [0x13e5]);
  (0xabb6, [0x13e6]); (0xabb7, [0x13e7]); (0xabb8, [0x13e8]);
  (0xabb9, [0x13e9]); (0xabba, [0x13ea]); (0xabbb, [0x13eb]);
  (0xabbc, [0x13ec]); (0xabbd, [0x13ed]); (0xabbe, [0x13ee]);
  (0xabbf, [0x13ef]); (0xfb00, [0x0046; 0x0046]); (0xfb01, [0x0046; 0x0049]);
  (0xfb02, [0x0046; 0x004c]); (0xfb03, [0x0046; 0x0046; 0x0049]);
  (0xfb04, [0x0046; 0x0046; 0x004c]); (0xfb05, [0x0053; 0x0054]);
  (0xfb06, [0x0053; 0x0054]); (0xfb13, [0x0544; 0x0546]);
  (0xfb14, [0x0544; 0x0535]); (0xfb15, [0x0544; 0x053b]);
  (0xfb16, [0x054e; 0x0546]); (0xfb17, [0x0544; 0x053d]); (0xff41, [0xff21]);
  (0xff42, [0xff22]); (0xff43, [0xff23]); (0xff44, [0xff24]);
  (0xff45, [0xff25]); (0xff46, [0xff26]); (0xff47, [0xff27]);
  (0xff48, [0xff28]); (0xff49, [0xff29]); (0xff4a, [0xff2a]);
  (0xff4b, [0xff2b]); (0xff4c, [0xff2c]); (0xff4d, [0xff2d]);
  (0xff4e, [0xff2e]); (0xff4f, [0xff2f]); (0xff50, [0xff30]);
  (0xff51, [0xff31]); (0xff52, [0xff32]); (0xff53, [0xff33]);
  (0xff54, [0xff34]); (0xff55, [0xff35]); (0xff56, [0xff36]);
  (0xff57, [0xff37]); (0xff58, [0xff38]); (0xff59, [0xff39]);
  (0xff5a, [0xff3a]); (0x10428, [0x10400]); (0x10429, [0x10401]);
  (0x1042a, [0x10402]); (0x1042b, [0x10403]); (0x1042c, [0x10404]);
  (0x1042d, [0x10405]); (0x1042e, [0x10406]); (0x1042f, [0x10407]);
  (0x10430, [0x10408]); (0x10431, [0x10409]); (0x10432, [0x1040a]);
  (0x10433, [0x1040b]); (0x10434, [0x1040c]); (0x10435, [0x1040d]);
  (0x10436, [0x1040e]); (0x10437, [0x1040f]); (0x10438, [0x10410]);
  (0x10439, [0x10411]); (0x1043a, [0x10412]); (0x1043b, [0x10413]);
  (0x1043c, [0x10414]); (0x1043d, [0x10415]); (0x1043e, [0x10416]);
  (0x1043f, [0x10417]); (0x10440, [0x10418]); (0x10441, [0x10419]);
  (0x10442, [0x1041a]); (0x10443, [0x1041b]); (0x10444, [0x1041c]);
  (0x10445, [0x1041d]); (0x10446, [0x1041e]); (0x10447, [0x1041f]);
  (0x10448, [0x10420]); (0x10449, [0x10421]); (0x1044a, [0x10422]);
  (0x1044b, [0x10423]); (0x1044c, [0x10424]); (0x1044d, [0x10425]);
  (0x1044e, [0x10426]); (0x1044f, [0x10427]); (0x104d8, [0x104b0]);
  (0x104d9, [0x104b1]); (0x104da, [0x104b2]); (0x104db, [0x104b3]);
  (0x104dc, [0x104b4]); (0x104dd, [0x104b5]); (0x104de, [0x104b6]);
  (0x104df, [0x104b7]); (0x104e0, [0x104b8]); (0x104e1, [0x104b9]);
  (0x104e2, [0x104ba]); (0x104e3, [0x104bb]); (0x104e4, [0x104bc]);
  (0x104e5, [0x104bd]); (0x104e6, [0x104be]); (0x104e7, [0x104bf]);
  (0x104e8, [0x104c0]); (0x104e9, [0x104c1]); (0x104ea, [0x104c2]);
  (0x104eb, [0x104c3]); (0x104ec, [0x104c4]); (0x104ed, [0x104c5]);
  (0x104ee, [0x104c6]); (0x104ef, [0x104c7]); (0x104f0, [0x104c8]);
  (0x104f1, [0x104c9]); (0x104f2, [0x104ca]); (0x104f3, [0x104cb]);
  (0x104f4, [0x104cc]); (0x104f5, [0x104cd]); (0x104f6, [0x104ce]);
  (0x104f7, [0x104cf]); (0x104f8, [0x104d0]); (0x104f9, [0x104d1]);
  (0x104fa, [0x104d2]); (0x104fb, [0x104d3]); (0x10597, [0x10570]);
  (0x10598, [0x10571]); (0x10599, [0x10572]); (0x1059a, [0x10573]);
  (0x1059b, [0x10574]); (0x1059c, [0x10575]); (0x1059d, [0x10576]);
  (0x1059e, [0x10577]); (0x1059f, [0x10578]); (0x105a0, [0x10579]);
  (0x105a1, [0x1057a]); (0x105a3, [0x1057c]); (0x105a4, [0x1057d]);
  (0x105a5, [0x1057e]); (0x105a6, [0x1057f]); (0x105a7, [0x10580]);
  (0x105a8, [0x10581]); (0x105a9, [0x10582]); (0x105aa, [0x10583]);
  (0x105ab, [0x10584]); (0x105ac, [0x10585]); (0x105ad, [0x10586]);
  (0x105ae, [0x10587]); (0x105af, [0x10588]); (0x105b0, [0x10589]);
  (0x105b1, [0x1058a]); (0x105b3, [0x1058c]); (0x105b4, [0x1058d]);
  (0x105b5, [0x1058e]); (0x105b6, [0x1058f]); (0x105b7, [0x10590]);
  (0x105b8, [0x10591]); (0x105b9, [0x10592]); (0x105bb, [0x10594]);
  (0x105bc, [0x10595]); (0x10cc0, [0x10c80]); (0x10cc1, [0x10c81]);
  (0x10cc2, [0x10c82]); (0x10cc3, [0x10c83]); (0x10cc4, [0x10c84]);
  (0x10cc5, [0x10c85]); (0x10cc6, [0x10c86]); (0x10cc7, [0x10c87]);
  (0x10cc8, [0x10c88]); (0x10cc9, [0x10c89]); (0x10cca, [0x10c8a]);
  (0x10ccb, [0x10c8b]); (0x10ccc, [0x10c8c]); (0x10ccd, [0x10c8d]);
  (0x10cce, [0x10c8e]); (0x10ccf, [0x10c8f]); (0x10cd0, [0x10c90]);
  (0x10cd1, [0x10c91]); (0x10cd2, [0x10c92]); (0x10cd3, [0x10c93]);
  (0x10cd4, [0x10c94]); (0x10cd5, [0x10c95]); (0x10cd6, [0x10c96]);
  (0x10cd7, [0x10c97]); (0x10cd8, [0x10c98]); (0x10cd9, [0x10c99]);
  (0x10cda, [0x10c9a]); (0x10cdb, [0x10c9b]); (0x10cdc, [0x10c9c]);
  (0x10cdd, [0x10c9d]); (0x10cde, [0x10c9e]); (0x10cdf, [0x10c9f]);
  (0x10ce0, [0x10ca0]); (0x10ce1, [0x10ca1]); (0x10ce2, [0x10ca2]);
  (0x10ce3, [0x10ca3]); (0x10ce4, [0x10ca4]); (0x10ce5, [0x10ca5]);
  (0x10ce6, [0x10ca6]); (0x10ce7, [0x10ca7]); (0x10ce8, [0x10ca8]);
  (0x10ce9, [0x10ca9]); (0x10cea, [0x10caa]); (0x10ceb, [0x10cab]);
  (0x10cec, [0x10cac]); (0x10ced, [0x10cad]); (0x10cee, [0x10cae]);
  (0x10cef, [0x10caf]); (0x10cf0, [0x10cb0]); (0x10cf1, [0x10cb1]);
  (0x10cf2, [0x10cb2]); (0x118c0, [0x118a0]); (0x118c1, [0x118a1]);
  (0x118c2, [0x118a2]); (0x118c3, [0x118a3]); (0x118c4, [0x118a4]);
  (0x118c5, [0x118a5]); (0x118c6, [0x118a6]); (0x118c7, [0x118a7]);
  (0x118c8, [0x118a8]); (0x118c9, [0x118a9]); (0x118ca, [0x118aa]);
  (0x118cb, [0x118ab]); (0x118cc, [0x118ac]); (0x118cd, [0x118ad]);
  (0x118ce, [0x118ae]); (0x118cf, [0x118af]); (0x118d0, [0x118b0]);
  (0x118d1, [0x118b1]); (0x118d2, [0x118b2]); (0x118d3, [0x118b3]);
  (0x118d4, [0x118b4]); (0x118d5, [0x118b5]); (0x118d6, [0x118b6]);
  (0x118d7, [0x118b7]); (0x118d8, [0x118b8]); (0x118d9, [0x118b9]);
  (0x118da, [0x118ba]); (0x118db, [0x118bb]); (0x118dc, [0x118bc]);
  (0x118dd, [0x118bd]); (0x118de, [0x118be]); (0x118df, [0x118bf]);
  (0x16e60, [0x16e40]); (0x16e61, [0x16e41]); (0x16e62, [0x16e42]);
  (0x16e63, [0x16e43]); (0x16e64, [0x16e44]); (0x16e65, [0x16e45]);
  (0x16e66, [0x16e46]); (0x16e67, [0x16e47]); (0x16e68, [0x16e48]);
  (0x16e69, [0x16e49]); (0x16e6a, [0x16e4a]); (0x16e6b, [0x16e4b]);
  (0x16e6c, [0x16e4c]); (0x16e6d, [0x16e4d]); (0x16e6e, [0x16e4e]);
  (0x16e6f, [0x16e4f]); (0x16e70, [0x16e50]); (0x16e71, [0x16e51]);
  (0x16e72, [0x16e52]); (0x16e73, [0x16e53]); (0x16e74, [0x16e54]);
  (0x16e75, [0x16e55]); (0x16e76, [0x16e56]); (0x16e77, [0x16e57]);
  (0x16e78, [0x16e58]); (0x16e79, [0x16e59]); (0x16e7a, [0x16e5a]);
  (0x16e7b, [0x16e5b]); (0x16e7c, [0x16e5c]); (0x16e7d, [0x16e5d]);
  (0x16e7e, [0x16e5e]); (0x16e7f, [0x16e5f]); (0x1e922, [0x1e900]);
  (0x1e923, [0x1e901]); (0x1e924, [0x1e902]); (0x1e925, [0x1e903]);
  (0x1e926, [0x1e904]); (0x1e927, [0x1e905]); (0x1e928, [0x1e906]);
  (0x1e929, [0x1e907]); (0x1e92a, [0x1e908]); (0x1e92b, [0x1e909]);
  (0x1e92c, [0x1e90a]); (0x1e92d, [0x1e90b]); (0x1e92e, [0x1e90c]);
  (0x1e92f, [0x1e90d]); (0x1e930, [0x1e90e]); (0x1e931, [0x1e90f]);
  (0x1e932, [0x1e910]); (0x1e933, [0x1e911]); (0x1e934, [0x1e912]);
  (0x1e935, [0x1e913]); (0x1e936, [0x1e914]); (0x1e937, [0x1e915]);
  (0x1e938, [0x1e916]); (0x1e939, [0x1e917]); (0x1e93a, [0x1e918]);
  (0x1e93b, [0x1e919]); (0x1e93c, [0x1e91a]); (0x1e93d, [0x1e91b]);
  (0x1e93e, [0x1e91c]); (0x1e93f, [0x1e91d]); (0x1e940, [0x1e91e]);
  (0x1e941, [0x1e91f]); (0x1e942, [0x1e920]); (0x1e943, [0x1e921])
 ]%N.

Fixpoint uppercase_lookup (cp : N) (table : list (N * list N))
  : option (list N) :=
  match table with
  | [] => None
  | (k, v) :: table' => if (k =? cp)%N then Some v else uppercase_lookup cp table'
  end.

(** A continuation byte [10xxxxxx] and the six bits it carries. *)
Definition is_continuation (c : ascii) : bool :=
  ((0x80 <=? N_of_ascii c) && (N_of_ascii c <? 0xc0))%N.

Definition payload (c : ascii) : N := (N_of_ascii c mod 64)%N.

(** The code point of a well-formed sequence of two, three or four bytes
    (shortest form only, at most U+10FFFF). *)
Definition utf8_2 (c0 c1 : ascii) : option N :=
  let b0 := N_of_ascii c0 in
  if ((0xc0 <=? b0)%N && (b0 <? 0xe0)%N && is_continuation c1)%bool then
    let cp := ((b0 - 0xc0) * 64 + payload c1)%N in
    if (0x80 <=? cp)%N then Some cp else None
  else None.

Definition utf8_3 (c0 c1 c2 : ascii) : option N :=
  let b0 := N_of_ascii c0 in
  if ((0xe0 <=? b0)%N && (b0 <? 0xf0)%N && is_continuation c1
      && is_continuation c2)%bool then
    let cp := ((b0 - 0xe0) * 4096 + payload c1 * 64 + payload c2)%N in
    if (0x800 <=? cp)%N then Some cp else None
  else None.

Definition utf8_4 (c0 c1 c2 c3 : ascii) : option N :=
  let b0 := N_of_ascii c0 in
  if ((0xf0 <=? b0)%N && (b0 <? 0xf8)%N && is_continuation c1
      && is_continuation c2 && is_continuation c3)%bool then
    let cp := ((b0 - 0xf0) * 262144 + payload c1 * 4096 + payload c2 * 64
               + payload c3)%N in
    if ((0x10000 <=? cp) && (cp <=? 0x10ffff))%N then Some cp else None
  else None.

(** The UTF-8 bytes of a code point. *)
Definition utf8_encode (cp : N) : string :=
  let byte n := ascii_of_N n in
  let cont n := byte (0x80 + n mod 64)%N in
  if (cp <? 0x80)%N then String (byte cp) EmptyString
  else if (cp <? 0x800)%N then
    String (byte (0xc0 + cp / 64)%N) (String (cont cp) EmptyString)
  else if (cp <? 0x10000)%N then
    String (byte (0xe0 + cp / 4096)%N)
      (String (cont (cp / 64)%N) (String (cont cp) EmptyString))
  else
    String (byte (0xf0 + cp / 262144)%N)
      (String (cont (cp / 4096)%N)
         (String (cont (cp / 64)%N) (String (cont cp) EmptyString))).

(** The uppercase of the code point [cp], whose bytes are [bytes]. *)
Definition upper_codepoint (cp : N) (bytes : string) : string :=
  match uppercase_lookup cp uppercase_mapping with
  | Some cps => String.concat EmptyString (map utf8_encode cps)
  | None => bytes
  end.

(** [s.upper()]: every code point is replaced by its uppercase mapping, with
    no regard to its neighbours.  Bytes that belong to no well-formed
    sequence (no [str] has them) are kept. *)
Fixpoint upper (s : string) : string :=
  match s with
  | EmptyString => EmptyString
  | String c0 s1 =>
      if (N_of_ascii c0 <? 0x80)%N then String (ascii_upper c0) (upper s1)
      else
        match s1 with
        | EmptyString => String c0 EmptyString
        | String c1 s2 =>
            match utf8_2 c0 c1 with
            | Some cp =>
                upper_codepoint cp (String c0 (String c1 EmptyString))
                ++ upper s2
            | None =>
                match s2 with
                | EmptyString => String c0 (upper s1)
                | String c2 s3 =>
                    match utf8_3 c0 c1 c2 with
                    | Some cp =>
                        upper_codepoint cp
                          (String c0 (String c1 (String c2 EmptyString)))
                        ++ upper s3
                    | None =>
                        match s3 with
                        | EmptyString => String c0 (upper s1)
                        | String c3 s4 =>
                            match utf8_4 c0 c1 c2 c3 with
                            | Some cp =>
                                upper_codepoint cp
                                  (String c0 (String c1 (String c2
                                     (String c3 EmptyString))))
                                ++ upper s4
                            | None => String c0 (upper s1)
                            end
                        end
                    end
                end
            end
        end
  end.

(* ------------------------------------------------------------------ *)
(** ** Enumerations *)

Module GarmentSize.
Inductive t : Type := XS | S | M | L | XL | XXL.

(** [size.value] *)
Definition value (s : t) : string :=
  match s with
  | XS => "XS" | S => "S" | M => "M" | L => "L" | XL => "XL" | XXL => "XXL"
  end.

(** Members in definition order. *)
Definition members : list t := [XS; S; M; L; XL; XXL].

Definition eqb (a b : t) : bool :=
  match a, b with
  | XS, XS | S, S | M, M | L, L | XL, XL | XXL, XXL => true
  | _, _ => false
  end.

(** [GarmentSize(v)]: lookup by value, [ValueError] when no member has
    that value. *)
Definition of_value (v : string) : result t :=
  match find (fun s => String.eqb (value s) v) members with
  | Some s => Ok s
  | None => Raise ValueError
  end.
End GarmentSize.

Module FitType.
Inductive t : Type := TIGHT | PERFECT | LOOSE.

Definition value (f : t) : string :=
  match f with
  | TIGHT => "tight" | PERFECT => "perfect" | LOOSE => "loose"
  end.
End FitType.

(* ------------------------------------------------------------------ *)
(** ** Records *)

Record GarmentMeasurements : Type := mkGarmentMeasurements {
  size : GarmentSize.t;
  chest_cm : pyfloat;
  length_cm : pyfloat;
  shoulder_width_cm : pyfloat;
  sleeve_length_cm : pyfloat
}.

Record FitAnalysis : Type := mkFitAnalysis {
  recommended_size : GarmentSize.t;
  selected_size : GarmentSize.t;
  fit_type : FitType.t;
  chest_difference_cm : pyfloat;
  length_difference_cm : pyfloat;
  fit_score : pyfloat;
  fit_description : string
}.

Record FitTolerance : Type := mkFitTolerance {
  perfect_range : pyfloat;
  loose_threshold : pyfloat;
  tight_threshold : pyfloat
}.

(* ------------------------------------------------------------------ *)
(** ** GarmentSizingSystem *)

(** A dict in insertion order. *)
Definition dict (K V : Type) : Type := list (K * V).

Fixpoint dict_get {K V : Type} (eqb : K -> K -> bool) (d : dict K V) (k : K)
  : result V :=
  match d with
  | [] => Raise KeyError
  | (k', v) :: d' => if eqb k' k then Ok v else dict_get eqb d' k
  end.

(** [d[k] = v]: overwrite in place when the key is present, append
    otherwise. *)
Fixpoint dict_set {K V : Type} (eqb : K -> K -> bool) (d : dict K V) (k : K)
  (v : V) : dict K V :=
  match d with
  | [] => [(k, v)]
  | (k', v') :: d' =>
      if eqb k' k then (k', v) :: d' else (k', v') :: dict_set eqb d' k v
  end.

Definition garment (s : GarmentSize.t) (chest length shoulder sleeve : Z)
  : GarmentMeasurements :=
  mkGarmentMeasurements s (of_int chest) (of_int length) (of_int shoulder)
    (of_int sleeve).

Definition shirt_measurements : dict GarmentSize.t GarmentMeasurements :=
  [ (GarmentSize.XS, garment GarmentSize.XS 86 66 42 59);
    (GarmentSize.S, garment GarmentSize.S 91 68 44 61);
    (GarmentSize.M, garment GarmentSize.M 97 70 46 63);
    (GarmentSize.L, garment GarmentSize.L 102 72 48 65);
    (GarmentSize.XL, garment GarmentSize.XL 107 74 50 67);
    (GarmentSize.XXL, garment GarmentSize.XXL 112 76 52 69) ].

Definition fit_tolerance : FitTolerance :=
  {| perfect_range := lit 2 1;
     loose_threshold := lit 8 1;
     tight_threshold := lit (-3) 1 |}.

(** The gender adjustment of [get_recommended_size]. *)
Definition target_chest (chest_measurement : pyfloat) (gender : string)
  : pyfloat :=
  if String.eqb (lower gender) "female" then (chest_measurement + of_int 2)%F
  else if String.eqb (lower gender) "male" then (chest_measurement + of_int 4)%F
  else (chest_measurement + of_int 3)%F.

(** The body of the search loop, on the pair
    [(best_size, min_difference)]. *)
Definition closest_step (target_chest : pyfloat)
  (acc : GarmentSize.t * pyfloat) (item : GarmentSize.t * GarmentMeasurements)
  : GarmentSize.t * pyfloat :=
  let '(best_size, min_difference) := acc in
  let '(size, measurements) := item in
  let difference := fabs (chest_cm measurements - target_chest)%F in
  if (difference <? min_difference)%F then (size, difference)
  else (best_size, min_difference).

Definition get_recommended_size (chest_measurement : pyfloat) (gender : string)
  : GarmentSize.t :=
  let target_chest := target_chest chest_measurement gender in
  let best_size := GarmentSize.M in
  let min_difference := PInf in
  fst (fold_left (closest_step target_chest) shirt_measurements
         (best_size, min_difference)).

Definition analyze_fit (person_chest person_height : pyfloat)
  (selected_size : GarmentSize.t) (gender : string) : result FitAnalysis :=
  (let recommended_size := get_recommended_size person_chest gender in
   garment_measurements <- dict_get GarmentSize.eqb shirt_measurements selected_size ;;
   let chest_difference := (chest_cm garment_measurements - person_chest)%F in
   let length_difference :=
     (length_cm garment_measurements - person_height * lit 2 5)%F in
   let '(fit_type, fit_description) :=
     if (chest_difference <=? tight_threshold fit_tolerance)%F then
       (FitType.TIGHT, "This size will be tight and may restrict movement"%string)
     else if (chest_difference >=? loose_threshold fit_tolerance)%F then
       (FitType.LOOSE, "This size will be loose and may look oversized"%string)
     else if (fabs chest_difference <=? perfect_range fit_tolerance)%F then
       (FitType.PERFECT, "This size provides an excellent fit"%string)
     else if (chest_difference >? of_int 0)%F then
       (FitType.LOOSE, "This size will be somewhat loose but comfortable"%string)
     else
       (FitType.TIGHT, "This size will be somewhat snug but wearable"%string) in
   let chest_penalty := py_min (fabs chest_difference * of_int 10)%F (of_int 50) in
   let length_penalty := py_min (fabs length_difference * of_int 5)%F (of_int 20) in
   let fit_score := py_max (of_int 0) (of_int 100 - chest_penalty - length_penalty)%F in
   Ok {| recommended_size := recommended_size;
         selected_size := selected_size;
         fit_type := fit_type;
         chest_difference_cm := chest_difference;
         length_difference_cm := length_difference;
         fit_score := fit_score;
         fit_description := fit_description |})%result.

Definition get_available_sizes : list GarmentSize.t :=
  map fst shirt_measurements.

(** Monadic left fold: the body of a [for] loop that may raise. *)
Fixpoint foldM {A B : Type} (f : A -> B -> result A) (l : list B) (a : A)
  : result A :=
  match l with
  | [] => Ok a
  | b :: l' => bind (f a b) (foldM f l')
  end.

Record SizeMeasurements : Type := mkSizeMeasurements {
  m_chest : pyfloat;
  m_length : pyfloat;
  m_shoulder_width : pyfloat;
  m_sleeve_length : pyfloat
}.

(** One value of the ['size_analysis'] dict. *)
Record SizeEntry : Type := mkSizeEntry {
  is_recommended : bool;
  e_fit_type : string;
  e_fit_score : pyfloat;
  e_fit_description : string;
  e_chest_difference : pyfloat;
  e_length_difference : pyfloat;
  e_measurements : SizeMeasurements
}.

Record SizeComparison : Type := mkSizeComparison {
  c_recommended_size : string;
  c_person_measurements : pyfloat * pyfloat;
  size_analysis : dict string SizeEntry
}.

Definition get_size_comparison_data (person_chest person_height : pyfloat)
  (gender : string) : result SizeComparison :=
  (let recommended_size := get_recommended_size person_chest gender in
   let body (size_data : dict string SizeEntry) (size : GarmentSize.t) :=
     analysis <- analyze_fit person_chest person_height size gender ;;
     measurements <- dict_get GarmentSize.eqb shirt_measurements size ;;
     Ok (dict_set String.eqb size_data (GarmentSize.value size)
           {| is_recommended := GarmentSize.eqb size recommended_size;
              e_fit_type := FitType.value (fit_type analysis);
              e_fit_score := fit_score analysis;
              e_fit_description := fit_description analysis;
              e_chest_difference := chest_difference_cm analysis;
              e_length_difference := length_difference_cm analysis;
              e_measurements :=
                {| m_chest := chest_cm measurements;
                   m_length := length_cm measurements;
                   m_shoulder_width := shoulder_width_cm measurements;
                   m_sleeve_length := sleeve_length_cm measurements |} |}) in
   size_data <- foldM body get_available_sizes [] ;;
   Ok {| c_recommended_size := GarmentSize.value recommended_size;
         c_person_measurements := (person_chest, person_height);
         size_analysis := size_data |})%result.

(* ------------------------------------------------------------------ *)
(** ** Images and the OpenCV / NumPy calls the overlay relies on *)

(** [image.shape[:2]] *)
Record image : Type := mkImage {
  rows : N;
  cols : N
}.

(** [cv2.resize(src, (w, h))]: the source must be non-empty and both target
    dimensions positive; the result has [h] rows and [w] columns. *)
Definition cv2_resize (src : image) (dsize : Z * Z) : result image :=
  let '(w, h) := dsize in
  if ((0 <? rows src)%N && (0 <? cols src)%N && (0 <? w)%Z && (0 <? h)%Z)%bool
  then Ok {| rows := Z.to_N h; cols := Z.to_N w |}
  else Raise cv2_error.

(** Length of the slice [a:b] of an axis of length [n]. *)
Definition np_slice_len (n a b : Z) : Z :=
  let norm i := if (i <? 0)%Z then Z.max 0 (i + n) else Z.min i n in
  Z.max 0 (norm b - norm a).

(** Shape of [img[y0:y1, x0:x1]]. *)
Definition np_slice (img : image) (y0 y1 x0 x1 : Z) : image :=
  {| rows := Z.to_N (np_slice_len (Z.of_N (rows img)) y0 y1);
     cols := Z.to_N (np_slice_len (Z.of_N (cols img)) x0 x1) |}.

Definition image_eqb (a b : image) : bool :=
  ((rows a =? rows b)%N && (cols a =? cols b)%N)%bool.

(** [cv2.addWeighted(a, _, b, _, 0)]: both arrays must have the same size. *)
Definition cv2_addWeighted (a b : image) : result image :=
  if image_eqb a b then Ok a else Raise cv2_error.

(** [img[y0:y1, x0:x1] = patch]: the patch must have the shape of the
    slice. *)
Definition np_assign (img : image) (y0 y1 x0 x1 : Z) (patch : image)
  : result image :=
  if image_eqb (np_slice img y0 y1 x0 x1) patch then Ok img
  else Raise ValueError.

(** [l[i]] for a non-negative index. *)
Definition list_get {A : Type} (l : list A) (i : nat) : result A :=
  match nth_error l i with
  | Some a => Ok a
  | None => Raise IndexError
  end.

(* ------------------------------------------------------------------ *)
(** ** VirtualTryOnVisualizer *)

(** A pose landmark: a dict with (at least) the keys ['x'] and ['y']. *)
Definition landmark : Type := dict string pyfloat.

(** What [apply_garment_overlay] returns: the composite has the shape
    [shape]; the garment, resized to [garment_shape], was blended with
    weight [alpha] into the rectangle [start_y:end_y, start_x:end_x]. *)
Record Composite : Type := mkComposite {
  shape : image;
  start_x : Z;
  start_y : Z;
  end_x : Z;
  end_y : Z;
  garment_shape : image;
  alpha : pyfloat
}.

(** The guard [pose_landmarks and len(pose_landmarks) > 11]: the list the
    landmark branch works on when the guard holds. *)
Definition landmark_guard (pose_landmarks : option (list landmark))
  : option (list landmark) :=
  match pose_landmarks with
  | None => None
  | Some [] => None
  | Some l => if (11 <? List.length l)%nat then Some l else None
  end.

(** The positioning block of [apply_garment_overlay]: [center_x] and the
    [start_y] it computes before clipping. *)
Definition placement_anchor (person_h person_w : Z) (fit_analysis : FitAnalysis)
  (pose_landmarks : option (list landmark)) : result (Z * Z) :=
  match landmark_guard pose_landmarks with
  | Some l =>
      (p11 <- list_get l 11 ;;
       x11 <- dict_get String.eqb p11 "x" ;;
       left_shoulder_x <- py_int x11 ;;
       p12 <- list_get l 12 ;;
       x12 <- dict_get String.eqb p12 "x" ;;
       right_shoulder_x <- py_int x12 ;;
       p11' <- list_get l 11 ;;
       y11 <- dict_get String.eqb p11' "y" ;;
       p12' <- list_get l 12 ;;
       y12 <- dict_get String.eqb p12' "y" ;;
       shoulder_y <- py_int ((y11 + y12) / of_int 2)%F ;;
       let center_x := ((left_shoulder_x + right_shoulder_x) / 2)%Z in
       let start_y :=
         match fit_type fit_analysis with
         | FitType.TIGHT => (shoulder_y - 10)%Z
         | FitType.LOOSE => (shoulder_y - 30)%Z
         | FitType.PERFECT => (shoulder_y - 20)%Z
         end in
       Ok (center_x, start_y))%result
  | None =>
      let center_x := (person_w / 2)%Z in
      let start_y :=
        match fit_type fit_analysis with
        | FitType.TIGHT => (person_h / 4 + 20)%Z
        | FitType.LOOSE => (person_h / 4 - 20)%Z
        | FitType.PERFECT => (person_h / 4)%Z
        end in
      Ok (center_x, start_y)
  end.

(** The scaling block: [(scale_factor, alpha, width_adjustment,
    height_adjustment)] selected by the fit type. *)
Definition fit_parameters (fit_analysis : FitAnalysis)
  : pyfloat * pyfloat * pyfloat * pyfloat :=
  let chest_diff := chest_difference_cm fit_analysis in
  match fit_type fit_analysis with
  | FitType.TIGHT =>
      (lit 75 100 + chest_diff / lit 20 1, lit 95 100, lit 9 10, lit 105 100)%F
  | FitType.LOOSE =>
      (lit 1 1 + chest_diff / lit 15 1, lit 65 100, lit 12 10, lit 11 10)%F
  | FitType.PERFECT =>
      (lit 1 1, lit 8 10, lit 1 1, lit 1 1)
  end.

(** [(new_garment_w, new_garment_h)] *)
Definition new_garment_size (garment_image : image) (fit_analysis : FitAnalysis)
  : result (Z * Z) :=
  (let garment_h := Z.of_N (rows garment_image) in
   let garment_w := Z.of_N (cols garment_image) in
   let '(scale_factor, _, width_adjustment, height_adjustment) :=
     fit_parameters fit_analysis in
   new_garment_w <- py_int (of_int garment_w * scale_factor * width_adjustment)%F ;;
   new_garment_h <- py_int (of_int garment_h * scale_factor * height_adjustment)%F ;;
   Ok (new_garment_w, new_garment_h))%result.

(** The clipping block: [(start_x, start_y, end_x, end_y)] of the placement
    rectangle inside the person image. *)
Definition clip_placement (person_h person_w new_garment_h new_garment_w : Z)
  (center_x start_y : Z) : Z * Z * Z * Z :=
  let start_x := (center_x - new_garment_w / 2)%Z in
  let start_x := Z.max 0 (Z.min start_x (person_w - new_garment_w)) in
  let start_y := Z.max 0 (Z.min start_y (person_h - new_garment_h)) in
  let end_x := Z.min (start_x + new_garment_w) person_w in
  let end_y := Z.min (start_y + new_garment_h) person_h in
  (start_x, start_y, end_x, end_y).

Definition apply_garment_overlay (person_image garment_image : image)
  (fit_analysis : FitAnalysis) (pose_landmarks : option (list landmark))
  : result Composite :=
  (let person_h := Z.of_N (rows person_image) in
   let person_w := Z.of_N (cols person_image) in
   let '(_, alpha, _, _) := fit_parameters fit_analysis in
   new_size <- new_garment_size garment_image fit_analysis ;;
   let '(new_garment_w, new_garment_h) := new_size in
   (* the fit-specific filters keep the shape of the resized garment *)
   resized_garment <- cv2_resize garment_image (new_garment_w, new_garment_h) ;;
   anchor <- placement_anchor person_h person_w fit_analysis pose_landmarks ;;
   let '(center_x, start_y) := anchor in
   let '(start_x, start_y, end_x, end_y) :=
     clip_placement person_h person_w new_garment_h new_garment_w
       center_x start_y in
   let actual_w := (end_x - start_x)%Z in
   let actual_h := (end_y - start_y)%Z in
   resized_garment <-
     (if negb (actual_w =? new_garment_w)%Z || negb (actual_h =? new_garment_h)%Z
      then cv2_resize resized_garment (actual_w, actual_h)
      else Ok resized_garment) ;;
   let result := person_image in
   let garment_area := np_slice result start_y end_y start_x end_x in
   (* the three blending branches differ in pixel values only *)
   blended <- cv2_addWeighted garment_area resized_garment ;;
   result <- np_assign result start_y end_y start_x end_x blended ;;
   Ok {| shape := result;
         start_x := start_x; start_y := start_y;
         end_x := end_x; end_y := end_y;
         garment_shape := resized_garment;
         alpha := alpha |})%result.

(** [np.hstack] of images of equal height. *)
Definition np_hstack (imgs : list image) : image :=
  {| rows := match imgs with [] => 0%N | i :: _ => rows i end;
     cols := fold_right (fun i acc => (cols i + acc)%N) 0%N imgs |}.

(** Monadic map: a [for] loop appending one result per element. *)
Fixpoint mapM {A B : Type} (f : A -> result B) (l : list A) : result (list B) :=
  match l with
  | [] => Ok []
  | a :: l' => (b <- f a ;; bs <- mapM f l' ;; Ok (b :: bs))%result
  end.

Definition create_size_comparison_grid (person_image garment_image : image)
  (person_chest person_height : pyfloat) (gender : string)
  (pose_landmarks : option (list landmark)) : result image :=
  (let sizes_to_show := [GarmentSize.S; GarmentSize.M; GarmentSize.L] in
   images <- mapM (fun size =>
       fit_analysis <- analyze_fit person_chest person_height size gender ;;
       try_on_result <- apply_garment_overlay person_image garment_image
                          fit_analysis pose_landmarks ;;
       Ok (shape try_on_result)) sizes_to_show ;;
   let target_height := 400%Z in
   let target_width := 300%Z in
   resized_images <- mapM (fun img => cv2_resize img (target_width, target_height))
                       images ;;
   Ok (np_hstack resized_images))%result.

(* ------------------------------------------------------------------ *)
(** ** process_virtual_tryon_with_sizing *)

Record TryOnResponse : Type := mkTryOnResponse {
  success : bool;
  try_on_result : Composite;
  comparison_grid : image;
  r_fit_analysis : FitAnalysis;
  size_data : SizeComparison
}.

(** The [try: GarmentSize(selected_size.upper()) except ValueError: M]
    block. *)
Definition size_enum_of (selected_size : string) : GarmentSize.t :=
  match GarmentSize.of_value (upper selected_size) with
  | Ok s => s
  | Raise _ => GarmentSize.M
  end.

(** [person_image] and [garment_image] stand for what [cv2.imread] returned
    for the two paths: [None] when a file could not be read. *)
Definition process_virtual_tryon_with_sizing
  (person_image garment_image : option image)
  (person_chest person_height : pyfloat) (selected_size gender : string)
  (pose_landmarks : option (list landmark)) : result TryOnResponse :=
  match person_image, garment_image with
  | Some person_image, Some garment_image =>
      (let size_enum := size_enum_of selected_size in
       fit_analysis <- analyze_fit person_chest person_height size_enum gender ;;
       try_on_result <- apply_garment_overlay person_image garment_image
                          fit_analysis pose_landmarks ;;
       comparison_grid <- create_size_comparison_grid person_image garment_image
                            person_chest person_height gender pose_landmarks ;;
       size_data <- get_size_comparison_data person_chest person_height gender ;;
       Ok {| success := true;
             try_on_result := try_on_result;
             comparison_grid := comparison_grid;
             r_fit_analysis := fit_analysis;
             size_data := size_data |})%result
  | _, _ => Raise ValueError
  end.

(* ------------------------------------------------------------------ *)
(** ** body_measurements.py: the helpers of BodyMeasurementPredictor

    The predictor produces the chest measurement that the sizing functions
    above consume.  Its helpers are embedded here; [predict_measurements]
    itself, which rounds its outputs to one decimal and formats floats, is
    not. *)

Module Gender.
Inductive t : Type := MALE | FEMALE | UNISEX.

Definition eqb (a b : t) : bool :=
  match a, b with
  | MALE, MALE | FEMALE, FEMALE | UNISEX, UNISEX => true
  | _, _ => false
  end.
End Gender.

(** The size conversion charts: [(measurement, size)] in ascending
    order. *)
Definition male_shirt_sizes : list (Z * string) :=
  [(86, "XS"); (91, "S"); (97, "M"); (102, "L");
   (107, "XL"); (112, "XXL"); (117, "XXXL")]%Z.

Definition female_shirt_sizes : list (Z * string) :=
  [(81, "XS"); (86, "S"); (91, "M"); (97, "L");
   (102, "XL"); (107, "XXL"); (112, "XXXL")]%Z.

Definition male_pant_sizes : list (Z * string) :=
  [(71, "28"); (76, "30"); (81, "32"); (86, "34");
   (91, "36"); (97, "38"); (102, "40"); (107, "42")]%Z.

Definition female_dress_sizes : list (Z * string) :=
  [(81, "6"); (84, "8"); (89, "10"); (94, "12");
   (99, "14"); (104, "16"); (109, "18"); (114, "20")]%Z.

Definition _calculate_bmi_adjustment (bmi : pyfloat) : pyfloat :=
  if (bmi <? lit 185 10)%F then
    (lit 85 100 + (bmi - of_int 15) * lit 4 100)%F
  else if (bmi <=? lit 249 10)%F then
    (lit 95 100 + (bmi - lit 185 10) * lit 15 1000)%F
  else if (bmi <=? lit 299 10)%F then
    (lit 105 100 + (bmi - of_int 25) * lit 2 100)%F
  else
    (lit 115 100 + py_min ((bmi - of_int 30) * lit 25 1000)%F (lit 3 10))%F.

(** The loop [for measurement, size in sizes: if x <= measurement: return
    size]: the size returned inside the loop, if any. *)
Fixpoint chart_scan (x : pyfloat) (sizes : list (Z * string)) : option string :=
  match sizes with
  | [] => None
  | (measurement, size) :: rest =>
      if (x <=? of_int measurement)%F then Some size else chart_scan x rest
  end.

(** [l[-1]] *)
Definition list_last {A : Type} (l : list A) : result A :=
  match rev l with
  | a :: _ => Ok a
  | [] => Raise IndexError
  end.

Definition _determine_shirt_size (chest_cm : pyfloat) (gender : Gender.t)
  : result string :=
  let sizes := if Gender.eqb gender Gender.MALE then male_shirt_sizes
               else female_shirt_sizes in
  match chart_scan chest_cm sizes with
  | Some size => Ok size
  | None => (e <- list_last sizes ;; Ok (snd e))%result
  end.

Definition _determine_pant_size (waist_cm : pyfloat) (gender : Gender.t)
  : result string :=
  if Gender.eqb gender Gender.FEMALE then
    match chart_scan waist_cm female_dress_sizes with
    | Some size => Ok ("Size " ++ size)
    | None => (e <- list_last female_dress_sizes ;; Ok ("Size " ++ snd e))%result
    end
  else
    match chart_scan waist_cm male_pant_sizes with
    | Some size => Ok size
    | None => (e <- list_last male_pant_sizes ;; Ok (snd e))%result
    end.

Definition _determine_dress_size (chest_cm : pyfloat) (gender : Gender.t)
  : result string :=
  if Gender.eqb gender Gender.MALE then Ok "N/A"
  else
    match chart_scan chest_cm female_dress_sizes with
    | Some size => Ok size
    | None => (e <- list_last female_dress_sizes ;; Ok (snd e))%result
    end.

(** Rounding of a rational to the nearest integer, ties to even. *)
Definition round_half_even (q : Q) : Z :=
  let f := Qfloor q in
  let d := (q - inject_Z f)%Q in
  match (d ?= 1 # 2)%Q with
  | Lt => f
  | Gt => (f + 1)%Z
  | Eq => if Z.even f then f else (f + 1)%Z
  end.

(** [round(a)] with one argument: an [int]; [nan] and the infinities
    raise. *)
Definition py_round (a : pyfloat) : result Z :=
  match a with
  | Fin q => Ok (round_half_even q)
  | PInf | NInf => Raise OverflowError
  | NaN => Raise ValueError
  end.

(** [str(n)] of an [int]. *)
Definition str_of_int (n : Z) : string := NilZero.string_of_int (Z.to_int n).

Definition _estimate_shoe_size (height_cm : pyfloat) (gender : Gender.t)
  : result string :=
  (let foot_length_cm := (height_cm * lit 15 100)%F in
   if Gender.eqb gender Gender.MALE then
     let us_size := ((foot_length_cm - of_int 22) / lit 847 1000)%F in
     n <- py_round us_size ;;
     Ok ("US " ++ str_of_int (Z.max 6 (Z.min 15 n)) ++ " (approx)")
   else
     let us_size := ((foot_length_cm - of_int 21) / lit 847 1000)%F in
     n <- py_round us_size ;;
     Ok ("US " ++ str_of_int (Z.max 5 (Z.min 12 n)) ++ " (approx)"))%result.

Definition _estimate_body_fat (bmi : pyfloat) (gender : Gender.t) : pyfloat :=
  let body_fat :=
    if Gender.eqb gender Gender.MALE then
      (lit 120 100 * bmi + lit 23 100 * of_int 30 - lit 162 10)%F
    else
      (lit 120 100 * bmi + lit 23 100 * of_int 30 - lit 54 10)%F in
  py_max (of_int 3) (py_min (of_int 50) body_fat).

Definition _get_bmi_category (bmi : pyfloat) : string :=
  if (bmi <? lit 185 10)%F then "Underweight"
  else if (bmi <? of_int 25)%F then "Normal weight"
  else if (bmi <? of_int 30)%F then "Overweight"
  else "Obese".

(* ------------------------------------------------------------------ *)
(** ** Notions of the specification

    These follow the wording of the specification, not the code; the
    properties below compare the code with them. *)

(** [clamp(x, lo, hi)] *)
Definition clamp (x lo hi : pyfloat) : pyfloat :=
  if (x <? lo)%F then lo else if (hi <? x)%F then hi else x.

(** The comfort allowance by gender preference: 4 cm for male, 2 cm for
    female, 3 cm for anything else. *)
Definition comfort_allowance (gender : string) : Z :=
  if String.eqb (lower gender) "male" then 4
  else if String.eqb (lower gender) "female" then 2
  else 3.

(** Distance of a catalog record's chest to a target chest. *)
Definition chest_distance (target : pyfloat) (m : GarmentMeasurements) : pyfloat :=
  fabs (chest_cm m - target)%F.

(** [best] is the first entry, in iteration order, of the catalog whose
    chest is at minimal distance from [target]: strictly closer than every
    earlier entry, at least as close as every later one. *)
Definition first_closest (target : pyfloat) (best : GarmentSize.t) : Prop :=
  exists before m after,
    shirt_measurements = (before ++ (best, m) :: after)%list
    /\ Forall (fun e => (chest_distance target m <? chest_distance target (snd e))%F = true)
         before
    /\ Forall (fun e => (chest_distance target m <=? chest_distance target (snd e))%F = true)
         after.

(** The largest chest measurement for which the statements on the size
    search are made: 2^53.  Python subtracts in binary64: from about 7.2e16
    (2^56) on, the distances of a target to neighbouring catalog chests
    round to the same number and the search keeps the first of them, which
    the exact arithmetic of [pyfloat] does not show.  Up to 2^53 the size
    found is the same in both. *)
Definition chest_limit : Z := 2 ^ 53.

(** Every byte is an ASCII character. *)
Fixpoint is_ascii (s : string) : bool :=
  match s with
  | EmptyString => true
  | String c s' => (N_of_ascii c <? 0x80)%N && is_ascii s'
  end.

(** Sample values on which the statements are exercised. *)
Definition long_s_label : string :=
  String "x" (String (ascii_of_N 0xc5) (String (ascii_of_N 0xbf) EmptyString)).

Definition shoulder_at (x y : Z) : landmark :=
  [("x", of_int x); ("y", of_int y)].

Definition sample_image (h w : N) : image := {| rows := h; cols := w |}.

(** What [analyze_fit] returns for chest 96, height 175, size M, "male". *)
Definition perfect_fit_sample : FitAnalysis :=
  {| recommended_size := GarmentSize.L;
     selected_size := GarmentSize.M;
     fit_type := FitType.PERFECT;
     chest_difference_cm := Fin 1;
     length_difference_cm := Fin (0 # 5);
     fit_score := Fin (450 # 5);
     fit_description := "This size provides an excellent fit" |}.

(** What [analyze_fit] returns for chest 101, height 175, size XS,
    "male". *)
Definition tight_fit_sample : FitAnalysis :=
  {| recommended_size := GarmentSize.XL;
     selected_size := GarmentSize.XS;
     fit_type := FitType.TIGHT;
     chest_difference_cm := Fin (-15);
     length_difference_cm := Fin (-20 # 5);
     fit_score := Fin (150 # 5);
     fit_description := "This size will be tight and may restrict movement" |}.

(** One tile of [create_size_comparison_grid]: the analysis of a size
    followed by its overlay. *)
Definition grid_tile (person_image garment_image : image)
  (person_chest person_height : pyfloat) (gender : string)
  (pose_landmarks : option (list landmark)) (size : GarmentSize.t)
  : result Composite :=
  bind (analyze_fit person_chest person_height size gender)
    (fun fit_analysis =>
       apply_garment_overlay person_image garment_image fit_analysis
         pose_landmarks).

(** The size chart that [get_recommended_size] amounts to on a finite
    target chest: the midpoints between neighbouring catalog chests. *)
Definition size_chart (target : Q) : GarmentSize.t :=
  if Qle_bool target (177 # 2) then GarmentSize.XS
  else if Qle_bool target 94 then GarmentSize.S
  else if Qle_bool target (199 # 2) then GarmentSize.M
  else if Qle_bool target (209 # 2) then GarmentSize.L
  else if Qle_bool target (219 # 2) then GarmentSize.XL
  else GarmentSize.XXL.

(** Position of a size in the catalog. *)
Definition size_rank (s : GarmentSize.t) : nat :=
  match s with
  | GarmentSize.XS => 0
  | GarmentSize.S => 1
  | GarmentSize.M => 2
  | GarmentSize.L => 3
  | GarmentSize.XL => 4
  | GarmentSize.XXL => 5
  end.

(** Truncation toward zero, the integer [int()] returns on a finite
    float. *)
Definition trunc (q : Q) : Z := Z.quot (Qnum q) (Zpos (Qden q)).

(* ================================================================== *)
(** * Properties *)

(* ------------------------------------------------------------------ *)
(** ** Order facts on [pyfloat] *)

Lemma Qlt_bool_iff (a b : Q) : Qlt_bool a b = true <-> (a < b)%Q.
Proof.
  unfold Qlt_bool. rewrite Qlt_alt.
  destruct (a ?= b)%Q; split; congruence.
Qed.

Lemma Qlt_bool_false (a b : Q) : Qlt_bool a b = false <-> (b <= a)%Q.
Proof.
  unfold Qlt_bool. rewrite Qle_alt, <- (Qcompare_antisym a b).
  destruct (a ?= b)%Q; simpl; split; congruence.
Qed.

Lemma Qle_bool_false (a b : Q) : Qle_bool a b = false <-> (b < a)%Q.
Proof.
  split; intro H.
  - destruct (Qlt_le_dec b a) as [Hlt | Hle]; [exact Hlt |].
    apply Qle_bool_iff in Hle. congruence.
  - destruct (Qle_bool a b) eqn:E; [| reflexivity].
    apply Qle_bool_iff in E. lra.
Qed.

(** Turns every boolean comparison on rationals, in the goal and in the
    hypotheses, into the proposition it decides. *)
Ltac q_reflect :=
  repeat match goal with
  | H : Qlt_bool _ _ = true |- _ => apply Qlt_bool_iff in H
  | H : Qlt_bool _ _ = false |- _ => apply Qlt_bool_false in H
  | H : Qle_bool _ _ = true |- _ => apply Qle_bool_iff in H
  | H : Qle_bool _ _ = false |- _ => apply Qle_bool_false in H
  | |- Qlt_bool _ _ = true => apply Qlt_bool_iff
  | |- Qlt_bool _ _ = false => apply Qlt_bool_false
  | |- Qle_bool _ _ = true => apply Qle_bool_iff
  | |- Qle_bool _ _ = false => apply Qle_bool_false
  end.

(** Case split on the sign under every [Qabs]. *)
Ltac q_abs :=
  repeat match goal with
  | |- context [Qabs ?x] =>
      let H := fresh "Habs" in
      pattern (Qabs x); apply Qabs_case; intro H
  | H : context [Qabs ?x] |- _ =>
      revert H; pattern (Qabs x); apply Qabs_case; intros
  end.

Ltac q_solve := q_reflect; q_abs; unfold inject_Z in *; simpl in *; try lra.

Lemma flt_trans (a b c : pyfloat) :
  (a <? b)%F = true -> (b <? c)%F = true -> (a <? c)%F = true.
Proof. destruct a, b, c; simpl; intros; try congruence. q_solve. Qed.

Lemma flt_fle_trans (a b c : pyfloat) :
  (a <? b)%F = true -> (b <=? c)%F = true -> (a <? c)%F = true.
Proof. destruct a, b, c; simpl; intros; try congruence. q_solve. Qed.

(** Away from [nan] the order is total. *)
Lemma flt_false_fle (a b : pyfloat) :
  is_nan a = false -> is_nan b = false ->
  (a <? b)%F = false -> (b <=? a)%F = true.
Proof. destruct a, b; simpl; intros; try congruence. q_solve. Qed.

Lemma fle_refl (a : pyfloat) : is_nan a = false -> (a <=? a)%F = true.
Proof. destruct a; simpl; intros; try congruence. q_solve. Qed.

Lemma fle_not_nan (a b : pyfloat) :
  (a <=? b)%F = true -> is_nan a = false /\ is_nan b = false.
Proof. destruct a, b; simpl; intros; split; congruence. Qed.

Lemma fabs_not_nan (a : pyfloat) : is_nan (fabs a) = is_nan a.
Proof. destruct a; reflexivity. Qed.

(* ------------------------------------------------------------------ *)
(** ** The catalog *)

Lemma catalog_get (s : GarmentSize.t) :
  exists m, dict_get GarmentSize.eqb shirt_measurements s = Ok m
            /\ size m = s
            /\ is_finite (chest_cm m) = true
            /\ is_finite (length_cm m) = true.
Proof. destruct s; eexists; repeat split; reflexivity. Qed.

(* ------------------------------------------------------------------ *)
(** ** The two penalties of the fit score *)

Ltac split_ifs :=
  repeat match goal with
  | |- context [if ?b then _ else _] => destruct b eqn:?
  | H : context [if ?b then _ else _] |- _ => destruct b eqn:?
  end.

(** [min(abs(d) * k, cap)] is a finite number of [[0, cap]] unless [d] is
    [nan]. *)
Lemma penalty_finite (d : pyfloat) (k cap : positive) :
  is_nan d = false ->
  exists p, py_min (fabs d * of_int (Zpos k))%F (of_int (Zpos cap)) = Fin p
            /\ (0 <= p <= inject_Z (Zpos cap))%Q.
Proof.
  intros Hd. destruct d as [q | | |]; try discriminate Hd;
    unfold py_min, of_int; simpl; split_ifs;
    eexists; (split; [reflexivity |]); try discriminate.
  - unfold inject_Z; split; [| lra]. unfold Qle; simpl; lia.
  - q_reflect. split; [| exact Heqb].
    assert (0 <= Qabs q)%Q by apply Qabs_nonneg.
    assert (0 < inject_Z (Zpos k))%Q by (unfold inject_Z, Qlt; simpl; lia).
    nra.
  - unfold inject_Z; split; [| lra]. unfold Qle; simpl; lia.
  - unfold inject_Z; split; [| lra]. unfold Qle; simpl; lia.
Qed.

Lemma penalty_nan (k cap : positive) :
  py_min (fabs NaN * of_int (Zpos k))%F (of_int (Zpos cap)) = NaN.
Proof. reflexivity. Qed.

(** The penalty grows with the absolute difference. *)
Lemma penalty_mono (d1 d2 : pyfloat) (k cap : positive) (p1 p2 : Q) :
  (fabs d1 <=? fabs d2)%F = true ->
  py_min (fabs d1 * of_int (Zpos k))%F (of_int (Zpos cap)) = Fin p1 ->
  py_min (fabs d2 * of_int (Zpos k))%F (of_int (Zpos cap)) = Fin p2 ->
  (p1 <= p2)%Q.
Proof.
  assert (Hk : (0 < inject_Z (Zpos k))%Q) by (unfold inject_Z, Qlt; simpl; lia).
  destruct d1 as [q1 | | |], d2 as [q2 | | |]; simpl; try discriminate;
    unfold py_min, of_int; simpl; intros Hle; split_ifs;
    intros E1 E2; inversion E1; inversion E2; subst; clear E1 E2;
    try discriminate; q_reflect; try lra; try nra.
Qed.

(* ------------------------------------------------------------------ *)
(** ** analyze_fit *)

(** [analyze_fit] never raises: every member of [GarmentSize] is a key of
    the catalog.  The record it returns, field by field. *)
Lemma analyze_fit_eq (person_chest person_height : pyfloat)
  (sel : GarmentSize.t) (gender : string) :
  exists m a,
    dict_get GarmentSize.eqb shirt_measurements sel = Ok m
    /\ analyze_fit person_chest person_height sel gender = Ok a
    /\ recommended_size a = get_recommended_size person_chest gender
    /\ selected_size a = sel
    /\ chest_difference_cm a = (chest_cm m - person_chest)%F
    /\ length_difference_cm a = (length_cm m - person_height * lit 2 5)%F
    /\ (fit_type a, fit_description a) =
         (if (chest_difference_cm a <=? tight_threshold fit_tolerance)%F then
            (FitType.TIGHT, "This size will be tight and may restrict movement")
          else if (chest_difference_cm a >=? loose_threshold fit_tolerance)%F then
            (FitType.LOOSE, "This size will be loose and may look oversized")
          else if (fabs (chest_difference_cm a) <=? perfect_range fit_tolerance)%F then
            (FitType.PERFECT, "This size provides an excellent fit")
          else if (chest_difference_cm a >? of_int 0)%F then
            (FitType.LOOSE, "This size will be somewhat loose but comfortable")
          else
            (FitType.TIGHT, "This size will be somewhat snug but wearable"))
    /\ fit_score a =
         py_max (of_int 0)
           (of_int 100
            - py_min (fabs (chest_difference_cm a) * of_int 10)%F (of_int 50)
            - py_min (fabs (length_difference_cm a) * of_int 5)%F (of_int 20))%F.
Proof.
  destruct (catalog_get sel) as (m & Em & _).
  exists m. unfold analyze_fit. rewrite Em. unfold bind.
  match goal with
  | |- context [let '(_, _) := ?c in _] => destruct c as [ft fd] eqn:Ec
  end.
  eexists. split; [reflexivity |]. split; [reflexivity |].
  cbn [recommended_size selected_size fit_type chest_difference_cm
       length_difference_cm fit_score fit_description].
  repeat split. symmetry. exact Ec.
Qed.

Lemma analyze_fit_total (person_chest person_height : pyfloat)
  (sel : GarmentSize.t) (gender : string) :
  exists a, analyze_fit person_chest person_height sel gender = Ok a.
Proof.
  destruct (analyze_fit_eq person_chest person_height sel gender)
    as (m & a & _ & Ea & _).
  exists a. exact Ea.
Qed.

(** The score as a function of the two differences. *)
Lemma score_nan_chest (ld : pyfloat) :
  py_max (of_int 0)
    (of_int 100 - py_min (fabs NaN * of_int 10)%F (of_int 50)
     - py_min (fabs ld * of_int 5)%F (of_int 20))%F = of_int 0.
Proof.
  rewrite penalty_nan. reflexivity.
Qed.

Lemma score_nan_length (cd : pyfloat) :
  py_max (of_int 0)
    (of_int 100 - py_min (fabs cd * of_int 10)%F (of_int 50)
     - py_min (fabs NaN * of_int 5)%F (of_int 20))%F = of_int 0.
Proof.
  rewrite penalty_nan.
  destruct (of_int 100 - py_min _ _)%F; reflexivity.
Qed.

Lemma score_finite (cd ld : pyfloat) :
  is_nan cd = false -> is_nan ld = false ->
  exists p1 p2,
    py_min (fabs cd * of_int 10)%F (of_int 50) = Fin p1
    /\ py_min (fabs ld * of_int 5)%F (of_int 20) = Fin p2
    /\ (0 <= p1 <= 50)%Q /\ (0 <= p2 <= 20)%Q
    /\ py_max (of_int 0) (of_int 100 - Fin p1 - Fin p2)%F
       = Fin (inject_Z 100 + - p1 + - p2).
Proof.
  intros Hc Hl.
  destruct (penalty_finite cd 10 50 Hc) as (p1 & E1 & B1).
  destruct (penalty_finite ld 5 20 Hl) as (p2 & E2 & B2).
  exists p1, p2. repeat split; try assumption;
    try (unfold inject_Z in *; lra).
  unfold py_max, fgt, of_int. simpl.
  destruct (Qlt_bool _ _) eqn:E; [reflexivity |].
  q_reflect. unfold inject_Z in *. lra.
Qed.

(** C1.  [analyze_fit] always returns, with
    [chest_difference = garment.chest_cm - person_chest], and classifies in
    priority order, first match wins, whatever the height (hence whatever
    the length difference), size and gender are:
    [chest_difference <= tight_threshold (-3.0)] gives TIGHT;
    otherwise [chest_difference >= loose_threshold (8.0)] gives LOOSE;
    otherwise [abs(chest_difference) <= perfect_range (2.0)] gives PERFECT;
    otherwise [chest_difference > 0] gives LOOSE, "somewhat loose but
    comfortable"; otherwise TIGHT, "somewhat snug but wearable". *)
Theorem analyze_fit_priority_order (person_chest person_height : pyfloat)
  (sel : GarmentSize.t) (gender : string) :
  exists m a,
    dict_get GarmentSize.eqb shirt_measurements sel = Ok m
    /\ analyze_fit person_chest person_height sel gender = Ok a
    /\ chest_difference_cm a = (chest_cm m - person_chest)%F
    /\ tight_threshold fit_tolerance = lit (-3) 1
    /\ loose_threshold fit_tolerance = lit 8 1
    /\ perfect_range fit_tolerance = lit 2 1
    /\ ((chest_difference_cm a <=? tight_threshold fit_tolerance)%F = true ->
        fit_type a = FitType.TIGHT
        /\ fit_description a = "This size will be tight and may restrict movement")
    /\ ((chest_difference_cm a <=? tight_threshold fit_tolerance)%F = false ->
        (chest_difference_cm a >=? loose_threshold fit_tolerance)%F = true ->
        fit_type a = FitType.LOOSE
        /\ fit_description a = "This size will be loose and may look oversized")
    /\ ((chest_difference_cm a <=? tight_threshold fit_tolerance)%F = false ->
        (chest_difference_cm a >=? loose_threshold fit_tolerance)%F = false ->
        (fabs (chest_difference_cm a) <=? perfect_range fit_tolerance)%F = true ->
        fit_type a = FitType.PERFECT
        /\ fit_description a = "This size provides an excellent fit")
    /\ ((chest_difference_cm a <=? tight_threshold fit_tolerance)%F = false ->
        (chest_difference_cm a >=? loose_threshold fit_tolerance)%F = false ->
        (fabs (chest_difference_cm a) <=? perfect_range fit_tolerance)%F = false ->
        (chest_difference_cm a >? of_int 0)%F = true ->
        fit_type a = FitType.LOOSE
        /\ fit_description a = "This size will be somewhat loose but comfortable")
    /\ ((chest_difference_cm a <=? tight_threshold fit_tolerance)%F = false ->
        (chest_difference_cm a >=? loose_threshold fit_tolerance)%F = false ->
        (fabs (chest_difference_cm a) <=? perfect_range fit_tolerance)%F = false ->
        (chest_difference_cm a >? of_int 0)%F = false ->
        fit_type a = FitType.TIGHT
        /\ fit_description a = "This size will be somewhat snug but wearable").
Proof.
  destruct (analyze_fit_eq person_chest person_height sel gender)
    as (m & a & Em & Ea & _ & _ & Ecd & _ & Ecls & _).
  exists m, a.
  repeat (split; [first [assumption | reflexivity] |]).
  repeat split; intros; revert Ecls;
    repeat match goal with H : _ = _ :> bool |- _ => rewrite H; clear H end;
    intros Ecls; inversion Ecls; reflexivity.
Qed.

(** The five branches of C1 are all taken by catalog size M: chests 101,
    88, 96, 93 and 99.5 cm give differences -4, 9, 1, 4 and -2.5. *)
Lemma analyze_fit_priority_order_witness :
  (exists a, analyze_fit (of_int 101) (of_int 175) GarmentSize.M "male" = Ok a
             /\ fit_type a = FitType.TIGHT
             /\ fit_description a = "This size will be tight and may restrict movement")
  /\ (exists a, analyze_fit (of_int 88) (of_int 175) GarmentSize.M "male" = Ok a
             /\ fit_type a = FitType.LOOSE
             /\ fit_description a = "This size will be loose and may look oversized")
  /\ (exists a, analyze_fit (of_int 96) (of_int 175) GarmentSize.M "male" = Ok a
             /\ fit_type a = FitType.PERFECT
             /\ fit_description a = "This size provides an excellent fit")
  /\ (exists a, analyze_fit (of_int 93) (of_int 175) GarmentSize.M "male" = Ok a
             /\ fit_type a = FitType.LOOSE
             /\ fit_description a = "This size will be somewhat loose but comfortable")
  /\ (exists a, analyze_fit (lit 199 2) (of_int 175) GarmentSize.M "male" = Ok a
             /\ fit_type a = FitType.TIGHT
             /\ fit_description a = "This size will be somewhat snug but wearable").
Proof.
  repeat split.
  - destruct (analyze_fit_priority_order (of_int 101) (of_int 175)
                GarmentSize.M "male")
      as (m & a & Em & Ea & Ecd & _ & _ & _ & H & _).
    exists a. split; [exact Ea |]. apply H. rewrite Ecd.
    inversion Em. reflexivity.
  - destruct (analyze_fit_priority_order (of_int 88) (of_int 175)
                GarmentSize.M "male")
      as (m & a & Em & Ea & Ecd & _ & _ & _ & _ & H & _).
    exists a. split; [exact Ea |]. apply H; rewrite Ecd;
    inversion Em; reflexivity.
  - destruct (analyze_fit_priority_order (of_int 96) (of_int 175)
                GarmentSize.M "male")
      as (m & a & Em & Ea & Ecd & _ & _ & _ & _ & _ & H & _).
    exists a. split; [exact Ea |]. apply H; rewrite Ecd;
    inversion Em; reflexivity.
  - destruct (analyze_fit_priority_order (of_int 93) (of_int 175)
                GarmentSize.M "male")
      as (m & a & Em & Ea & Ecd & _ & _ & _ & _ & _ & _ & H & _).
    exists a. split; [exact Ea |]. apply H; rewrite Ecd;
    inversion Em; reflexivity.
  - destruct (analyze_fit_priority_order (lit 199 2) (of_int 175)
                GarmentSize.M "male")
      as (m & a & Em & Ea & Ecd & _ & _ & _ & _ & _ & _ & _ & H).
    exists a. split; [exact Ea |]. apply H; rewrite Ecd;
    inversion Em; reflexivity.
Defined.

(** C2 (amended).  For every input [analyze_fit] returns a score within
    [[0, 100]].  When neither measurement is [nan] the score equals
    [clamp(100 - min(abs(chest_difference) * 10, 50)
               - min(abs(length_difference) * 5, 20), 0, 100)]
    and is at least 30.  When a measurement is [nan] the score is 0. *)
Theorem fit_score_formula_and_range (person_chest person_height : pyfloat)
  (sel : GarmentSize.t) (gender : string) :
  exists a,
    analyze_fit person_chest person_height sel gender = Ok a
    /\ (of_int 0 <=? fit_score a)%F = true
    /\ (fit_score a <=? of_int 100)%F = true
    /\ (is_nan person_chest = false -> is_nan person_height = false ->
        fit_score a =
          clamp (of_int 100
                 - py_min (fabs (chest_difference_cm a) * of_int 10)%F (of_int 50)
                 - py_min (fabs (length_difference_cm a) * of_int 5)%F (of_int 20))%F
                (of_int 0) (of_int 100)
        /\ (of_int 30 <=? fit_score a)%F = true)
    /\ (is_nan person_chest = true \/ is_nan person_height = true ->
        fit_score a = of_int 0).
Proof.
  destruct (analyze_fit_eq person_chest person_height sel gender)
    as (m & a & Em & Ea & _ & _ & Ecd & Eld & _ & Esc).
  destruct (catalog_get sel) as (m' & Em' & _ & Fc & Fl).
  rewrite Em in Em'. inversion Em'; subst m'; clear Em'.
  exists a. split; [exact Ea |].
  assert (Hcd : is_nan (chest_difference_cm a) = is_nan person_chest).
  { rewrite Ecd. destruct (chest_cm m); try discriminate Fc.
    destruct person_chest; reflexivity. }
  assert (Hld : is_nan (length_difference_cm a) = is_nan person_height).
  { rewrite Eld. destruct (length_cm m); try discriminate Fl.
    destruct person_height; reflexivity. }
  assert (Hfin : is_nan person_chest = false -> is_nan person_height = false ->
                 exists p1 p2,
                   py_min (fabs (chest_difference_cm a) * of_int 10)%F (of_int 50) = Fin p1
                   /\ py_min (fabs (length_difference_cm a) * of_int 5)%F (of_int 20) = Fin p2
                   /\ (0 <= p1 <= 50)%Q /\ (0 <= p2 <= 20)%Q
                   /\ fit_score a = Fin (inject_Z 100 + - p1 + - p2)).
  { intros Hc Hh. rewrite <- Hcd in Hc. rewrite <- Hld in Hh.
    destruct (score_finite _ _ Hc Hh) as (p1 & p2 & E1 & E2 & B1 & B2 & E).
    exists p1, p2. rewrite Esc, E1, E2. auto. }
  assert (Hnan : is_nan person_chest = true \/ is_nan person_height = true ->
                 fit_score a = of_int 0).
  { rewrite <- Hcd, <- Hld, Esc. intros [H | H].
    - destruct (chest_difference_cm a); try discriminate H.
      apply score_nan_chest.
    - destruct (length_difference_cm a); try discriminate H.
      apply score_nan_length. }
  assert (Hrange : (of_int 0 <=? fit_score a)%F = true
                   /\ (fit_score a <=? of_int 100)%F = true).
  { destruct (is_nan person_chest) eqn:Nc; [rewrite Hnan by auto; split; reflexivity |].
    destruct (is_nan person_height) eqn:Nh; [rewrite Hnan by auto; split; reflexivity |].
    destruct (Hfin eq_refl eq_refl) as (p1 & p2 & _ & _ & B1 & B2 & E).
    rewrite E. unfold of_int; simpl; split; q_solve. }
  destruct Hrange as [Hlo Hhi].
  repeat split; try assumption.
  - destruct (Hfin H H0) as (p1 & p2 & E1 & E2 & B1 & B2 & E).
    rewrite E, E1, E2. unfold clamp, of_int. simpl.
    destruct (Qlt_bool _ _) eqn:T1; [q_solve |].
    destruct (Qlt_bool (inject_Z 100) _) eqn:T2; [q_solve |]. reflexivity.
  - destruct (Hfin H H0) as (p1 & p2 & E1 & E2 & B1 & B2 & E).
    rewrite E. unfold of_int; simpl. q_solve.
Qed.

(** Chest 93, height 175, size M: neither is [nan], the score is 60. *)
Lemma fit_score_formula_and_range_witness :
  exists a,
    analyze_fit (of_int 93) (of_int 175) GarmentSize.M "male" = Ok a
    /\ (of_int 30 <=? fit_score a)%F = true
    /\ (fit_score a <=? of_int 100)%F = true
    /\ fit_score a =
         clamp (of_int 100
                - py_min (fabs (chest_difference_cm a) * of_int 10)%F (of_int 50)
                - py_min (fabs (length_difference_cm a) * of_int 5)%F (of_int 20))%F
               (of_int 0) (of_int 100).
Proof.
  destruct (fit_score_formula_and_range (of_int 93) (of_int 175)
              GarmentSize.M "male") as (a & Ea & _ & Hhi & Hfin & _).
  destruct (Hfin eq_refl eq_refl) as [Hc H30].
  exists a. repeat split; assumption.
Defined.

(** C2, as stated, fails when a measurement is [nan]: the score is then 0,
    below 30. *)
Lemma fit_score_nan_below_30 :
  exists a,
    analyze_fit NaN (of_int 175) GarmentSize.M "male" = Ok a
    /\ fit_score a = of_int 0
    /\ (of_int 30 <=? fit_score a)%F = false.
Proof. eexists. repeat split. Qed.

(* ------------------------------------------------------------------ *)
(** ** Monotonicity of the score *)

Lemma score_mono (cd1 ld1 cd2 ld2 : pyfloat) :
  (fabs cd1 <=? fabs cd2)%F = true ->
  (fabs ld1 <=? fabs ld2)%F = true ->
  (py_max (of_int 0)
     (of_int 100 - py_min (fabs cd2 * of_int 10)%F (of_int 50)
      - py_min (fabs ld2 * of_int 5)%F (of_int 20))%F
   <=? py_max (of_int 0)
     (of_int 100 - py_min (fabs cd1 * of_int 10)%F (of_int 50)
      - py_min (fabs ld1 * of_int 5)%F (of_int 20))%F)%F = true.
Proof.
  intros Hc Hl.
  destruct (fle_not_nan _ _ Hc) as [Nc1 Nc2].
  destruct (fle_not_nan _ _ Hl) as [Nl1 Nl2].
  rewrite fabs_not_nan in Nc1, Nc2, Nl1, Nl2.
  destruct (score_finite cd1 ld1 Nc1 Nl1) as (p1 & q1 & Ep1 & Eq1 & _ & _ & E1).
  destruct (score_finite cd2 ld2 Nc2 Nl2) as (p2 & q2 & Ep2 & Eq2 & _ & _ & E2).
  pose proof (penalty_mono cd1 cd2 10 50 p1 p2 Hc Ep1 Ep2) as Hp.
  pose proof (penalty_mono ld1 ld2 5 20 q1 q2 Hl Eq1 Eq2) as Hq.
  rewrite Ep1, Eq1, Ep2, Eq2, E1, E2. simpl. q_solve.
Qed.

Lemma score_mono_chest (cd1 cd2 ld : pyfloat) :
  (fabs cd1 <=? fabs cd2)%F = true ->
  (py_max (of_int 0)
     (of_int 100 - py_min (fabs cd2 * of_int 10)%F (of_int 50)
      - py_min (fabs ld * of_int 5)%F (of_int 20))%F
   <=? py_max (of_int 0)
     (of_int 100 - py_min (fabs cd1 * of_int 10)%F (of_int 50)
      - py_min (fabs ld * of_int 5)%F (of_int 20))%F)%F = true.
Proof.
  intros Hc. destruct (is_nan ld) eqn:N.
  - destruct ld; try discriminate N. rewrite !score_nan_length. reflexivity.
  - apply score_mono; [exact Hc |]. apply fle_refl.
    rewrite fabs_not_nan. exact N.
Qed.

Lemma score_mono_length (cd ld1 ld2 : pyfloat) :
  (fabs ld1 <=? fabs ld2)%F = true ->
  (py_max (of_int 0)
     (of_int 100 - py_min (fabs cd * of_int 10)%F (of_int 50)
      - py_min (fabs ld2 * of_int 5)%F (of_int 20))%F
   <=? py_max (of_int 0)
     (of_int 100 - py_min (fabs cd * of_int 10)%F (of_int 50)
      - py_min (fabs ld1 * of_int 5)%F (of_int 20))%F)%F = true.
Proof.
  intros Hl. destruct (is_nan cd) eqn:N.
  - destruct cd; try discriminate N. rewrite !score_nan_chest. reflexivity.
  - apply score_mono; [| exact Hl]. apply fle_refl.
    rewrite fabs_not_nan. exact N.
Qed.

(** C4.  Take any two calls of [analyze_fit].  If they have the same length
    difference and the first has the smaller absolute chest difference, the
    first scores at least as high; likewise with chest and length swapped;
    and likewise when the first is no larger in both absolute differences.
    A PERFECT classification implies
    [abs(chest_difference) <= perfect_range]. *)
Theorem fit_score_monotone
  (chest1 height1 : pyfloat) (sel1 : GarmentSize.t) (gender1 : string)
  (chest2 height2 : pyfloat) (sel2 : GarmentSize.t) (gender2 : string) :
  exists a1 a2,
    analyze_fit chest1 height1 sel1 gender1 = Ok a1
    /\ analyze_fit chest2 height2 sel2 gender2 = Ok a2
    /\ (length_difference_cm a1 = length_difference_cm a2 ->
        (fabs (chest_difference_cm a1) <=? fabs (chest_difference_cm a2))%F = true ->
        (fit_score a2 <=? fit_score a1)%F = true)
    /\ (chest_difference_cm a1 = chest_difference_cm a2 ->
        (fabs (length_difference_cm a1) <=? fabs (length_difference_cm a2))%F = true ->
        (fit_score a2 <=? fit_score a1)%F = true)
    /\ ((fabs (chest_difference_cm a1) <=? fabs (chest_difference_cm a2))%F = true ->
        (fabs (length_difference_cm a1) <=? fabs (length_difference_cm a2))%F = true ->
        (fit_score a2 <=? fit_score a1)%F = true)
    /\ (fit_type a1 = FitType.PERFECT ->
        (fabs (chest_difference_cm a1) <=? perfect_range fit_tolerance)%F = true).
Proof.
  destruct (analyze_fit_eq chest1 height1 sel1 gender1)
    as (m1 & a1 & _ & Ea1 & _ & _ & _ & _ & Ecls & Es1).
  destruct (analyze_fit_eq chest2 height2 sel2 gender2)
    as (m2 & a2 & _ & Ea2 & _ & _ & _ & _ & _ & Es2).
  exists a1, a2. split; [exact Ea1 |]. split; [exact Ea2 |].
  rewrite Es1, Es2. repeat split.
  - intros E H. rewrite E. apply score_mono_chest. exact H.
  - intros E H. rewrite E. apply score_mono_length. exact H.
  - intros Hc Hl. apply score_mono; assumption.
  - intros P. revert Ecls. rewrite P. split_ifs; intros Ecls;
      try (inversion Ecls; fail). reflexivity.
Qed.

(** Size M, height 175: chest 96 (difference 1) against chest 93
    (difference 4) scores 90 against 60; sizes M and S for chest 96 differ
    in both differences; chest 96 in size M is PERFECT. *)
Lemma fit_score_monotone_witness :
  (exists a1 a2,
     analyze_fit (of_int 96) (of_int 175) GarmentSize.M "male" = Ok a1
     /\ analyze_fit (of_int 93) (of_int 175) GarmentSize.M "male" = Ok a2
     /\ (fit_score a2 <=? fit_score a1)%F = true
     /\ (fabs (chest_difference_cm a1) <=? perfect_range fit_tolerance)%F = true)
  /\ (exists a1 a2,
     analyze_fit (of_int 97) (of_int 175) GarmentSize.M "male" = Ok a1
     /\ analyze_fit (of_int 97) (of_int 180) GarmentSize.M "male" = Ok a2
     /\ (fit_score a2 <=? fit_score a1)%F = true)
  /\ (exists a1 a2,
     analyze_fit (of_int 96) (of_int 175) GarmentSize.M "male" = Ok a1
     /\ analyze_fit (of_int 96) (of_int 175) GarmentSize.S "male" = Ok a2
     /\ (fit_score a2 <=? fit_score a1)%F = true).
Proof.
  repeat split.
  - destruct (fit_score_monotone (of_int 96) (of_int 175) GarmentSize.M "male"
                (of_int 93) (of_int 175) GarmentSize.M "male")
      as (a1 & a2 & E1 & E2 & Hc & _ & _ & Hp).
    exists a1, a2.
    assert (I1 := E1). assert (I2 := E2).
    vm_compute in I1, I2. injection I1 as I1. injection I2 as I2.
    repeat split; [exact E1 | exact E2 | apply Hc | apply Hp];
      rewrite <- ?I1, <- ?I2; reflexivity.
  - destruct (fit_score_monotone (of_int 97) (of_int 175) GarmentSize.M "male"
                (of_int 97) (of_int 180) GarmentSize.M "male")
      as (a1 & a2 & E1 & E2 & _ & Hl & _).
    exists a1, a2.
    assert (I1 := E1). assert (I2 := E2).
    vm_compute in I1, I2. injection I1 as I1. injection I2 as I2.
    repeat split; [exact E1 | exact E2 | apply Hl];
      rewrite <- ?I1, <- ?I2; reflexivity.
  - destruct (fit_score_monotone (of_int 96) (of_int 175) GarmentSize.M "male"
                (of_int 96) (of_int 175) GarmentSize.S "male")
      as (a1 & a2 & E1 & E2 & _ & _ & Hb & _).
    exists a1, a2.
    assert (I1 := E1). assert (I2 := E2).
    vm_compute in I1, I2. injection I1 as I1. injection I2 as I2.
    repeat split; [exact E1 | exact E2 | apply Hb];
      rewrite <- ?I1, <- ?I2; reflexivity.
Defined.

(* ------------------------------------------------------------------ *)
(** ** The worked scenario *)

(** C5.  Catalog: M has chest 97 and length 70, S has chest 91.  For chest
    93, height 175, gender "male": the recommended size is M;
    [analyze_fit(93, 175, M, "male")] has chest difference 4, is LOOSE with
    the text "This size will be somewhat loose but comfortable", has length
    difference 0 and score 60; [analyze_fit(93, 175, S, "male")] has chest
    difference -2 and is PERFECT. *)
Theorem scenario_chest_93_height_175 :
  (exists m, dict_get GarmentSize.eqb shirt_measurements GarmentSize.M = Ok m
             /\ chest_cm m = of_int 97 /\ length_cm m = of_int 70)
  /\ (exists m, dict_get GarmentSize.eqb shirt_measurements GarmentSize.S = Ok m
                /\ chest_cm m = of_int 91)
  /\ get_recommended_size (of_int 93) "male" = GarmentSize.M
  /\ (exists a,
        analyze_fit (of_int 93) (of_int 175) GarmentSize.M "male" = Ok a
        /\ recommended_size a = GarmentSize.M
        /\ chest_difference_cm a = of_int 4
        /\ fit_type a = FitType.LOOSE
        /\ fit_description a = "This size will be somewhat loose but comfortable"
        /\ (length_difference_cm a == of_int 0)%F
        /\ (fit_score a == of_int 60)%F)
  /\ (exists a,
        analyze_fit (of_int 93) (of_int 175) GarmentSize.S "male" = Ok a
        /\ chest_difference_cm a = of_int (-2)
        /\ fit_type a = FitType.PERFECT).
Proof.
  split; [eexists; repeat split |].
  split; [eexists; repeat split |].
  split; [reflexivity |].
  split; eexists; repeat split.
Qed.

(* ------------------------------------------------------------------ *)
(** ** get_recommended_size *)

Lemma target_chest_allowance (chest_measurement : pyfloat) (gender : string) :
  target_chest chest_measurement gender
  = (chest_measurement + of_int (comfort_allowance gender))%F.
Proof.
  unfold target_chest, comfort_allowance.
  destruct (String.eqb (lower gender) "female") eqn:Ef;
    destruct (String.eqb (lower gender) "male") eqn:Em; try reflexivity.
  apply String.eqb_eq in Ef. apply String.eqb_eq in Em. congruence.
Qed.

Lemma closest_step_eq (target : pyfloat) (best s : GarmentSize.t)
  (bound : pyfloat) (m : GarmentMeasurements) :
  closest_step target (best, bound) (s, m)
  = if (chest_distance target m <? bound)%F then (s, chest_distance target m)
    else (best, bound).
Proof. reflexivity. Qed.

Arguments chest_distance : simpl never.

(** What the search loop computes on any list of records, from any
    starting pair: either no record was strictly closer than the starting
    bound and the pair is unchanged, or the pair is the first closest
    record with its distance. *)
Lemma fold_closest (target : pyfloat)
  (l : list (GarmentSize.t * GarmentMeasurements)) :
  Forall (fun e => is_nan (chest_distance target (snd e)) = false) l ->
  forall acc, is_nan (snd acc) = false ->
  (fold_left (closest_step target) l acc = acc
   /\ Forall (fun e => (chest_distance target (snd e) <? snd acc)%F = false) l)
  \/ (exists before s m after,
        l = (before ++ (s, m) :: after)%list
        /\ fold_left (closest_step target) l acc = (s, chest_distance target m)
        /\ (chest_distance target m <? snd acc)%F = true
        /\ Forall (fun e => (chest_distance target m <? chest_distance target (snd e))%F = true)
             before
        /\ Forall (fun e => (chest_distance target m <=? chest_distance target (snd e))%F = true)
             after).
Proof.
  induction 1 as [| [s m] l Hm Hl IH]; intros [best bound] Hacc.
  - left. split; [reflexivity | constructor].
  - cbn [snd] in Hm, Hacc. cbn [fold_left]. rewrite closest_step_eq.
    destruct (chest_distance target m <? bound)%F eqn:Hlt.
    + right.
      destruct (IH (s, chest_distance target m) Hm)
        as [[E Hall] | (before & s' & m' & after & El & E & Hlt' & Hb & Ha)].
      * exists [], s, m, l. simpl. repeat split; try assumption; try constructor.
        simpl in Hall. rewrite Forall_forall in Hall |- *. intros e He.
        apply flt_false_fle; [| exact Hm | apply Hall; exact He].
        rewrite Forall_forall in Hl. apply Hl. exact He.
      * simpl in Hlt'.
        exists ((s, m) :: before), s', m', after. subst l. simpl.
        repeat split; try assumption.
        -- apply flt_trans with (chest_distance target m); assumption.
        -- constructor; assumption.
    + destruct (IH (best, bound) Hacc)
        as [[E Hall] | (before & s' & m' & after & El & E & Hlt' & Hb & Ha)].
      * left. split; [exact E |]. constructor; assumption.
      * right. simpl in Hlt'.
        exists ((s, m) :: before), s', m', after. subst l. simpl.
        repeat split; try assumption.
        constructor; [| assumption]. simpl.
        apply flt_fle_trans with bound; [exact Hlt' |].
        apply flt_false_fle; assumption.
Qed.

Lemma catalog_distances_not_nan (q : Q) :
  Forall (fun e => is_nan (chest_distance (Fin q) (snd e)) = false)
    shirt_measurements.
Proof. repeat constructor. Qed.

Lemma recommended_in_catalog (r : GarmentSize.t) : In r get_available_sizes.
Proof. destruct r; simpl; tauto. Qed.

(** C3 (amended).  The target chest is the measurement plus 4 cm for
    "male", 2 cm for "female" and 3 cm for any other gender string (case of
    letters ignored).  For every finite chest measurement up to 2^53 and
    every gender string [get_recommended_size] returns the first catalog
    entry, in iteration order, at minimal absolute distance from the
    target.  For an infinite or [nan] measurement it returns M.  The size
    returned is always a key of the catalog. *)
Theorem get_recommended_size_first_closest (chest_measurement : pyfloat)
  (gender : string) :
  target_chest chest_measurement gender
    = (chest_measurement + of_int (comfort_allowance gender))%F
  /\ In (get_recommended_size chest_measurement gender) get_available_sizes
  /\ (is_finite chest_measurement = true ->
      (chest_measurement <=? of_int chest_limit)%F = true ->
      first_closest (target_chest chest_measurement gender)
        (get_recommended_size chest_measurement gender))
  /\ (is_finite chest_measurement = false ->
      get_recommended_size chest_measurement gender = GarmentSize.M).
Proof.
  split; [apply target_chest_allowance |].
  split; [apply recommended_in_catalog |].
  unfold get_recommended_size. rewrite target_chest_allowance. split.
  - intros Hfin _.
    destruct chest_measurement as [q | | |]; try discriminate Hfin.
    cbn [fadd of_int].
    destruct (fold_closest (Fin (q + inject_Z (comfort_allowance gender)))
                shirt_measurements (catalog_distances_not_nan _)
                (GarmentSize.M, PInf) eq_refl)
      as [[_ Hall] | (before & s & m & after & El & E & _ & Hb & Ha)].
    + inversion Hall as [| e l H _]. discriminate H.
    + rewrite E. exists before, m, after. auto.
  - intros Hinf.
    destruct chest_measurement as [q | | |]; try discriminate Hinf;
      reflexivity.
Qed.

(** Chest 93, "male": finite, the target is 97 and M is the closest. *)
Lemma get_recommended_size_first_closest_witness :
  first_closest (of_int 93 + of_int 4)%F GarmentSize.M
  /\ get_recommended_size NaN "male" = GarmentSize.M.
Proof.
  destruct (get_recommended_size_first_closest (of_int 93) "male")
    as (_ & _ & H & _).
  destruct (get_recommended_size_first_closest NaN "male")
    as (_ & _ & _ & H').
  split; [exact (H eq_refl eq_refl) | exact (H' eq_refl)].
Defined.

(** C3, as stated, fails for an infinite measurement: every catalog entry
    is then at the same (infinite) distance, the first of them is XS, and
    the function returns M. *)
Lemma get_recommended_size_inf_not_first :
  get_recommended_size PInf "male" = GarmentSize.M
  /\ ~ first_closest (PInf + of_int (comfort_allowance "male"))%F
         (get_recommended_size PInf "male").
Proof.
  split; [reflexivity |].
  intros (before & m & after & E & Hb & _).
  destruct before as [| e before].
  - simpl in E. injection E as Hs _. discriminate Hs.
  - simpl in E. injection E as He _. subst e.
    inversion Hb as [| e l H _]. subst.
    unfold chest_distance in H. simpl in H.
    destruct (chest_cm m); discriminate H.
Qed.

(* ------------------------------------------------------------------ *)
(** ** get_size_comparison_data *)

(** C6.  For every chest, height and gender [get_size_comparison_data]
    returns; ['size_analysis'] has one entry per catalog size, in catalog
    order (six entries); exactly one entry has [is_recommended] set, and it
    is the entry of the size [get_recommended_size] returns for the same
    inputs. *)
Theorem size_comparison_one_recommended (person_chest person_height : pyfloat)
  (gender : string) :
  exists d,
    get_size_comparison_data person_chest person_height gender = Ok d
    /\ map fst (size_analysis d) = map GarmentSize.value get_available_sizes
    /\ List.length (size_analysis d) = 6%nat
    /\ map fst (filter (fun kv => is_recommended (snd kv)) (size_analysis d))
       = [GarmentSize.value (get_recommended_size person_chest gender)]
    /\ c_recommended_size d
       = GarmentSize.value (get_recommended_size person_chest gender).
Proof.
  destruct (analyze_fit_total person_chest person_height GarmentSize.XS gender)
    as [a1 E1].
  destruct (analyze_fit_total person_chest person_height GarmentSize.S gender)
    as [a2 E2].
  destruct (analyze_fit_total person_chest person_height GarmentSize.M gender)
    as [a3 E3].
  destruct (analyze_fit_total person_chest person_height GarmentSize.L gender)
    as [a4 E4].
  destruct (analyze_fit_total person_chest person_height GarmentSize.XL gender)
    as [a5 E5].
  destruct (analyze_fit_total person_chest person_height GarmentSize.XXL gender)
    as [a6 E6].
  unfold get_size_comparison_data.
  change get_available_sizes with GarmentSize.members.
  unfold GarmentSize.members. cbn [foldM].
  rewrite E1; cbn [bind]. rewrite E2; cbn [bind]. rewrite E3; cbn [bind].
  rewrite E4; cbn [bind]. rewrite E5; cbn [bind]. rewrite E6; cbn [bind].
  eexists. split; [reflexivity |].
  cbn [size_analysis c_recommended_size].
  destruct (get_recommended_size person_chest gender); repeat split.
Qed.

(* ------------------------------------------------------------------ *)
(** ** The placement anchor of apply_garment_overlay *)

Lemma landmark_guard_length (l : list landmark) :
  landmark_guard (Some l) = if (11 <? List.length l)%nat then Some l else None.
Proof. destruct l; reflexivity. Qed.

(** Without landmarks, or with at most 11 of them, the anchor is the
    image-geometry default. *)
Lemma anchor_default (person_h person_w : Z) (fit_analysis : FitAnalysis)
  (pose_landmarks : option (list landmark)) :
  landmark_guard pose_landmarks = None ->
  placement_anchor person_h person_w fit_analysis pose_landmarks
  = Ok ((person_w / 2)%Z,
        match fit_type fit_analysis with
        | FitType.TIGHT => (person_h / 4 + 20)%Z
        | FitType.LOOSE => (person_h / 4 - 20)%Z
        | FitType.PERFECT => (person_h / 4)%Z
        end).
Proof. intros H. unfold placement_anchor. rewrite H. reflexivity. Qed.

(** With at least 13 landmarks whose entries 11 and 12 carry finite ['x']
    and ['y'], the anchor is the midpoint of the truncated shoulder
    abscissas and the truncated mean ordinate, raised by 10, 30 or 20
    pixels. *)
Lemma anchor_from_shoulders (person_h person_w : Z) (fit_analysis : FitAnalysis)
  (l : list landmark) (p11 p12 : landmark) (x11 y11 x12 y12 : Q) :
  nth_error l 11 = Some p11 -> nth_error l 12 = Some p12 ->
  dict_get String.eqb p11 "x" = Ok (Fin x11) ->
  dict_get String.eqb p11 "y" = Ok (Fin y11) ->
  dict_get String.eqb p12 "x" = Ok (Fin x12) ->
  dict_get String.eqb p12 "y" = Ok (Fin y12) ->
  exists left_shoulder_x right_shoulder_x shoulder_y,
    py_int (Fin x11) = Ok left_shoulder_x
    /\ py_int (Fin x12) = Ok right_shoulder_x
    /\ py_int ((Fin y11 + Fin y12) / of_int 2)%F = Ok shoulder_y
    /\ placement_anchor person_h person_w fit_analysis (Some l)
       = Ok (((left_shoulder_x + right_shoulder_x) / 2)%Z,
             match fit_type fit_analysis with
             | FitType.TIGHT => (shoulder_y - 10)%Z
             | FitType.LOOSE => (shoulder_y - 30)%Z
             | FitType.PERFECT => (shoulder_y - 20)%Z
             end).
Proof.
  intros H11 H12 X11 Y11 X12 Y12.
  do 3 eexists. split; [reflexivity |]. split; [reflexivity |].
  split; [reflexivity |].
  unfold placement_anchor. rewrite landmark_guard_length.
  assert (Hlen : (11 <? List.length l)%nat = true).
  { apply Nat.ltb_lt. apply nth_error_Some. congruence. }
  rewrite Hlen. unfold list_get. rewrite H11, H12. cbn [bind].
  rewrite X11, Y11, X12, Y12. reflexivity.
Qed.

(** A list of exactly 12 landmarks passes the guard and then has no entry
    12. *)
Lemma anchor_length_12 (person_h person_w : Z) (fit_analysis : FitAnalysis)
  (l : list landmark) :
  List.length l = 12%nat ->
  (exists e, placement_anchor person_h person_w fit_analysis (Some l) = Raise e)
  /\ (forall p11 x11 z,
        nth_error l 11 = Some p11 ->
        dict_get String.eqb p11 "x" = Ok x11 ->
        py_int x11 = Ok z ->
        placement_anchor person_h person_w fit_analysis (Some l)
        = Raise IndexError).
Proof.
  intros Hlen.
  assert (H12 : nth_error l 12 = None) by (apply nth_error_None; lia).
  assert (H11 : exists p, nth_error l 11 = Some p).
  { destruct (nth_error l 11) eqn:E; [eauto |].
    apply nth_error_None in E. lia. }
  destruct H11 as [p H11].
  unfold placement_anchor. rewrite landmark_guard_length, Hlen.
  cbn [Nat.ltb Nat.leb]. unfold list_get. rewrite H11, H12. cbn [bind].
  split.
  - destruct (dict_get String.eqb p "x") as [x |]; cbn [bind]; [| eauto].
    destruct (py_int x); cbn [bind]; eauto.
  - intros p11 x11 z Hp Hx Hz. inversion Hp; subst p11.
    rewrite Hx. cbn [bind]. rewrite Hz. reflexivity.
Qed.

(** A failure of the positioning block is a failure of the whole call. *)
Lemma overlay_fails_with_anchor (person_image garment_image : image)
  (fit_analysis : FitAnalysis) (pose_landmarks : option (list landmark))
  (e : exn) :
  placement_anchor (Z.of_N (rows person_image)) (Z.of_N (cols person_image))
    fit_analysis pose_landmarks = Raise e ->
  exists e', apply_garment_overlay person_image garment_image fit_analysis
               pose_landmarks = Raise e'.
Proof.
  intros H. unfold apply_garment_overlay.
  destruct (fit_parameters fit_analysis) as [[[? ?] ?] ?].
  destruct (new_garment_size garment_image fit_analysis) as [[w h] |];
    cbn [bind]; [| eauto].
  destruct (cv2_resize garment_image (w, h)); cbn [bind]; [| eauto].
  rewrite H. cbn [bind]. eauto.
Qed.

Lemma perfect_fit_sample_eq :
  analyze_fit (of_int 96) (of_int 175) GarmentSize.M "male"
  = Ok perfect_fit_sample.
Proof. reflexivity. Qed.

Lemma tight_fit_sample_eq :
  analyze_fit (of_int 101) (of_int 175) GarmentSize.XS "male"
  = Ok tight_fit_sample.
Proof. reflexivity. Qed.

(** [d[k]] fails with [KeyError] only. *)
Lemma dict_get_raises {K V : Type} (eqb : K -> K -> bool) (d : dict K V)
  (k : K) (e : exn) :
  dict_get eqb d k = Raise e -> e = KeyError.
Proof.
  induction d as [| [k' v] d IH]; cbn [dict_get].
  - intros H. injection H as <-. reflexivity.
  - destruct (eqb k' k); [discriminate | exact IH].
Qed.

(** [int()] never fails with [IndexError]. *)
Lemma py_int_raises (a : pyfloat) (e : exn) :
  py_int a = Raise e -> e = ValueError \/ e = OverflowError.
Proof.
  destruct a; cbn [py_int]; intros H; try discriminate H;
    injection H as <-; auto.
Qed.

Lemma new_garment_size_raises (garment_image : image)
  (fit_analysis : FitAnalysis) (e : exn) :
  new_garment_size garment_image fit_analysis = Raise e ->
  e = ValueError \/ e = OverflowError.
Proof.
  unfold new_garment_size.
  destruct (fit_parameters fit_analysis) as [[[sf ?] wa] ha].
  destruct (py_int (of_int (Z.of_N (cols garment_image)) * sf * wa)%F)
    as [w | e1] eqn:Ew; cbn [bind].
  - destruct (py_int (of_int (Z.of_N (rows garment_image)) * sf * ha)%F)
      as [h | e2] eqn:Eh; cbn [bind]; [discriminate |].
    intros H. injection H as <-. exact (py_int_raises _ _ Eh).
  - intros H. injection H as <-. exact (py_int_raises _ _ Ew).
Qed.

Lemma cv2_resize_raises (src : image) (dsize : Z * Z) (e : exn) :
  cv2_resize src dsize = Raise e -> e = cv2_error.
Proof.
  unfold cv2_resize. destruct dsize as [w h].
  destruct (_ && _)%bool; [discriminate |].
  intros H. injection H as <-. reflexivity.
Qed.

(** The positioning block on a list of exactly 12 landmarks: what entry 11
    makes of it. *)
Lemma anchor_length_12_exn (person_h person_w : Z) (fit_analysis : FitAnalysis)
  (l : list landmark) :
  List.length l = 12%nat ->
  exists p11,
    nth_error l 11 = Some p11
    /\ placement_anchor person_h person_w fit_analysis (Some l)
       = match dict_get String.eqb p11 "x" with
         | Raise e => Raise e
         | Ok x11 =>
             match py_int x11 with
             | Raise e => Raise e
             | Ok _ => Raise IndexError
             end
         end.
Proof.
  intros Hlen.
  assert (H12 : nth_error l 12 = None) by (apply nth_error_None; lia).
  destruct (nth_error l 11) as [p |] eqn:H11;
    [| apply nth_error_None in H11; lia].
  exists p. split; [reflexivity |].
  unfold placement_anchor. rewrite landmark_guard_length, Hlen.
  cbn [Nat.ltb Nat.leb]. unfold list_get. rewrite H11, H12. cbn [bind].
  destruct (dict_get String.eqb p "x") as [x |]; cbn [bind]; [| reflexivity].
  destruct (py_int x); reflexivity.
Qed.

(** The whole call on a list of exactly 12 landmarks raises [IndexError]
    exactly when every step before the read of entry 12 succeeded. *)
Lemma overlay_length_12_index_error (person_image garment_image : image)
  (fit_analysis : FitAnalysis) (l : list landmark) :
  List.length l = 12%nat ->
  apply_garment_overlay person_image garment_image fit_analysis (Some l)
    = Raise IndexError
  <-> exists w h r p11 x11 z,
        new_garment_size garment_image fit_analysis = Ok (w, h)
        /\ cv2_resize garment_image (w, h) = Ok r
        /\ nth_error l 11 = Some p11
        /\ dict_get String.eqb p11 "x" = Ok x11
        /\ py_int x11 = Ok z.
Proof.
  intros Hlen.
  destruct (anchor_length_12_exn (Z.of_N (rows person_image))
              (Z.of_N (cols person_image)) fit_analysis l Hlen)
    as (p & H11 & Ha).
  unfold apply_garment_overlay.
  destruct (fit_parameters fit_analysis) as [[[? ?] ?] ?].
  destruct (new_garment_size garment_image fit_analysis) as [[w h] | e] eqn:En;
    cbn [bind].
  - destruct (cv2_resize garment_image (w, h)) as [r | e] eqn:Er; cbn [bind].
    + rewrite Ha.
      destruct (dict_get String.eqb p "x") as [x | e] eqn:Ex; cbn [bind].
      * destruct (py_int x) as [z | e] eqn:Ez; cbn [bind].
        -- split; [intros _ | reflexivity].
           exists w, h, r, p, x, z. auto.
        -- split.
           ++ intros H. injection H as ->.
              destruct (py_int_raises _ _ Ez); discriminate.
           ++ intros (? & ? & ? & p' & x' & z' & _ & _ & Hp & Hx & Hz).
              rewrite H11 in Hp. injection Hp as <-.
              rewrite Ex in Hx. injection Hx as <-.
              rewrite Ez in Hz. discriminate Hz.
      * split.
        -- intros H. injection H as ->.
           apply dict_get_raises in Ex. discriminate Ex.
        -- intros (? & ? & ? & p' & x' & z' & _ & _ & Hp & Hx & _).
           rewrite H11 in Hp. injection Hp as <-.
           rewrite Ex in Hx. discriminate Hx.
    + split.
      * intros H. injection H as ->.
        apply cv2_resize_raises in Er. discriminate Er.
      * intros (w' & h' & r' & ? & ? & ? & Hn & Hr & _).
        injection Hn as <- <-. rewrite Er in Hr. discriminate Hr.
  - split.
    + intros H. injection H as ->.
      destruct (new_garment_size_raises _ _ _ En); discriminate.
    + intros (? & ? & ? & ? & ? & ? & Hn & _). discriminate Hn.
Qed.

(** An exception of the whole call on a list of exactly 12 landmarks is
    [IndexError] or the exception of a step before the read of entry 12. *)
Lemma overlay_length_12_first_failure (person_image garment_image : image)
  (fit_analysis : FitAnalysis) (l : list landmark) (e : exn) :
  List.length l = 12%nat ->
  apply_garment_overlay person_image garment_image fit_analysis (Some l)
    = Raise e ->
  e = IndexError
  \/ new_garment_size garment_image fit_analysis = Raise e
  \/ (exists w h,
        new_garment_size garment_image fit_analysis = Ok (w, h)
        /\ cv2_resize garment_image (w, h) = Raise e)
  \/ (exists p11,
        nth_error l 11 = Some p11
        /\ (dict_get String.eqb p11 "x" = Raise e
            \/ exists x11,
                 dict_get String.eqb p11 "x" = Ok x11
                 /\ py_int x11 = Raise e)).
Proof.
  intros Hlen.
  destruct (anchor_length_12_exn (Z.of_N (rows person_image))
              (Z.of_N (cols person_image)) fit_analysis l Hlen)
    as (p & H11 & Ha).
  unfold apply_garment_overlay.
  destruct (fit_parameters fit_analysis) as [[[? ?] ?] ?].
  destruct (new_garment_size garment_image fit_analysis) as [[w h] | e0];
    cbn [bind]; [| intros H; injection H as <-; auto].
  destruct (cv2_resize garment_image (w, h)) as [r | e0] eqn:Er; cbn [bind];
    [| intros H; injection H as <-; right; right; left; eauto].
  rewrite Ha.
  destruct (dict_get String.eqb p "x") as [x | e0] eqn:Ex; cbn [bind];
    [| intros H; injection H as <-; right; right; right; eauto].
  destruct (py_int x) as [z | e0] eqn:Ez; cbn [bind];
    intros H; injection H as <-; [auto |].
  right; right; right. exists p. split; [exact H11 |]. right. eauto.
Qed.

(** C10 (amended).  The landmark branch is taken exactly when the list has
    more than 11 entries, and it reads entry 12.  So for every list of
    exactly 12 landmarks the positioning block, and with it the whole call,
    raises: it neither uses the landmarks nor falls back.  The exception of
    the call is [IndexError], from the read of entry 12, exactly when the
    garment could be resized and entry 11 has an ['x'] that [int()]
    converts; otherwise it is the exception of the earlier step that
    failed (the computation of the new size, the resize, the lookup of
    ['x'] in entry 11 or its conversion), [KeyError] when the garment could
    be resized and entry 11 has no ['x'].  Whenever the landmark branch
    succeeds the list has at least 13 entries. *)
Theorem landmark_guard_off_by_one (person_image garment_image : image)
  (fit_analysis : FitAnalysis) (l : list landmark) :
  (landmark_guard (Some l) = Some l <-> (11 < List.length l)%nat)
  /\ (List.length l = 12%nat ->
      (exists e,
         placement_anchor (Z.of_N (rows person_image))
           (Z.of_N (cols person_image)) fit_analysis (Some l) = Raise e)
      /\ (exists e,
            apply_garment_overlay person_image garment_image fit_analysis
              (Some l) = Raise e)
      /\ (apply_garment_overlay person_image garment_image fit_analysis
            (Some l) = Raise IndexError
          <-> exists w h r p11 x11 z,
                new_garment_size garment_image fit_analysis = Ok (w, h)
                /\ cv2_resize garment_image (w, h) = Ok r
                /\ nth_error l 11 = Some p11
                /\ dict_get String.eqb p11 "x" = Ok x11
                /\ py_int x11 = Ok z)
      /\ (forall e,
            apply_garment_overlay person_image garment_image fit_analysis
              (Some l) = Raise e ->
            e = IndexError
            \/ new_garment_size garment_image fit_analysis = Raise e
            \/ (exists w h,
                  new_garment_size garment_image fit_analysis = Ok (w, h)
                  /\ cv2_resize garment_image (w, h) = Raise e)
            \/ (exists p11,
                  nth_error l 11 = Some p11
                  /\ (dict_get String.eqb p11 "x" = Raise e
                      \/ exists x11,
                           dict_get String.eqb p11 "x" = Ok x11
                           /\ py_int x11 = Raise e)))
      /\ (forall w h r p11 e,
            new_garment_size garment_image fit_analysis = Ok (w, h) ->
            cv2_resize garment_image (w, h) = Ok r ->
            nth_error l 11 = Some p11 ->
            dict_get String.eqb p11 "x" = Raise e ->
            apply_garment_overlay person_image garment_image fit_analysis
              (Some l) = Raise KeyError)
      /\ (forall p11 x11 z,
            nth_error l 11 = Some p11 ->
            dict_get String.eqb p11 "x" = Ok x11 ->
            py_int x11 = Ok z ->
            placement_anchor (Z.of_N (rows person_image))
              (Z.of_N (cols person_image)) fit_analysis (Some l)
            = Raise IndexError))
  /\ (forall p,
        landmark_guard (Some l) = Some l ->
        placement_anchor (Z.of_N (rows person_image))
          (Z.of_N (cols person_image)) fit_analysis (Some l) = Ok p ->
        (13 <= List.length l)%nat).
Proof.
  assert (Hguard : landmark_guard (Some l) = Some l <-> (11 < List.length l)%nat).
  { rewrite landmark_guard_length.
    destruct (11 <? List.length l)%nat eqn:E.
    - apply Nat.ltb_lt in E. tauto.
    - apply Nat.ltb_ge in E. split; [discriminate | lia]. }
  split; [exact Hguard |]. split.
  - intros Hlen.
    destruct (anchor_length_12 (Z.of_N (rows person_image))
                (Z.of_N (cols person_image)) fit_analysis l Hlen)
      as [[e He] Hidx].
    split; [eauto |].
    split; [eapply overlay_fails_with_anchor; exact He |].
    split; [apply overlay_length_12_index_error; exact Hlen |].
    split; [intros e'; apply overlay_length_12_first_failure; exact Hlen |].
    split; [| exact Hidx].
    intros w h r p11 e' Hn Hr Hp Hx.
    destruct (anchor_length_12_exn (Z.of_N (rows person_image))
                (Z.of_N (cols person_image)) fit_analysis l Hlen)
      as (p & H11 & Ha).
    rewrite H11 in Hp. injection Hp as <-.
    unfold apply_garment_overlay.
    destruct (fit_parameters fit_analysis) as [[[? ?] ?] ?].
    rewrite Hn. cbn [bind]. rewrite Hr. cbn [bind]. rewrite Ha, Hx.
    cbn [bind]. rewrite (dict_get_raises _ _ _ _ Hx). reflexivity.
  - intros p Hg Hp. apply Hguard in Hg.
    destruct (Nat.eq_dec (List.length l) 12) as [H12 | H12]; [| lia].
    destruct (anchor_length_12 (Z.of_N (rows person_image))
                (Z.of_N (cols person_image)) fit_analysis l H12)
      as [[e He] _].
    congruence.
Qed.

(** Twelve landmarks at (40, 50) on a 400 x 300 image, with a 200 x 200
    garment that is resized without trouble: [IndexError]. *)
Lemma landmark_guard_off_by_one_witness :
  landmark_guard (Some (repeat (shoulder_at 40 50) 12))
    = Some (repeat (shoulder_at 40 50) 12)
  /\ placement_anchor 400 300 perfect_fit_sample
       (Some (repeat (shoulder_at 40 50) 12)) = Raise IndexError
  /\ apply_garment_overlay (sample_image 400 300) (sample_image 200 200)
       perfect_fit_sample (Some (repeat (shoulder_at 40 50) 12))
     = Raise IndexError.
Proof.
  destruct (landmark_guard_off_by_one (sample_image 400 300)
              (sample_image 200 200) perfect_fit_sample
              (repeat (shoulder_at 40 50) 12)) as (Hg & H12 & _).
  destruct (H12 eq_refl) as (_ & _ & Hiff & _ & _ & Hidx).
  split; [apply Hg; simpl; lia |].
  split; [apply (Hidx (shoulder_at 40 50) (of_int 40) 40%Z); reflexivity |].
  apply Hiff.
  exists 200%Z, 200%Z, (sample_image 200 200), (shoulder_at 40 50),
    (of_int 40), 40%Z.
  repeat split.
Defined.

(** C10, as stated, fails for twelve landmarks that carry no ['x'], and for
    twelve landmarks whose ['x'] is [nan]: the call raises at entry 11,
    with [KeyError] and with [ValueError], before entry 12 is read. *)
Lemma landmark_twelve_not_index_error :
  List.length (repeat [("y", of_int 50)] 12) = 12%nat
  /\ apply_garment_overlay (sample_image 400 300) (sample_image 200 200)
       perfect_fit_sample (Some (repeat [("y", of_int 50)] 12))
     = Raise KeyError
  /\ apply_garment_overlay (sample_image 400 300) (sample_image 200 200)
       perfect_fit_sample (Some (repeat [("x", NaN); ("y", of_int 50)] 12))
     = Raise ValueError.
Proof. repeat split. Qed.

(** C7, on the input where the code departs from it: a list of 12
    landmarks has no usable entry 12, so the anchor should be the fallback
    [(person_w // 2, person_h // 4)] that the same call computes without
    landmarks; the positioning block raises [IndexError] instead, and so
    does the whole call.  [anchor_default] and [anchor_from_shoulders]
    cover the inputs on which the code does what C7 says. *)
Theorem anchor_twelve_landmarks_raises :
  placement_anchor 400 300 perfect_fit_sample
    (Some (repeat (shoulder_at 40 50) 12)) = Raise IndexError
  /\ placement_anchor 400 300 perfect_fit_sample None = Ok (150%Z, 100%Z)
  /\ placement_anchor 400 300 perfect_fit_sample
       (Some (repeat (shoulder_at 40 50) 11)) = Ok (150%Z, 100%Z)
  /\ placement_anchor 400 300 perfect_fit_sample
       (Some (repeat (shoulder_at 40 50) 13)) = Ok (40%Z, 30%Z)
  /\ apply_garment_overlay (sample_image 400 300) (sample_image 200 200)
       perfect_fit_sample (Some (repeat (shoulder_at 40 50) 12))
     = Raise IndexError.
Proof. repeat split. Qed.

(* ------------------------------------------------------------------ *)
(** ** Clipping of the placement rectangle *)

Lemma cv2_resize_ok (src : image) (w h : Z) (r : image) :
  cv2_resize src (w, h) = Ok r ->
  (0 < rows src)%N /\ (0 < cols src)%N /\ (0 < w)%Z /\ (0 < h)%Z
  /\ r = {| rows := Z.to_N h; cols := Z.to_N w |}.
Proof.
  unfold cv2_resize.
  destruct (0 <? rows src)%N eqn:A; [| discriminate].
  destruct (0 <? cols src)%N eqn:B; [| discriminate].
  destruct (0 <? w)%Z eqn:C; [| discriminate].
  destruct (0 <? h)%Z eqn:D; [| discriminate].
  cbn [andb]. intros E. inversion E.
  apply N.ltb_lt in A, B. apply Z.ltb_lt in C, D. auto.
Qed.

Lemma cv2_resize_nonpositive (src : image) (w h : Z) :
  (w <= 0 \/ h <= 0)%Z -> cv2_resize src (w, h) = Raise cv2_error.
Proof.
  intros H. unfold cv2_resize.
  destruct (0 <? w)%Z eqn:C; destruct (0 <? h)%Z eqn:D;
    rewrite ?andb_false_r; try reflexivity.
  apply Z.ltb_lt in C, D. lia.
Qed.

(** C8 (amended).  Once the new garment size and the anchor are computed,
    a clipped placement rectangle of zero area makes the call raise
    OpenCV's error (no composite is returned: a [Raise] carries none).
    A non-empty person image smaller than the new garment size on both
    axes does not fail: the rectangle is clipped to the whole person image,
    the garment is resized again to that size and the composite is
    returned. *)
Theorem overlay_clipping (person_image garment_image : image)
  (fit_analysis : FitAnalysis) (pose_landmarks : option (list landmark))
  (new_garment_w new_garment_h center_x anchor_y : Z) :
  new_garment_size garment_image fit_analysis
    = Ok (new_garment_w, new_garment_h) ->
  placement_anchor (Z.of_N (rows person_image)) (Z.of_N (cols person_image))
    fit_analysis pose_landmarks = Ok (center_x, anchor_y) ->
  (forall start_x start_y end_x end_y,
     clip_placement (Z.of_N (rows person_image)) (Z.of_N (cols person_image))
       new_garment_h new_garment_w center_x anchor_y
       = (start_x, start_y, end_x, end_y) ->
     (end_x - start_x = 0 \/ end_y - start_y = 0)%Z ->
     apply_garment_overlay person_image garment_image fit_analysis
       pose_landmarks = Raise cv2_error)
  /\ ((0 < rows garment_image)%N -> (0 < cols garment_image)%N ->
      (0 < Z.of_N (cols person_image) < new_garment_w)%Z ->
      (0 < Z.of_N (rows person_image) < new_garment_h)%Z ->
      apply_garment_overlay person_image garment_image fit_analysis
        pose_landmarks
      = Ok {| shape := person_image;
              start_x := 0; start_y := 0;
              end_x := Z.of_N (cols person_image);
              end_y := Z.of_N (rows person_image);
              garment_shape := person_image;
              alpha := snd (fst (fst (fit_parameters fit_analysis))) |}).
Proof.
  intros Hsize Hanchor. split.
  - intros sx sy ex ey Hclip Hzero.
    unfold apply_garment_overlay.
    destruct (fit_parameters fit_analysis) as [[[sf al] wa] ha].
    rewrite Hsize. cbn [bind].
    destruct (cv2_resize garment_image (new_garment_w, new_garment_h))
      as [g |] eqn:Hr; cbn [bind].
    + apply cv2_resize_ok in Hr. destruct Hr as (_ & _ & Hw & Hh & _).
      rewrite Hanchor. cbn [bind]. rewrite Hclip.
      assert (Hneq : (negb (ex - sx =? new_garment_w)%Z
                      || negb (ey - sy =? new_garment_h)%Z)%bool = true).
      { apply orb_true_iff. destruct Hzero as [Hz | Hz]; [left | right];
          apply negb_true_iff, Z.eqb_neq; lia. }
      rewrite Hneq. rewrite cv2_resize_nonpositive by lia. reflexivity.
    + unfold cv2_resize in Hr. destruct garment_image as [gr gc].
      cbn [rows cols] in Hr.
      destruct ((0 <? gr)%N && (0 <? gc)%N && (0 <? new_garment_w)%Z
                && (0 <? new_garment_h)%Z)%bool; [discriminate |].
      inversion Hr. reflexivity.
  - intros Gr Gc Hw Hh.
    unfold apply_garment_overlay.
    destruct (fit_parameters fit_analysis) as [[[sf al] wa] ha].
    cbn [fst snd]. rewrite Hsize. cbn [bind].
    destruct person_image as [pr pc]. cbn [rows cols] in *.
    assert (R1 : cv2_resize garment_image (new_garment_w, new_garment_h)
                 = Ok {| rows := Z.to_N new_garment_h;
                         cols := Z.to_N new_garment_w |}).
    { unfold cv2_resize.
      apply N.ltb_lt in Gr, Gc. rewrite Gr, Gc.
      replace (0 <? new_garment_w)%Z with true by (symmetry; apply Z.ltb_lt; lia).
      replace (0 <? new_garment_h)%Z with true by (symmetry; apply Z.ltb_lt; lia).
      reflexivity. }
    rewrite R1. cbn [bind]. rewrite Hanchor. cbn [bind].
    unfold clip_placement.
    replace (Z.max 0 (Z.min (center_x - new_garment_w / 2)
                        (Z.of_N pc - new_garment_w))) with 0%Z by lia.
    replace (Z.max 0 (Z.min anchor_y (Z.of_N pr - new_garment_h)))
      with 0%Z by lia.
    replace (Z.min (0 + new_garment_w) (Z.of_N pc)) with (Z.of_N pc) by lia.
    replace (Z.min (0 + new_garment_h) (Z.of_N pr)) with (Z.of_N pr) by lia.
    rewrite !Z.sub_0_r.
    replace (negb (Z.of_N pc =? new_garment_w)%Z
             || negb (Z.of_N pr =? new_garment_h)%Z)%bool with true
      by (symmetry; apply orb_true_iff; left;
          apply negb_true_iff, Z.eqb_neq; lia).
    assert (R2 : cv2_resize {| rows := Z.to_N new_garment_h;
                               cols := Z.to_N new_garment_w |}
                   (Z.of_N pc, Z.of_N pr)
                 = Ok {| rows := pr; cols := pc |}).
    { unfold cv2_resize. cbn [rows cols].
      replace (0 <? Z.to_N new_garment_h)%N with true
        by (symmetry; apply N.ltb_lt; lia).
      replace (0 <? Z.to_N new_garment_w)%N with true
        by (symmetry; apply N.ltb_lt; lia).
      replace (0 <? Z.of_N pc)%Z with true by (symmetry; apply Z.ltb_lt; lia).
      replace (0 <? Z.of_N pr)%Z with true by (symmetry; apply Z.ltb_lt; lia).
      cbn [andb]. rewrite !N2Z.id. reflexivity. }
    rewrite R2. cbn [bind].
    assert (S1 : np_slice {| rows := pr; cols := pc |} 0 (Z.of_N pr) 0
                   (Z.of_N pc) = {| rows := pr; cols := pc |}).
    { unfold np_slice, np_slice_len. cbn [rows cols].
      replace (0 <? 0)%Z with false by reflexivity.
      replace (Z.of_N pr <? 0)%Z with false by (symmetry; apply Z.ltb_ge; lia).
      replace (Z.of_N pc <? 0)%Z with false by (symmetry; apply Z.ltb_ge; lia).
      rewrite !Z.min_id.
      replace (Z.min 0 (Z.of_N pr)) with 0%Z by lia.
      replace (Z.min 0 (Z.of_N pc)) with 0%Z by lia.
      rewrite !Z.sub_0_r.
      replace (Z.max 0 (Z.of_N pr)) with (Z.of_N pr) by lia.
      replace (Z.max 0 (Z.of_N pc)) with (Z.of_N pc) by lia.
      rewrite !N2Z.id. reflexivity. }
    unfold np_assign. rewrite S1.
    unfold cv2_addWeighted, image_eqb. cbn [rows cols].
    rewrite !N.eqb_refl. cbn [andb bind rows cols].
    rewrite !N.eqb_refl. reflexivity.
Qed.

(** Part one: a TIGHT analysis with chest difference -15 scales the garment
    to 0 x 0, the rectangle is empty and OpenCV raises.  Part two: a 100 x
    100 person image under a 200 x 200 garment gets a full-image
    composite. *)
Lemma overlay_clipping_witness :
  apply_garment_overlay (sample_image 400 300) (sample_image 200 200)
    tight_fit_sample None = Raise cv2_error
  /\ apply_garment_overlay (sample_image 100 100) (sample_image 200 200)
       perfect_fit_sample None
     = Ok {| shape := sample_image 100 100;
             start_x := 0; start_y := 0; end_x := 100; end_y := 100;
             garment_shape := sample_image 100 100;
             alpha := lit 8 10 |}.
Proof.
  split.
  - destruct (overlay_clipping (sample_image 400 300) (sample_image 200 200)
                tight_fit_sample None 0 0 150 120 eq_refl eq_refl)
      as [Hzero _].
    apply (Hzero 150%Z 120%Z 150%Z 120%Z); [reflexivity | left; reflexivity].
  - destruct (overlay_clipping (sample_image 100 100) (sample_image 200 200)
                perfect_fit_sample None 200 200 50 25 eq_refl eq_refl)
      as [_ Hfull].
    apply Hfull; simpl; lia.
Defined.

(** C8, as stated, fails: a person image smaller than the placement
    rectangle on both axes (100 x 100 under a 200 x 200 garment) does not
    make the call fail; the composite covers the whole person image. *)
Lemma overlay_small_person_succeeds :
  new_garment_size (sample_image 200 200) perfect_fit_sample
    = Ok (200%Z, 200%Z)
  /\ exists r,
       apply_garment_overlay (sample_image 100 100) (sample_image 200 200)
         perfect_fit_sample None = Ok r
       /\ shape r = sample_image 100 100
       /\ (start_x r, start_y r, end_x r, end_y r) = (0, 0, 100, 100)%Z
       /\ (0 < (end_x r - start_x r) * (end_y r - start_y r))%Z.
Proof.
  split; [reflexivity |]. eexists. split; [reflexivity |].
  repeat split.
Qed.

(* ------------------------------------------------------------------ *)
(** ** process_virtual_tryon_with_sizing *)

(** On an ASCII string [upper] changes the letters [a]..[z] only. *)
Lemma upper_ascii (s : string) :
  is_ascii s = true -> upper s = str_map ascii_upper s.
Proof.
  induction s as [| c s IH]; [reflexivity |].
  cbn [is_ascii upper str_map]. intros H.
  apply andb_prop in H. destruct H as [Hc Hs].
  rewrite Hc, (IH Hs). reflexivity.
Qed.

(** Outside ASCII: U+00DF becomes [SS], U+017F becomes [S]. *)
Lemma upper_sharp_s_long_s :
  upper (String (ascii_of_N 0xc3) (String (ascii_of_N 0x9f) EmptyString)) = "SS"
  /\ upper long_s_label = "XS".
Proof. split; reflexivity. Qed.

Lemma of_value_names (v : string) (s : GarmentSize.t) :
  GarmentSize.value s = v -> GarmentSize.of_value v = Ok s.
Proof. intros <-. destruct s; reflexivity. Qed.

Lemma of_value_unnamed (v : string) :
  (forall s, GarmentSize.value s <> v) ->
  GarmentSize.of_value v = Raise ValueError.
Proof.
  intros H. unfold GarmentSize.of_value.
  destruct (find _ GarmentSize.members) as [s |] eqn:E; [| reflexivity].
  apply find_some in E. destruct E as [_ E].
  apply String.eqb_eq in E. elim (H s E).
Qed.

(** C9.  A size label that, uppercased, is the value of no catalog size
    does not make the conversion fail: size M is substituted, and the call
    proceeds exactly as it does for the label "M".  A label that, uppercased,
    is the value of a catalog size selects that size.  Whenever the call
    returns, the analysis it reports is for the size so selected. *)
Theorem invalid_size_label_defaults_to_M
  (person_image garment_image : option image)
  (person_chest person_height : pyfloat) (label gender : string)
  (pose_landmarks : option (list landmark)) :
  ((forall s, GarmentSize.value s <> upper label) ->
   size_enum_of label = GarmentSize.M
   /\ process_virtual_tryon_with_sizing person_image garment_image
        person_chest person_height label gender pose_landmarks
      = process_virtual_tryon_with_sizing person_image garment_image
          person_chest person_height "M" gender pose_landmarks)
  /\ (forall s, GarmentSize.value s = upper label -> size_enum_of label = s)
  /\ (forall r,
        process_virtual_tryon_with_sizing person_image garment_image
          person_chest person_height label gender pose_landmarks = Ok r ->
        selected_size (r_fit_analysis r) = size_enum_of label).
Proof.
  split; [| split].
  - intros H.
    assert (E : size_enum_of label = GarmentSize.M).
    { unfold size_enum_of. rewrite (of_value_unnamed _ H). reflexivity. }
    split; [exact E |].
    unfold process_virtual_tryon_with_sizing. rewrite E. reflexivity.
  - intros s H. unfold size_enum_of.
    rewrite (of_value_names _ s H). reflexivity.
  - intros r. unfold process_virtual_tryon_with_sizing.
    destruct person_image as [p |]; [| discriminate].
    destruct garment_image as [g |]; [| discriminate].
    destruct (analyze_fit_eq person_chest person_height (size_enum_of label)
                gender) as (m & a & _ & Ea & _ & Es & _).
    rewrite Ea. cbn [bind].
    destruct (apply_garment_overlay p g a pose_landmarks); cbn [bind];
      [| discriminate].
    destruct (create_size_comparison_grid p g person_chest person_height
                gender pose_landmarks); cbn [bind]; [| discriminate].
    destruct (get_size_comparison_data person_chest person_height gender);
      cbn [bind]; [| discriminate].
    intros E. inversion E. exact Es.
Qed.

(** The labels "huge" (no catalog size), "xl" (size XL) and [x] followed
    by U+017F, LATIN SMALL LETTER LONG S, whose uppercase is "XS" (size XS),
    on a 400 x 300 person image and a 100 x 100 garment. *)
Lemma invalid_size_label_defaults_to_M_witness :
  size_enum_of "huge" = GarmentSize.M
  /\ process_virtual_tryon_with_sizing (Some (sample_image 400 300))
       (Some (sample_image 100 100)) (of_int 93) (of_int 175) "huge" "male" None
     = process_virtual_tryon_with_sizing (Some (sample_image 400 300))
         (Some (sample_image 100 100)) (of_int 93) (of_int 175) "M" "male" None
  /\ size_enum_of "xl" = GarmentSize.XL
  /\ size_enum_of long_s_label = GarmentSize.XS
  /\ (exists r,
        process_virtual_tryon_with_sizing (Some (sample_image 400 300))
          (Some (sample_image 100 100)) (of_int 93) (of_int 175) "huge" "male"
          None = Ok r
        /\ selected_size (r_fit_analysis r) = GarmentSize.M).
Proof.
  destruct (invalid_size_label_defaults_to_M (Some (sample_image 400 300))
              (Some (sample_image 100 100)) (of_int 93) (of_int 175)
              "huge" "male" None) as (Hbad & _ & Hsel).
  destruct (invalid_size_label_defaults_to_M (Some (sample_image 400 300))
              (Some (sample_image 100 100)) (of_int 93) (of_int 175)
              "xl" "male" None) as (_ & Hgood & _).
  destruct (invalid_size_label_defaults_to_M (Some (sample_image 400 300))
              (Some (sample_image 100 100)) (of_int 93) (of_int 175)
              long_s_label "male" None) as (_ & Hlong & _).
  assert (Hno : forall s, GarmentSize.value s <> upper "huge")
    by (intros s; destruct s; discriminate).
  destruct (Hbad Hno) as [E1 E2].
  split; [exact E1 |]. split; [exact E2 |].
  split; [exact (Hgood GarmentSize.XL eq_refl) |].
  split; [exact (Hlong GarmentSize.XS eq_refl) |].
  eexists. split; [reflexivity |].
  rewrite <- E1. apply Hsel. reflexivity.
Defined.

(* ================================================================== *)
(** * Further properties of the module *)

(* ------------------------------------------------------------------ *)
(** ** What a successful overlay looks like *)

(** Every step a returning call of [apply_garment_overlay] went
    through. *)
Lemma overlay_ok_inv (person_image garment_image : image)
  (fit_analysis : FitAnalysis) (pose_landmarks : option (list landmark))
  (r : Composite) :
  apply_garment_overlay person_image garment_image fit_analysis pose_landmarks
    = Ok r ->
  exists new_garment_w new_garment_h center_x anchor_y,
    new_garment_size garment_image fit_analysis
      = Ok (new_garment_w, new_garment_h)
    /\ (0 < new_garment_w)%Z /\ (0 < new_garment_h)%Z
    /\ (0 < rows garment_image)%N /\ (0 < cols garment_image)%N
    /\ placement_anchor (Z.of_N (rows person_image))
         (Z.of_N (cols person_image)) fit_analysis pose_landmarks
       = Ok (center_x, anchor_y)
    /\ (start_x r, start_y r, end_x r, end_y r)
       = clip_placement (Z.of_N (rows person_image))
           (Z.of_N (cols person_image)) new_garment_h new_garment_w
           center_x anchor_y
    /\ shape r = person_image
    /\ alpha r = snd (fst (fst (fit_parameters fit_analysis)))
    /\ (0 < end_x r - start_x r)%Z /\ (0 < end_y r - start_y r)%Z
    /\ garment_shape r = {| rows := Z.to_N (end_y r - start_y r);
                            cols := Z.to_N (end_x r - start_x r) |}.
Proof.
  unfold apply_garment_overlay.
  destruct (fit_parameters fit_analysis) as [[[sf al] wa] ha]. cbn [fst snd].
  destruct (new_garment_size garment_image fit_analysis) as [[nw nh] |];
    cbn [bind]; [| discriminate].
  destruct (cv2_resize garment_image (nw, nh)) as [g1 |] eqn:R1;
    cbn [bind]; [| discriminate].
  apply cv2_resize_ok in R1. destruct R1 as (Gr & Gc & Hw & Hh & Eg1).
  destruct (placement_anchor _ _ fit_analysis pose_landmarks) as [[cx ay] |];
    cbn [bind]; [| discriminate].
  destruct (clip_placement _ _ nh nw cx ay) as [[[sx sy] ex] ey] eqn:Hclip.
  intros H. exists nw, nh, cx, ay.
  assert (Hg2 : exists g2,
             (if (negb (ex - sx =? nw)%Z || negb (ey - sy =? nh)%Z)%bool
              then cv2_resize g1 (ex - sx, ey - sy)%Z else Ok g1) = Ok g2
             /\ (0 < ex - sx)%Z /\ (0 < ey - sy)%Z
             /\ g2 = {| rows := Z.to_N (ey - sy); cols := Z.to_N (ex - sx) |}).
  { destruct (negb (ex - sx =? nw)%Z || negb (ey - sy =? nh)%Z)%bool eqn:Hneq.
    - destruct (cv2_resize g1 (ex - sx, ey - sy)%Z) as [g2 |] eqn:R2;
        [| discriminate H].
      exists g2. apply cv2_resize_ok in R2. tauto.
    - apply orb_false_iff in Hneq. destruct Hneq as [A B].
      apply negb_false_iff, Z.eqb_eq in A, B.
      exists g1. rewrite A, B. auto. }
  destruct Hg2 as (g2 & E2 & Pw & Ph & Eg2). rewrite E2 in H. cbn [bind] in H.
  destruct (cv2_addWeighted _ g2) as [b |]; cbn [bind] in H; [| discriminate H].
  destruct (np_assign person_image sy ey sx ex b) as [res |] eqn:Hassign;
    cbn [bind] in H; [| discriminate H].
  unfold np_assign in Hassign.
  destruct (image_eqb _ b); [| discriminate Hassign].
  inversion Hassign; subst res. inversion H; subst r. cbn.
  repeat split; first [assumption | reflexivity | symmetry; assumption].
Qed.

(** X1.  Whenever [apply_garment_overlay] returns, the composite has the
    shape of the person image, the placement rectangle lies inside the
    person image and has positive width and height, its width and height
    are the new garment size cut down to the person image, and the blended
    garment has exactly the size of the rectangle. *)
Theorem overlay_rectangle_inside_person (person_image garment_image : image)
  (fit_analysis : FitAnalysis) (pose_landmarks : option (list landmark))
  (r : Composite) :
  apply_garment_overlay person_image garment_image fit_analysis pose_landmarks
    = Ok r ->
  shape r = person_image
  /\ (0 <= start_x r < end_x r)%Z
  /\ (end_x r <= Z.of_N (cols person_image))%Z
  /\ (0 <= start_y r < end_y r)%Z
  /\ (end_y r <= Z.of_N (rows person_image))%Z
  /\ garment_shape r = {| rows := Z.to_N (end_y r - start_y r);
                          cols := Z.to_N (end_x r - start_x r) |}
  /\ exists new_garment_w new_garment_h,
       new_garment_size garment_image fit_analysis
         = Ok (new_garment_w, new_garment_h)
       /\ (end_x r - start_x r
           = Z.min new_garment_w (Z.of_N (cols person_image)))%Z
       /\ (end_y r - start_y r
           = Z.min new_garment_h (Z.of_N (rows person_image)))%Z.
Proof.
  intros H. apply overlay_ok_inv in H.
  destruct H as (nw & nh & cx & ay & Hsize & Hw & Hh & _ & _ & _ & Hclip
                 & Hshape & _ & Pw & Ph & Hg).
  destruct r as [sh sx sy ex ey gs al].
  cbn [shape start_x start_y end_x end_y garment_shape] in *.
  unfold clip_placement in Hclip.
  injection Hclip as Esx Esy Eex Eey.
  pose proof (N2Z.is_nonneg (cols person_image)).
  pose proof (N2Z.is_nonneg (rows person_image)).
  split; [exact Hshape |].
  repeat split; try lia; try exact Hg.
  exists nw, nh. split; [exact Hsize |]. split; lia.
Qed.

(** A garment 400 wide and 300 high on a person image 300 wide and 400
    high, PERFECT fit: the garment is 100 columns too wide and is cut to
    300. *)
Lemma overlay_rectangle_inside_person_witness :
  exists r,
    apply_garment_overlay (sample_image 400 300) (sample_image 300 400)
      perfect_fit_sample None = Ok r
    /\ (start_x r, end_x r, start_y r, end_y r) = (0, 300, 100, 400)%Z
    /\ garment_shape r = sample_image 300 300.
Proof.
  eexists. split; [reflexivity |].
  destruct (overlay_rectangle_inside_person (sample_image 400 300)
              (sample_image 300 400) perfect_fit_sample None _ eq_refl)
    as (_ & _ & _ & _ & _ & Hg & _).
  split; [reflexivity | exact Hg].
Defined.

(* ------------------------------------------------------------------ *)
(** ** Fit type and drawn size *)

Lemma py_int_fin (q : Q) : py_int (Fin q) = Ok (trunc q).
Proof. reflexivity. Qed.

Lemma trunc_ge (n : Z) (q : Q) : (inject_Z n <= q)%Q -> (n <= trunc q)%Z.
Proof.
  unfold Qle, inject_Z, trunc. simpl. intros H.
  apply Z.quot_le_lower_bound; lia.
Qed.

Lemma trunc_le (n : Z) (q : Q) : (q <= inject_Z n)%Q -> (trunc q <= n)%Z.
Proof.
  unfold Qle, inject_Z, trunc. simpl. intros H.
  apply Z.quot_le_upper_bound; lia.
Qed.

Lemma trunc_inject_Z (n : Z) : trunc (inject_Z n) = n.
Proof. unfold trunc, inject_Z. simpl. apply Z.quot_1_r. Qed.

Arguments trunc : simpl never.

Lemma inject_Z_of_N_nonneg (n : N) : (0 <= inject_Z (Z.of_N n))%Q.
Proof. unfold Qle, inject_Z. simpl. lia. Qed.

(** The three bands behind the five tests of [analyze_fit]. *)
Lemma fit_type_bands (person_chest person_height : pyfloat)
  (sel : GarmentSize.t) (gender : string) (a : FitAnalysis) :
  analyze_fit person_chest person_height sel gender = Ok a ->
  match fit_type a with
  | FitType.PERFECT => (fabs (chest_difference_cm a) <=? of_int 2)%F = true
  | FitType.LOOSE => (of_int 2 <? chest_difference_cm a)%F = true
  | FitType.TIGHT => (chest_difference_cm a <? of_int (-2))%F = true
                     \/ is_nan (chest_difference_cm a) = true
  end.
Proof.
  intros Ha.
  destruct (analyze_fit_eq person_chest person_height sel gender)
    as (m & a' & _ & Ea & _ & _ & _ & _ & Ecls & _).
  rewrite Ha in Ea. inversion Ea; subst a'; clear Ea.
  assert (Eft : fit_type a = fst (fit_type a, fit_description a)) by reflexivity.
  rewrite Ecls in Eft. rewrite Eft. clear Eft Ecls.
  unfold fit_tolerance, tight_threshold, loose_threshold, perfect_range,
    fge, fgt, lit, of_int.
  destruct (chest_difference_cm a) as [q | | |]; simpl;
    split_ifs; simpl; auto; try (left; q_solve); q_solve.
Qed.

(** X2.  The fit type depends on the chest difference through three bands
    only: PERFECT exactly when [abs(chest_difference) <= 2], LOOSE exactly
    when [chest_difference > 2], TIGHT exactly when [chest_difference < -2]
    or the difference is [nan].  The thresholds -3 and 8 select the
    description text, never the fit type. *)
Theorem fit_type_three_bands (person_chest person_height : pyfloat)
  (sel : GarmentSize.t) (gender : string) :
  exists a,
    analyze_fit person_chest person_height sel gender = Ok a
    /\ (fit_type a = FitType.PERFECT
        <-> (fabs (chest_difference_cm a) <=? of_int 2)%F = true)
    /\ (fit_type a = FitType.LOOSE
        <-> (of_int 2 <? chest_difference_cm a)%F = true)
    /\ (fit_type a = FitType.TIGHT
        <-> (chest_difference_cm a <? of_int (-2))%F = true
            \/ is_nan (chest_difference_cm a) = true).
Proof.
  destruct (analyze_fit_total person_chest person_height sel gender) as [a Ea].
  exists a. split; [exact Ea |].
  pose proof (fit_type_bands _ _ _ _ _ Ea) as H.
  destruct (fit_type a); destruct (chest_difference_cm a) as [q | | |];
    simpl in *; unfold of_int in *;
    repeat split; intros; try discriminate; try reflexivity; try assumption;
    try (destruct H as [H | H]; [| discriminate H]);
    try match goal with
        | H' : _ \/ _ |- _ => destruct H' as [H' | H']; [| discriminate H']
        end;
    q_solve.
Qed.

(** Size M, height 175: chests 96, 93 and 99.5 are PERFECT, LOOSE and
    TIGHT. *)
Lemma fit_type_three_bands_witness :
  (exists a, analyze_fit (of_int 96) (of_int 175) GarmentSize.M "male" = Ok a
             /\ fit_type a = FitType.PERFECT)
  /\ (exists a, analyze_fit (of_int 93) (of_int 175) GarmentSize.M "male" = Ok a
                /\ fit_type a = FitType.LOOSE)
  /\ (exists a, analyze_fit (lit 199 2) (of_int 175) GarmentSize.M "male" = Ok a
                /\ fit_type a = FitType.TIGHT).
Proof.
  repeat split.
  - destruct (fit_type_three_bands (of_int 96) (of_int 175) GarmentSize.M "male")
      as (a & Ea & H & _).
    exists a. split; [exact Ea |]. apply H.
    vm_compute in Ea. injection Ea as <-. reflexivity.
  - destruct (fit_type_three_bands (of_int 93) (of_int 175) GarmentSize.M "male")
      as (a & Ea & _ & H & _).
    exists a. split; [exact Ea |]. apply H.
    vm_compute in Ea. injection Ea as <-. reflexivity.
  - destruct (fit_type_three_bands (lit 199 2) (of_int 175) GarmentSize.M "male")
      as (a & Ea & _ & _ & H).
    exists a. split; [exact Ea |]. apply H. left.
    vm_compute in Ea. injection Ea as <-. reflexivity.
Defined.

Lemma tight_scale (q : Q) :
  (lit 75 100 + Fin q / lit 20 1)%F = Fin ((75 # 100) + q / (20 # 1)).
Proof. reflexivity. Qed.

Lemma loose_scale (q : Q) :
  (lit 1 1 + Fin q / lit 15 1)%F = Fin ((1 # 1) + q / (15 # 1)).
Proof. reflexivity. Qed.

(** The new garment size in each band of the chest difference. *)
Lemma new_garment_size_bounds (garment_image : image)
  (fit_analysis : FitAnalysis) (w h : Z) :
  new_garment_size garment_image fit_analysis = Ok (w, h) ->
  match fit_type fit_analysis with
  | FitType.PERFECT =>
      w = Z.of_N (cols garment_image) /\ h = Z.of_N (rows garment_image)
  | FitType.LOOSE =>
      (of_int 0 <=? chest_difference_cm fit_analysis)%F = true ->
      (Z.of_N (cols garment_image) <= w)%Z
      /\ (Z.of_N (rows garment_image) <= h)%Z
  | FitType.TIGHT =>
      ((chest_difference_cm fit_analysis <=? of_int 0)%F = true ->
       (w <= Z.of_N (cols garment_image))%Z
       /\ (h <= Z.of_N (rows garment_image))%Z)
      /\ ((chest_difference_cm fit_analysis <=? of_int (-15))%F = true ->
          (w <= 0)%Z /\ (h <= 0)%Z)
  end.
Proof.
  unfold new_garment_size, fit_parameters.
  pose proof (inject_Z_of_N_nonneg (cols garment_image)) as Hc.
  pose proof (inject_Z_of_N_nonneg (rows garment_image)) as Hr.
  set (gw := inject_Z (Z.of_N (cols garment_image))) in *.
  set (gh := inject_Z (Z.of_N (rows garment_image))) in *.
  destruct (fit_type fit_analysis).
  - (* TIGHT *)
    destruct (chest_difference_cm fit_analysis) as [q | | |].
    + rewrite tight_scale. unfold of_int, lit. fold gw gh. cbn [fmul].
      rewrite !py_int_fin. cbn [bind fle].
      intros E. injection E as Ew Eh. rewrite <- Ew, <- Eh. clear Ew Eh.
      change (q / (20 # 1))%Q with (q * (1 # 20))%Q.
      change (inject_Z 0) with 0%Q. change (inject_Z (-15)) with (-15 # 1)%Q.
      split; intros Hq; q_reflect; split;
        apply trunc_le; fold gw gh;
        try change (inject_Z 0) with 0%Q;
        clearbody gw gh; nra.
    + unfold of_int. fold gw. simpl. unfold signed_inf.
      destruct (gw ?= 0)%Q; simpl; discriminate.
    + unfold of_int. fold gw. simpl. unfold signed_inf.
      destruct (gw ?= 0)%Q; simpl; discriminate.
    + simpl. discriminate.
  - (* PERFECT *)
    unfold of_int, lit. fold gw gh. cbn [fmul]. rewrite !py_int_fin.
    cbn [bind]. intros E. injection E as Ew Eh. rewrite <- Ew, <- Eh.
    split; unfold trunc, gw, gh, Qmult, inject_Z; cbn [Qnum Qden];
      rewrite !Z.mul_1_r; apply Z.quot_1_r.
  - (* LOOSE *)
    destruct (chest_difference_cm fit_analysis) as [q | | |].
    + rewrite loose_scale. unfold of_int, lit. fold gw gh. cbn [fmul].
      rewrite !py_int_fin. cbn [bind fle].
      intros E. injection E as Ew Eh. rewrite <- Ew, <- Eh. clear Ew Eh.
      change (q / (15 # 1))%Q with (q * (1 # 15))%Q.
      change (inject_Z 0) with 0%Q.
      intros Hq; q_reflect; split;
        apply trunc_ge; fold gw gh;
        clearbody gw gh; nra.
    + unfold of_int. fold gw. simpl. unfold signed_inf.
      destruct (gw ?= 0)%Q; simpl; discriminate.
    + unfold of_int. fold gw. simpl. unfold signed_inf.
      destruct (gw ?= 0)%Q; simpl; discriminate.
    + simpl. discriminate.
Qed.

(** X3.  For an analysis that [analyze_fit] returned, whenever the new
    garment size can be computed: a PERFECT fit keeps the size of the
    garment image, a LOOSE fit never draws it smaller and a TIGHT fit never
    draws it larger, in width and in height. *)
Theorem drawn_size_follows_fit (person_chest person_height : pyfloat)
  (sel : GarmentSize.t) (gender : string) (fit_analysis : FitAnalysis)
  (garment_image : image) (w h : Z) :
  analyze_fit person_chest person_height sel gender = Ok fit_analysis ->
  new_garment_size garment_image fit_analysis = Ok (w, h) ->
  match fit_type fit_analysis with
  | FitType.PERFECT =>
      w = Z.of_N (cols garment_image) /\ h = Z.of_N (rows garment_image)
  | FitType.LOOSE =>
      (Z.of_N (cols garment_image) <= w)%Z
      /\ (Z.of_N (rows garment_image) <= h)%Z
  | FitType.TIGHT =>
      (w <= Z.of_N (cols garment_image))%Z
      /\ (h <= Z.of_N (rows garment_image))%Z
  end.
Proof.
  intros Ha Hsize.
  pose proof (fit_type_bands _ _ _ _ _ Ha) as Hband.
  pose proof (new_garment_size_bounds _ _ _ _ Hsize) as Hb.
  destruct (fit_type fit_analysis) eqn:Ft.
  - destruct Hband as [Hlt | Hnan].
    + apply Hb. destruct (chest_difference_cm fit_analysis); simpl in *;
        try discriminate; try reflexivity. unfold of_int in *. q_solve.
    + destruct (chest_difference_cm fit_analysis) eqn:Ecd; try discriminate.
      unfold new_garment_size, fit_parameters in Hsize.
      rewrite Ft, Ecd in Hsize. simpl in Hsize. discriminate.
  - exact Hb.
  - apply Hb. destruct (chest_difference_cm fit_analysis); simpl in *;
      try discriminate; try reflexivity. unfold of_int in *. q_solve.
Qed.

(** A 110 x 110 garment: chest 93 in size M is LOOSE (difference 4) and is
    drawn 167 wide and 153 high. *)
Lemma drawn_size_follows_fit_witness :
  exists fit_analysis,
    analyze_fit (of_int 93) (of_int 175) GarmentSize.M "male" = Ok fit_analysis
    /\ fit_type fit_analysis = FitType.LOOSE
    /\ new_garment_size (sample_image 110 110) fit_analysis
       = Ok (167%Z, 153%Z)
    /\ (110 <= 167)%Z /\ (110 <= 153)%Z.
Proof.
  eexists. split; [reflexivity |]. split; [reflexivity |].
  split; [reflexivity |].
  exact (drawn_size_follows_fit (of_int 93) (of_int 175) GarmentSize.M "male"
           _ (sample_image 110 110) 167 153 eq_refl eq_refl).
Defined.

(* ------------------------------------------------------------------ *)
(** ** Sizes that cannot be drawn *)

(** A TIGHT analysis with a chest difference of -15 or less has a scale
    factor of zero or less: the overlay raises whatever the images and the
    landmarks are. *)
Lemma overlay_raises_scale_nonpositive (person_image garment_image : image)
  (fit_analysis : FitAnalysis) (pose_landmarks : option (list landmark)) :
  fit_type fit_analysis = FitType.TIGHT ->
  (chest_difference_cm fit_analysis <=? of_int (-15))%F = true ->
  exists e,
    apply_garment_overlay person_image garment_image fit_analysis
      pose_landmarks = Raise e.
Proof.
  intros Ft Hcd. unfold apply_garment_overlay.
  destruct (fit_parameters fit_analysis) as [[[sf al] wa] ha].
  destruct (new_garment_size garment_image fit_analysis) as [[w h] |] eqn:Hs;
    cbn [bind]; [| eauto].
  pose proof (new_garment_size_bounds _ _ _ _ Hs) as Hb.
  rewrite Ft in Hb. destruct Hb as [_ Hb]. destruct (Hb Hcd) as [Hw _].
  rewrite cv2_resize_nonpositive by lia. cbn [bind]. eauto.
Qed.

Lemma analyze_fit_far_too_small (person_chest person_height : pyfloat)
  (sel : GarmentSize.t) (gender : string) (m : GarmentMeasurements)
  (a : FitAnalysis) :
  dict_get GarmentSize.eqb shirt_measurements sel = Ok m ->
  (chest_cm m + of_int 15 <=? person_chest)%F = true ->
  analyze_fit person_chest person_height sel gender = Ok a ->
  fit_type a = FitType.TIGHT
  /\ (chest_difference_cm a <=? of_int (-15))%F = true.
Proof.
  intros Em Hfar Ha.
  destruct (analyze_fit_eq person_chest person_height sel gender)
    as (m' & a' & Em' & Ea & _ & _ & Ecd & _ & Ecls & _).
  rewrite Ha in Ea. inversion Ea; subst a'; clear Ea.
  rewrite Em in Em'. inversion Em'; subst m'; clear Em'.
  destruct (catalog_get sel) as (m' & Em' & _ & Fc & _).
  rewrite Em in Em'. inversion Em'; subst m'; clear Em'.
  assert (Hcd : (chest_difference_cm a <=? of_int (-15))%F = true).
  { rewrite Ecd. destruct (chest_cm m) as [c | | |]; try discriminate Fc.
    destruct person_chest; simpl in *; try discriminate; try reflexivity.
    unfold of_int in *. q_solve. }
  split; [| exact Hcd].
  assert (Ht : (chest_difference_cm a <=? tight_threshold fit_tolerance)%F = true).
  { destruct (chest_difference_cm a); simpl in *; try discriminate;
      try reflexivity. unfold of_int in *. q_solve. }
  rewrite Ht in Ecls. inversion Ecls. reflexivity.
Qed.

(** X4.  When the person's chest is 15 cm or more above the chest of a
    catalog size, the analysis of that size is TIGHT and its overlay raises
    for every person image, garment image and landmark list. *)
Theorem far_too_small_size_cannot_be_drawn
  (person_chest person_height : pyfloat) (sel : GarmentSize.t)
  (gender : string) (m : GarmentMeasurements)
  (person_image garment_image : image)
  (pose_landmarks : option (list landmark)) :
  dict_get GarmentSize.eqb shirt_measurements sel = Ok m ->
  (chest_cm m + of_int 15 <=? person_chest)%F = true ->
  exists a e,
    analyze_fit person_chest person_height sel gender = Ok a
    /\ fit_type a = FitType.TIGHT
    /\ apply_garment_overlay person_image garment_image a pose_landmarks
       = Raise e.
Proof.
  intros Em Hfar.
  destruct (analyze_fit_total person_chest person_height sel gender) as [a Ea].
  destruct (analyze_fit_far_too_small _ _ _ _ _ _ Em Hfar Ea) as [Ft Hcd].
  destruct (overlay_raises_scale_nonpositive person_image garment_image a
              pose_landmarks Ft Hcd) as [e He].
  exists a, e. auto.
Qed.

(** Chest 101 against size XS (chest 86). *)
Lemma far_too_small_size_cannot_be_drawn_witness :
  exists a e,
    analyze_fit (of_int 101) (of_int 175) GarmentSize.XS "male" = Ok a
    /\ fit_type a = FitType.TIGHT
    /\ apply_garment_overlay (sample_image 400 300) (sample_image 200 200) a
         None = Raise e.
Proof.
  exact (far_too_small_size_cannot_be_drawn (of_int 101) (of_int 175)
           GarmentSize.XS "male" _ (sample_image 400 300)
           (sample_image 200 200) None eq_refl eq_refl).
Defined.

Lemma overlay_ok_person_nonempty (person_image garment_image : image)
  (fit_analysis : FitAnalysis) (pose_landmarks : option (list landmark))
  (r : Composite) :
  apply_garment_overlay person_image garment_image fit_analysis pose_landmarks
    = Ok r ->
  shape r = person_image
  /\ (0 < rows person_image)%N /\ (0 < cols person_image)%N.
Proof.
  intros H. apply overlay_ok_inv in H.
  destruct H as (nw & nh & cx & ay & _ & Hw & Hh & _ & _ & _ & Hclip
                 & Hshape & _ & Pw & Ph & _).
  destruct r as [sh sx sy ex ey gs al].
  cbn [shape start_x start_y end_x end_y] in *.
  unfold clip_placement in Hclip. injection Hclip as Esx Esy Eex Eey.
  split; [exact Hshape |]. split; lia.
Qed.

(* ------------------------------------------------------------------ *)
(** ** create_size_comparison_grid *)

Lemma grid_unfold (person_image garment_image : image)
  (person_chest person_height : pyfloat) (gender : string)
  (pose_landmarks : option (list landmark)) :
  create_size_comparison_grid person_image garment_image person_chest
    person_height gender pose_landmarks
  = (t1 <- grid_tile person_image garment_image person_chest person_height
             gender pose_landmarks GarmentSize.S ;;
     t2 <- grid_tile person_image garment_image person_chest person_height
             gender pose_landmarks GarmentSize.M ;;
     t3 <- grid_tile person_image garment_image person_chest person_height
             gender pose_landmarks GarmentSize.L ;;
     i1 <- cv2_resize (shape t1) (300, 400)%Z ;;
     i2 <- cv2_resize (shape t2) (300, 400)%Z ;;
     i3 <- cv2_resize (shape t3) (300, 400)%Z ;;
     Ok (np_hstack [i1; i2; i3]))%result.
Proof.
  unfold create_size_comparison_grid, grid_tile. cbn [mapM].
  destruct (analyze_fit person_chest person_height GarmentSize.S gender)
    as [a1 |]; cbn [bind]; [| reflexivity].
  destruct (apply_garment_overlay person_image garment_image a1 pose_landmarks)
    as [t1 |]; cbn [bind]; [| reflexivity].
  destruct (analyze_fit person_chest person_height GarmentSize.M gender)
    as [a2 |]; cbn [bind]; [| reflexivity].
  destruct (apply_garment_overlay person_image garment_image a2 pose_landmarks)
    as [t2 |]; cbn [bind]; [| reflexivity].
  destruct (analyze_fit person_chest person_height GarmentSize.L gender)
    as [a3 |]; cbn [bind]; [| reflexivity].
  destruct (apply_garment_overlay person_image garment_image a3 pose_landmarks)
    as [t3 |]; cbn [bind mapM]; [| reflexivity].
  destruct (cv2_resize (shape t1) (300, 400)%Z); cbn [bind]; [| reflexivity].
  destruct (cv2_resize (shape t2) (300, 400)%Z); cbn [bind]; [| reflexivity].
  destruct (cv2_resize (shape t3) (300, 400)%Z); reflexivity.
Qed.

Lemma grid_tile_resize (person_image garment_image : image)
  (person_chest person_height : pyfloat) (gender : string)
  (pose_landmarks : option (list landmark)) (size : GarmentSize.t)
  (t : Composite) :
  grid_tile person_image garment_image person_chest person_height gender
    pose_landmarks size = Ok t ->
  cv2_resize (shape t) (300, 400)%Z = Ok {| rows := 400; cols := 300 |}.
Proof.
  unfold grid_tile.
  destruct (analyze_fit person_chest person_height size gender) as [a |];
    cbn [bind]; [| discriminate].
  intros H. apply overlay_ok_person_nonempty in H.
  destruct H as (Hs & Hr & Hc). rewrite Hs. unfold cv2_resize.
  apply N.ltb_lt in Hr, Hc. rewrite Hr, Hc. reflexivity.
Qed.

(** X5.  [create_size_comparison_grid] returns exactly when the tiles of
    S, M and L can all be drawn, and what it returns is then always an
    image of 400 rows and 900 columns, whatever the sizes of the two input
    images. *)
Theorem comparison_grid_shape (person_image garment_image : image)
  (person_chest person_height : pyfloat) (gender : string)
  (pose_landmarks : option (list landmark)) :
  (forall grid,
     create_size_comparison_grid person_image garment_image person_chest
       person_height gender pose_landmarks = Ok grid ->
     grid = {| rows := 400; cols := 900 |}
     /\ forall size, In size [GarmentSize.S; GarmentSize.M; GarmentSize.L] ->
          exists t, grid_tile person_image garment_image person_chest
                      person_height gender pose_landmarks size = Ok t)
  /\ ((forall size, In size [GarmentSize.S; GarmentSize.M; GarmentSize.L] ->
         exists t, grid_tile person_image garment_image person_chest
                     person_height gender pose_landmarks size = Ok t) ->
      create_size_comparison_grid person_image garment_image person_chest
        person_height gender pose_landmarks
      = Ok {| rows := 400; cols := 900 |}).
Proof.
  rewrite grid_unfold. split.
  - intros grid.
    destruct (grid_tile _ _ _ _ _ _ GarmentSize.S) as [t1 |] eqn:E1;
      cbn [bind]; [| discriminate].
    destruct (grid_tile _ _ _ _ _ _ GarmentSize.M) as [t2 |] eqn:E2;
      cbn [bind]; [| discriminate].
    destruct (grid_tile _ _ _ _ _ _ GarmentSize.L) as [t3 |] eqn:E3;
      cbn [bind]; [| discriminate].
    rewrite (grid_tile_resize _ _ _ _ _ _ _ _ E1),
      (grid_tile_resize _ _ _ _ _ _ _ _ E2),
      (grid_tile_resize _ _ _ _ _ _ _ _ E3).
    cbn [bind]. intros H. inversion H. split; [reflexivity |].
    intros size [<- | [<- | [<- | []]]]; eauto.
  - intros H.
    destruct (H GarmentSize.S) as [t1 E1]; [simpl; tauto |].
    destruct (H GarmentSize.M) as [t2 E2]; [simpl; tauto |].
    destruct (H GarmentSize.L) as [t3 E3]; [simpl; tauto |].
    rewrite E1, E2, E3. cbn [bind].
    rewrite (grid_tile_resize _ _ _ _ _ _ _ _ E1),
      (grid_tile_resize _ _ _ _ _ _ _ _ E2),
      (grid_tile_resize _ _ _ _ _ _ _ _ E3).
    reflexivity.
Qed.

(** Chest 93, height 175 on a 640 x 480 person image with a 100 x 100
    garment: the three tiles are drawn and the grid is 400 x 900. *)
Lemma comparison_grid_shape_witness :
  create_size_comparison_grid (sample_image 640 480) (sample_image 100 100)
    (of_int 93) (of_int 175) "male" None
  = Ok {| rows := 400; cols := 900 |}.
Proof.
  destruct (comparison_grid_shape (sample_image 640 480) (sample_image 100 100)
              (of_int 93) (of_int 175) "male" None) as [_ H].
  apply H. intros size [<- | [<- | [<- | []]]]; eexists; reflexivity.
Defined.

(** For a chest of 106 cm or more the tile of size S has a scale factor of
    zero or less. *)
Lemma grid_raises_large_chest (person_image garment_image : image)
  (person_chest person_height : pyfloat) (gender : string)
  (pose_landmarks : option (list landmark)) :
  (of_int 106 <=? person_chest)%F = true ->
  exists e,
    create_size_comparison_grid person_image garment_image person_chest
      person_height gender pose_landmarks = Raise e.
Proof.
  intros Hc. rewrite grid_unfold. unfold grid_tile at 1.
  destruct (analyze_fit_total person_chest person_height GarmentSize.S gender)
    as [a Ea].
  rewrite Ea. cbn [bind].
  assert (Hfar : (of_int 91 + of_int 15 <=? person_chest)%F = true).
  { destruct person_chest; simpl in *; try discriminate; try reflexivity.
    unfold of_int in *. q_solve. }
  destruct (analyze_fit_far_too_small person_chest person_height GarmentSize.S
              gender _ a eq_refl Hfar Ea) as [Ft Hcd].
  destruct (overlay_raises_scale_nonpositive person_image garment_image a
              pose_landmarks Ft Hcd) as [e He].
  rewrite He. cbn [bind]. eauto.
Qed.

(** X6.  For a person chest of 106 cm or more (infinite included) the S
    tile of the comparison grid cannot be drawn, so
    [create_size_comparison_grid] raises, and with it
    [process_virtual_tryon_with_sizing], whatever the images, the height,
    the gender, the landmarks and the selected size are. *)
Theorem large_chest_always_fails
  (person_image garment_image : option image) (grid_person grid_garment : image)
  (person_chest person_height : pyfloat) (label gender : string)
  (pose_landmarks : option (list landmark)) :
  (of_int 106 <=? person_chest)%F = true ->
  (exists e,
     create_size_comparison_grid grid_person grid_garment person_chest
       person_height gender pose_landmarks = Raise e)
  /\ (exists e,
        process_virtual_tryon_with_sizing person_image garment_image
          person_chest person_height label gender pose_landmarks = Raise e).
Proof.
  intros Hc. split; [apply grid_raises_large_chest; exact Hc |].
  unfold process_virtual_tryon_with_sizing.
  destruct person_image as [p |]; [| eauto].
  destruct garment_image as [g |]; [| eauto].
  destruct (analyze_fit person_chest person_height (size_enum_of label) gender)
    as [a |]; cbn [bind]; [| eauto].
  destruct (apply_garment_overlay p g a pose_landmarks); cbn [bind]; [| eauto].
  destruct (grid_raises_large_chest p g person_chest person_height gender
              pose_landmarks Hc) as [e He].
  rewrite He. cbn [bind]. eauto.
Qed.

(** Chest 106, selected size XXL (LOOSE for that chest, and drawable on
    its own): the call still raises. *)
Lemma large_chest_always_fails_witness :
  exists e,
    process_virtual_tryon_with_sizing (Some (sample_image 640 480))
      (Some (sample_image 100 100)) (of_int 106) (of_int 175) "XXL" "male"
      None = Raise e.
Proof.
  destruct (large_chest_always_fails (Some (sample_image 640 480))
              (Some (sample_image 100 100)) (sample_image 640 480)
              (sample_image 100 100) (of_int 106) (of_int 175) "XXL" "male"
              None eq_refl) as [_ H].
  exact H.
Defined.

(* ------------------------------------------------------------------ *)
(** ** The size chart behind get_recommended_size *)

Lemma search_first_closest (t : Q) :
  first_closest (Fin t)
    (fst (fold_left (closest_step (Fin t)) shirt_measurements
            (GarmentSize.M, PInf))).
Proof.
  destruct (fold_closest (Fin t) shirt_measurements
              (catalog_distances_not_nan t) (GarmentSize.M, PInf) eq_refl)
    as [[_ Hall] | (before & s & m & after & El & E & _ & Hb & Ha)].
  - inversion Hall as [| e l H _]. discriminate H.
  - rewrite E. exists before, m, after. auto.
Qed.

Ltac forall_heads :=
  repeat match goal with
  | H : Forall _ (_ :: _) |- _ =>
      let H1 := fresh "Hhead" in
      let H2 := fresh "Htail" in
      apply Forall_cons_iff in H; destruct H as [H1 H2]
  | H : Forall _ [] |- _ => clear H
  end.

Lemma first_closest_chart (t : Q) (r : GarmentSize.t) :
  first_closest (Fin t) r -> r = size_chart t.
Proof.
  intros (before & m & after & E & Hb & Ha).
  unfold shirt_measurements in E.
  assert (Hcases :
    (r = GarmentSize.XS /\ (t <= 177 # 2)%Q)
    \/ (r = GarmentSize.S /\ (177 # 2 < t)%Q /\ (t <= 94)%Q)
    \/ (r = GarmentSize.M /\ (94 < t)%Q /\ (t <= 199 # 2)%Q)
    \/ (r = GarmentSize.L /\ (199 # 2 < t)%Q /\ (t <= 209 # 2)%Q)
    \/ (r = GarmentSize.XL /\ (209 # 2 < t)%Q /\ (t <= 219 # 2)%Q)
    \/ (r = GarmentSize.XXL /\ (219 # 2 < t)%Q)).
  { destruct before as [| e0 before]; cbn [app] in E;
      [injection E as <- <- <- |
       injection E as <- E;
       destruct before as [| e1 before]; cbn [app] in E;
         [injection E as <- <- <- |
          injection E as <- E;
          destruct before as [| e2 before]; cbn [app] in E;
            [injection E as <- <- <- |
             injection E as <- E;
             destruct before as [| e3 before]; cbn [app] in E;
               [injection E as <- <- <- |
                injection E as <- E;
                destruct before as [| e4 before]; cbn [app] in E;
                  [injection E as <- <- <- |
                   injection E as <- E;
                   destruct before as [| e5 before]; cbn [app] in E;
                     [injection E as <- <- <- |
                      injection E as <- E;
                      destruct before; discriminate E]]]]]];
      forall_heads;
      repeat match goal with
      | H : Forall _ _ |- _ => clear H
      end.
    - left. split; [reflexivity |].
      clear - Hhead. unfold chest_distance, garment, of_int in Hhead.
      cbn [chest_cm snd fsub fadd fneg fabs fle] in Hhead. q_solve.
    - right; left. split; [reflexivity |].
      clear - Hhead Hhead0. unfold chest_distance, garment, of_int in *.
      cbn [chest_cm snd fsub fadd fneg fabs fle flt] in *. split; q_solve.
    - right; right; left. split; [reflexivity |].
      clear - Hhead0 Hhead1. unfold chest_distance, garment, of_int in *.
      cbn [chest_cm snd fsub fadd fneg fabs fle flt] in *. split; q_solve.
    - right; right; right; left. split; [reflexivity |].
      clear - Hhead1 Hhead2. unfold chest_distance, garment, of_int in *.
      cbn [chest_cm snd fsub fadd fneg fabs fle flt] in *. split; q_solve.
    - right; right; right; right; left. split; [reflexivity |].
      clear - Hhead2 Hhead3. unfold chest_distance, garment, of_int in *.
      cbn [chest_cm snd fsub fadd fneg fabs fle flt] in *. split; q_solve.
    - right; right; right; right; right. split; [reflexivity |].
      clear - Hhead3. unfold chest_distance, garment, of_int in *.
      cbn [chest_cm snd fsub fadd fneg fabs fle flt] in *. q_solve. }
  unfold size_chart.
  destruct Hcases as [[-> H] | [[-> [H1 H2]] | [[-> [H1 H2]] | [[-> [H1 H2]]
    | [[-> [H1 H2]] | [-> H]]]]]];
    repeat match goal with
    | |- context [Qle_bool ?a ?b] =>
        let E := fresh "E" in
        destruct (Qle_bool a b) eqn:E; q_reflect; try reflexivity; try lra
    end.
Qed.

Lemma target_chest_finite (q : Q) (gender : string) :
  target_chest (Fin q) gender
  = Fin (q + inject_Z (comfort_allowance gender)).
Proof. rewrite target_chest_allowance. reflexivity. Qed.

Lemma comfort_allowance_range (gender : string) :
  (2 <= comfort_allowance gender <= 4)%Z.
Proof. unfold comfort_allowance. split_ifs; lia. Qed.

Lemma recommended_chart (q : Q) (gender : string) :
  get_recommended_size (Fin q) gender
  = size_chart (q + inject_Z (comfort_allowance gender)).
Proof.
  unfold get_recommended_size. rewrite target_chest_finite.
  apply first_closest_chart. apply search_first_closest.
Qed.

(** X7.  On a finite chest measurement up to 2^53 the closest-size search
    of [get_recommended_size] is a fixed chart on the target chest (the
    measurement plus the gender allowance): XS up to 88.5, S up to 94, M up
    to 99.5, L up to 104.5, XL up to 109.5, XXL above. *)
Theorem recommended_size_is_chart (chest_measurement : pyfloat)
  (gender : string) :
  is_finite chest_measurement = true ->
  (chest_measurement <=? of_int chest_limit)%F = true ->
  exists target,
    target_chest chest_measurement gender = Fin target
    /\ get_recommended_size chest_measurement gender = size_chart target.
Proof.
  intros Hfin _.
  destruct chest_measurement as [q | | |]; try discriminate Hfin.
  exists (q + inject_Z (comfort_allowance gender))%Q.
  split; [apply target_chest_finite | apply recommended_chart].
Qed.

(** Chest 90, "male": the target 94 is the midpoint between S and M, and
    the chart gives S. *)
Lemma recommended_size_is_chart_witness :
  get_recommended_size (of_int 90) "male" = GarmentSize.S
  /\ size_chart 94 = GarmentSize.S.
Proof.
  destruct (recommended_size_is_chart (of_int 90) "male" eq_refl eq_refl)
    as (t & Et & Er).
  split; [| reflexivity]. rewrite Er. injection Et as <-. reflexivity.
Defined.

Lemma size_chart_mono (t1 t2 : Q) :
  (t1 <= t2)%Q -> (size_rank (size_chart t1) <= size_rank (size_chart t2))%nat.
Proof.
  intros H. unfold size_chart.
  repeat match goal with
  | |- context [Qle_bool ?a ?b] =>
      let E := fresh "E" in
      destruct (Qle_bool a b) eqn:E; q_reflect
  end; simpl; try lia; lra.
Qed.

(** X8.  With the gender fixed, of two finite chest measurements up to
    2^53 the larger never gets the smaller recommended size. *)
Theorem recommended_size_monotone (chest1 chest2 : pyfloat) (gender : string) :
  is_finite chest1 = true -> is_finite chest2 = true ->
  (chest1 <=? chest2)%F = true ->
  (chest2 <=? of_int chest_limit)%F = true ->
  (size_rank (get_recommended_size chest1 gender)
   <= size_rank (get_recommended_size chest2 gender))%nat.
Proof.
  intros F1 F2 Hle _.
  destruct chest1 as [q1 | | |]; try discriminate F1.
  destruct chest2 as [q2 | | |]; try discriminate F2.
  rewrite !recommended_chart. apply size_chart_mono.
  simpl in Hle. q_reflect. lra.
Qed.

(** Chests 93 and 100, "male": M and L. *)
Lemma recommended_size_monotone_witness :
  (size_rank (get_recommended_size (of_int 93) "male")
   <= size_rank (get_recommended_size (of_int 100) "male"))%nat.
Proof.
  exact (recommended_size_monotone (of_int 93) (of_int 100) "male"
           eq_refl eq_refl eq_refl eq_refl).
Defined.

Lemma comfort_allowance_Q (gender : string) :
  (2 <= inject_Z (comfort_allowance gender) <= 4)%Q.
Proof.
  pose proof (comfort_allowance_range gender) as H.
  unfold Qle, inject_Z. simpl. lia.
Qed.

(** X9.  When the target chest (finite measurement plus allowance) is at
    most 112, the chest of the largest catalog size, the size that
    [get_recommended_size] returns is never TIGHT in [analyze_fit]; when
    the target is also at least 86, the chest of the smallest size, the
    recommended size is PERFECT or "somewhat loose but comfortable", with a
    chest difference between -1 and 7. *)
Theorem recommended_size_never_tight (person_chest person_height : pyfloat)
  (gender : string) :
  is_finite person_chest = true ->
  (target_chest person_chest gender <=? of_int 112)%F = true ->
  exists a,
    analyze_fit person_chest person_height
      (get_recommended_size person_chest gender) gender = Ok a
    /\ fit_type a <> FitType.TIGHT
    /\ ((of_int 86 <=? target_chest person_chest gender)%F = true ->
        (of_int (-1) <=? chest_difference_cm a)%F = true
        /\ (chest_difference_cm a <=? of_int 7)%F = true
        /\ (fit_type a = FitType.PERFECT
            \/ fit_description a
               = "This size will be somewhat loose but comfortable")).
Proof.
  intros Hfin. destruct person_chest as [q | | |]; try discriminate Hfin.
  rewrite recommended_chart, target_chest_finite.
  pose proof (comfort_allowance_Q gender) as HA.
  set (A := inject_Z (comfort_allowance gender)) in *. clearbody A.
  cbn [fle of_int]. intros H112. q_reflect.
  unfold size_chart.
  repeat match goal with
  | |- context [Qle_bool ?a ?b] =>
      let E := fresh "E" in destruct (Qle_bool a b) eqn:E
  end; q_reflect;
  match goal with
  | |- context [analyze_fit _ _ ?s _] =>
      destruct (analyze_fit_eq (Fin q) person_height s gender)
        as (m & a & Em & Ea & _ & _ & Ecd & _ & Ecls & _)
  end;
  injection Em as <-; exists a; (split; [exact Ea |]);
  assert (Eft : fit_type a = fst (fit_type a, fit_description a))
    by reflexivity;
  assert (Efd : fit_description a = snd (fit_type a, fit_description a))
    by reflexivity;
  rewrite Ecls in Eft, Efd; rewrite Eft, Efd, Ecd; clear Eft Efd Ecls Ecd Ea;
  unfold fit_tolerance, tight_threshold, loose_threshold, perfect_range,
    fge, fgt, lit, garment; unfold of_int;
  cbn [chest_cm fsub fadd fneg fabs fle flt]; unfold inject_Z in *;
  (split;
   [ split_ifs; cbn [fst]; try discriminate; exfalso; q_reflect; q_abs; lra
   | intros H86;
     first [ discriminate H86
           | q_reflect; split; [q_reflect; lra |];
             split; [q_reflect; lra |];
             split_ifs; cbn [fst snd]; auto; exfalso; q_reflect; q_abs; lra ] ]).
Qed.

(** Chest 93, "male": target 97, recommended M, difference 4. *)
Lemma recommended_size_never_tight_witness :
  exists a,
    analyze_fit (of_int 93) (of_int 175)
      (get_recommended_size (of_int 93) "male") "male" = Ok a
    /\ fit_type a <> FitType.TIGHT
    /\ (chest_difference_cm a <=? of_int 7)%F = true.
Proof.
  destruct (recommended_size_never_tight (of_int 93) (of_int 175) "male"
              eq_refl eq_refl) as (a & Ea & Ht & H).
  destruct (H eq_refl) as (_ & H7 & _).
  exists a. auto.
Defined.

(* ------------------------------------------------------------------ *)
(** ** Content of the size comparison and of the response *)

(** X10.  For every catalog size, ['size_analysis'] of
    [get_size_comparison_data] has an entry under the size's value, and the
    entry carries what [analyze_fit] returns for that size, the catalog
    record of the size, and the flag telling whether the size is the one
    the analysis recommends. *)
Theorem size_analysis_lookup (person_chest person_height : pyfloat)
  (gender : string) (sel : GarmentSize.t) :
  exists d a m e,
    get_size_comparison_data person_chest person_height gender = Ok d
    /\ analyze_fit person_chest person_height sel gender = Ok a
    /\ dict_get GarmentSize.eqb shirt_measurements sel = Ok m
    /\ dict_get String.eqb (size_analysis d) (GarmentSize.value sel) = Ok e
    /\ is_recommended e = GarmentSize.eqb sel (recommended_size a)
    /\ e_fit_type e = FitType.value (fit_type a)
    /\ e_fit_score e = fit_score a
    /\ e_fit_description e = fit_description a
    /\ e_chest_difference e = chest_difference_cm a
    /\ e_length_difference e = length_difference_cm a
    /\ e_measurements e
       = {| m_chest := chest_cm m; m_length := length_cm m;
            m_shoulder_width := shoulder_width_cm m;
            m_sleeve_length := sleeve_length_cm m |}.
Proof.
  destruct (analyze_fit_eq person_chest person_height GarmentSize.XS gender)
    as (m1 & a1 & M1 & E1 & R1 & _).
  destruct (analyze_fit_eq person_chest person_height GarmentSize.S gender)
    as (m2 & a2 & M2 & E2 & R2 & _).
  destruct (analyze_fit_eq person_chest person_height GarmentSize.M gender)
    as (m3 & a3 & M3 & E3 & R3 & _).
  destruct (analyze_fit_eq person_chest person_height GarmentSize.L gender)
    as (m4 & a4 & M4 & E4 & R4 & _).
  destruct (analyze_fit_eq person_chest person_height GarmentSize.XL gender)
    as (m5 & a5 & M5 & E5 & R5 & _).
  destruct (analyze_fit_eq person_chest person_height GarmentSize.XXL gender)
    as (m6 & a6 & M6 & E6 & R6 & _).
  unfold get_size_comparison_data.
  change get_available_sizes with GarmentSize.members.
  unfold GarmentSize.members. cbn [foldM].
  rewrite E1; cbn [bind]. rewrite E2; cbn [bind]. rewrite E3; cbn [bind].
  rewrite E4; cbn [bind]. rewrite E5; cbn [bind]. rewrite E6; cbn [bind].
  rewrite M1, M2, M3, M4, M5, M6. cbn [bind].
  eexists.
  destruct sel;
    [ exists a1, m1 | exists a2, m2 | exists a3, m3
    | exists a4, m4 | exists a5, m5 | exists a6, m6 ];
    eexists; (split; [reflexivity |]); (split; [assumption |]);
    (split; [assumption |]); (split; [reflexivity |]);
    cbn [is_recommended e_fit_type e_fit_score e_fit_description
         e_chest_difference e_length_difference e_measurements];
    rewrite ?R1, ?R2, ?R3, ?R4, ?R5, ?R6; repeat split.
Qed.

Lemma penalty_zero_iff (d : pyfloat) (k cap : positive) (p : Q) :
  py_min (fabs d * of_int (Zpos k))%F (of_int (Zpos cap)) = Fin p ->
  ((p == 0)%Q <-> (d == of_int 0)%F).
Proof.
  assert (Hk : (0 < inject_Z (Zpos k))%Q) by (unfold inject_Z, Qlt; simpl; lia).
  assert (Hc : (0 < inject_Z (Zpos cap))%Q) by (unfold inject_Z, Qlt; simpl; lia).
  unfold py_min, of_int.
  destruct d as [q | | |]; cbn [fabs fmul flt feqb signed_inf];
    try (replace (inject_Z (Z.pos k) ?= 0)%Q with Gt
           by (symmetry; apply Qgt_alt; exact Hk); cbn [flt]);
    try (intros E; injection E as <-; split; [intros H | discriminate];
         exfalso; lra);
    try discriminate.
  change (inject_Z 0) with 0%Q.
  destruct (Qlt_bool _ _) eqn:E; intros Ep; injection Ep as <-;
    q_reflect; rewrite Qeq_bool_iff; split; intros H.
  - exfalso. lra.
  - exfalso. revert E. pattern (Qabs q). apply Qabs_case; intros; nra.
  - revert H. pattern (Qabs q). apply Qabs_case; intros; nra.
  - pattern (Qabs q). apply Qabs_case; intros; nra.
Qed.

Lemma score_100_iff (cd ld : pyfloat) :
  (py_max (of_int 0)
     (of_int 100 - py_min (fabs cd * of_int 10)%F (of_int 50)
      - py_min (fabs ld * of_int 5)%F (of_int 20))%F == of_int 100)%F
  <-> (cd == of_int 0)%F /\ (ld == of_int 0)%F.
Proof.
  destruct (is_nan cd) eqn:Nc.
  { destruct cd; try discriminate Nc. rewrite score_nan_chest.
    split; [discriminate | intros [H _]; discriminate H]. }
  destruct (is_nan ld) eqn:Nl.
  { destruct ld; try discriminate Nl. rewrite score_nan_length.
    split; [discriminate | intros [_ H]; discriminate H]. }
  destruct (score_finite cd ld Nc Nl) as (p1 & p2 & E1 & E2 & B1 & B2 & E).
  rewrite E1, E2, E.
  rewrite <- (penalty_zero_iff cd 10 50 p1 E1).
  rewrite <- (penalty_zero_iff ld 5 20 p2 E2).
  unfold of_int. cbn [feqb]. rewrite Qeq_bool_iff.
  change (inject_Z 100) with 100%Q. split; [intros H; split | intros [H1 H2]]; lra.
Qed.

(** X11.  The score of [analyze_fit] is 100 exactly when the chest
    difference and the length difference are both zero, and a zero chest
    difference is always classified PERFECT. *)
Theorem perfect_score_iff_no_difference (person_chest person_height : pyfloat)
  (sel : GarmentSize.t) (gender : string) :
  exists a,
    analyze_fit person_chest person_height sel gender = Ok a
    /\ ((fit_score a == of_int 100)%F
        <-> (chest_difference_cm a == of_int 0)%F
            /\ (length_difference_cm a == of_int 0)%F)
    /\ ((chest_difference_cm a == of_int 0)%F ->
        fit_type a = FitType.PERFECT).
Proof.
  destruct (analyze_fit_eq person_chest person_height sel gender)
    as (m & a & _ & Ea & _ & _ & _ & _ & Ecls & Esc).
  exists a. split; [exact Ea |]. split.
  - rewrite Esc. apply score_100_iff.
  - intros Hz.
    pose proof (fit_type_bands _ _ _ _ _ Ea) as Hb.
    destruct (chest_difference_cm a) as [q | | |]; try discriminate Hz.
    unfold of_int in *. cbn [feqb] in Hz. apply Qeq_bool_iff in Hz.
    destruct (fit_type a); cbn [flt fle fabs is_nan] in Hb;
      [destruct Hb as [Hb | Hb]; [| discriminate Hb] | reflexivity |];
      exfalso; q_reflect; unfold inject_Z in *; lra.
Qed.

(** Chest 97, height 175, size M (chest 97, length 70): both differences
    are zero and the score is 100. *)
Lemma perfect_score_iff_no_difference_witness :
  exists a,
    analyze_fit (of_int 97) (of_int 175) GarmentSize.M "male" = Ok a
    /\ (fit_score a == of_int 100)%F
    /\ fit_type a = FitType.PERFECT.
Proof.
  destruct (perfect_score_iff_no_difference (of_int 97) (of_int 175)
              GarmentSize.M "male") as (a & Ea & Hs & Hp).
  assert (I := Ea). vm_compute in I. injection I as I.
  exists a. split; [exact Ea |].
  split; [apply Hs; rewrite <- I; split; reflexivity
         | apply Hp; rewrite <- I; reflexivity].
Defined.

(** X12.  What a returning call of [process_virtual_tryon_with_sizing]
    contains: both images were loaded; the reported analysis is
    [analyze_fit] for the selected size; the try-on result is its overlay
    on the person image and has the shape of the person image; the
    comparison grid is 400 rows by 900 columns; the size data is what
    [get_size_comparison_data] returns and does not depend on the selected
    size.  When an image is missing the call raises [ValueError]. *)
Theorem tryon_response_content
  (person_image garment_image : option image)
  (person_chest person_height : pyfloat) (label gender : string)
  (pose_landmarks : option (list landmark)) :
  (forall r,
     process_virtual_tryon_with_sizing person_image garment_image
       person_chest person_height label gender pose_landmarks = Ok r ->
     exists p g,
       person_image = Some p /\ garment_image = Some g
       /\ success r = true
       /\ analyze_fit person_chest person_height (size_enum_of label) gender
          = Ok (r_fit_analysis r)
       /\ apply_garment_overlay p g (r_fit_analysis r) pose_landmarks
          = Ok (try_on_result r)
       /\ shape (try_on_result r) = p
       /\ comparison_grid r = {| rows := 400; cols := 900 |}
       /\ get_size_comparison_data person_chest person_height gender
          = Ok (size_data r))
  /\ (person_image = None \/ garment_image = None ->
      process_virtual_tryon_with_sizing person_image garment_image
        person_chest person_height label gender pose_landmarks
      = Raise ValueError).
Proof.
  split.
  - intros r. unfold process_virtual_tryon_with_sizing.
    destruct person_image as [p |]; [| discriminate].
    destruct garment_image as [g |]; [| discriminate].
    destruct (analyze_fit person_chest person_height (size_enum_of label)
                gender) as [a |]; cbn [bind]; [| discriminate].
    destruct (apply_garment_overlay p g a pose_landmarks) as [t |] eqn:Ht;
      cbn [bind]; [| discriminate].
    rewrite grid_unfold.
    destruct (grid_tile p g _ _ _ _ GarmentSize.S) as [t1 |] eqn:E1;
      cbn [bind]; [| discriminate].
    destruct (grid_tile p g _ _ _ _ GarmentSize.M) as [t2 |] eqn:E2;
      cbn [bind]; [| discriminate].
    destruct (grid_tile p g _ _ _ _ GarmentSize.L) as [t3 |] eqn:E3;
      cbn [bind]; [| discriminate].
    rewrite (grid_tile_resize _ _ _ _ _ _ _ _ E1),
      (grid_tile_resize _ _ _ _ _ _ _ _ E2),
      (grid_tile_resize _ _ _ _ _ _ _ _ E3).
    cbn [bind].
    destruct (get_size_comparison_data person_chest person_height gender)
      as [d |]; cbn [bind]; [| discriminate].
    intros E. injection E as <-.
    exists p, g. cbn [success r_fit_analysis try_on_result comparison_grid
                      size_data].
    destruct (overlay_ok_person_nonempty _ _ _ _ _ Ht) as [Hs _].
    repeat split; try reflexivity; assumption.
  - intros [-> | ->]; [reflexivity |].
    destruct person_image; reflexivity.
Qed.

(** Chest 93, height 175, label "m", a 640 x 480 person image and a
    100 x 100 garment. *)
Lemma tryon_response_content_witness :
  exists r,
    process_virtual_tryon_with_sizing (Some (sample_image 640 480))
      (Some (sample_image 100 100)) (of_int 93) (of_int 175) "m" "male" None
    = Ok r
    /\ shape (try_on_result r) = sample_image 640 480
    /\ comparison_grid r = {| rows := 400; cols := 900 |}
    /\ process_virtual_tryon_with_sizing None (Some (sample_image 100 100))
         (of_int 93) (of_int 175) "m" "male" None = Raise ValueError.
Proof.
  destruct (tryon_response_content (Some (sample_image 640 480))
              (Some (sample_image 100 100)) (of_int 93) (of_int 175) "m"
              "male" None) as [Hok _].
  destruct (tryon_response_content None (Some (sample_image 100 100))
              (of_int 93) (of_int 175) "m" "male" None) as [_ Hno].
  eexists. split; [reflexivity |].
  destruct (Hok _ eq_refl) as (p & g & Ep & _ & _ & _ & _ & Hs & Hg & _).
  injection Ep as <-.
  split; [exact Hs |]. split; [exact Hg |]. apply Hno. left. reflexivity.
Defined.

(* ================================================================== *)
(** * Properties of the body measurement helpers *)

(* ------------------------------------------------------------------ *)
(** ** _estimate_body_fat *)

Ltac q_norm := unfold lit, of_int, inject_Z in *.

Lemma body_fat_range (bmi : pyfloat) (gender : Gender.t) :
  (of_int 3 <=? _estimate_body_fat bmi gender)%F = true
  /\ (_estimate_body_fat bmi gender <=? of_int 50)%F = true.
Proof.
  unfold _estimate_body_fat, py_max, py_min, fgt.
  destruct bmi as [q | | |]; destruct gender; q_norm;
    try (split; reflexivity);
    cbn [Gender.eqb fmul fadd fsub fneg flt];
    split_ifs; cbn [fle]; split; q_reflect; lra.
Qed.

Lemma body_fat_mono (bmi1 bmi2 : pyfloat) (gender : Gender.t) :
  (bmi1 <=? bmi2)%F = true ->
  (_estimate_body_fat bmi1 gender <=? _estimate_body_fat bmi2 gender)%F = true.
Proof.
  unfold _estimate_body_fat, py_max, py_min, fgt.
  destruct bmi1 as [q1 | | |], bmi2 as [q2 | | |]; destruct gender; q_norm;
    intros H; try discriminate H; try reflexivity;
    cbn [Gender.eqb fmul fadd fsub fneg flt fle signed_inf Qcompare Z.compare
         Qnum Qden Z.mul Pos.mul Pos.compare Pos.compare_cont] in *;
    split_ifs; cbn [fle]; q_reflect; try reflexivity; try lra.
Qed.

Lemma body_fat_male_lowest (bmi : pyfloat) (gender : Gender.t) :
  (_estimate_body_fat bmi Gender.MALE <=? _estimate_body_fat bmi gender)%F
  = true.
Proof.
  unfold _estimate_body_fat, py_max, py_min, fgt.
  destruct bmi as [q | | |]; destruct gender; q_norm;
    try reflexivity;
    cbn [Gender.eqb fmul fadd fsub fneg flt];
    split_ifs; cbn [fle]; q_reflect; lra.
Qed.

(** X13.  [_estimate_body_fat] always returns a value between 3 and 50,
    for every BMI ([nan], which gives 50, and the infinities included) and
    every gender; it never decreases when the BMI grows; and for the same
    BMI the estimate for MALE is never above the estimate for another
    gender. *)
Theorem body_fat_clamped_and_monotone (bmi bmi' : pyfloat) (gender : Gender.t) :
  (of_int 3 <=? _estimate_body_fat bmi gender)%F = true
  /\ (_estimate_body_fat bmi gender <=? of_int 50)%F = true
  /\ _estimate_body_fat NaN gender = of_int 50
  /\ ((bmi <=? bmi')%F = true ->
      (_estimate_body_fat bmi gender <=? _estimate_body_fat bmi' gender)%F
      = true)
  /\ (_estimate_body_fat bmi Gender.MALE <=? _estimate_body_fat bmi gender)%F
     = true.
Proof.
  destruct (body_fat_range bmi gender) as [Hlo Hhi].
  split; [exact Hlo |]. split; [exact Hhi |].
  split; [destruct gender; reflexivity |].
  split; [apply body_fat_mono | apply body_fat_male_lowest].
Qed.

(** BMI 22 and 27 for a man: 17.1 and 23.1. *)
Lemma body_fat_clamped_and_monotone_witness :
  (_estimate_body_fat (of_int 22) Gender.MALE
   <=? _estimate_body_fat (of_int 27) Gender.MALE)%F = true
  /\ (_estimate_body_fat (of_int 22) Gender.MALE == lit 171 10)%F.
Proof.
  destruct (body_fat_clamped_and_monotone (of_int 22) (of_int 27) Gender.MALE)
    as (_ & _ & _ & H & _).
  split; [exact (H eq_refl) | reflexivity].
Defined.

(* ------------------------------------------------------------------ *)
(** ** _calculate_bmi_adjustment *)

Ltac adj_unfold :=
  unfold _calculate_bmi_adjustment, py_min; q_norm;
  cbn [fmul fadd fsub fneg flt fle].

Lemma bmi_adjustment_upper (bmi : pyfloat) :
  is_nan bmi = false ->
  (_calculate_bmi_adjustment bmi <=? lit 145 100)%F = true.
Proof.
  destruct bmi as [q | | |]; intros H; try discriminate H;
    try reflexivity.
  adj_unfold. split_ifs; cbn [fle fadd]; q_reflect; lra.
Qed.

Lemma bmi_adjustment_lower (bmi : pyfloat) :
  (of_int 0 <=? bmi)%F = true ->
  (lit 25 100 <=? _calculate_bmi_adjustment bmi)%F = true.
Proof.
  destruct bmi as [q | | |]; intros H; try discriminate H;
    try reflexivity.
  revert H. adj_unfold. intros H.
  split_ifs; cbn [fle fadd]; q_reflect; lra.
Qed.

Lemma bmi_adjustment_finite (q : Q) :
  exists f, _calculate_bmi_adjustment (Fin q) = Fin f
    /\ ((q < 185 # 10)%Q -> f == (85 # 100) + (q - 15) * (4 # 100))%Q
    /\ ((185 # 10 <= q)%Q -> (q <= 249 # 10)%Q ->
        f == (95 # 100) + (q - (185 # 10)) * (15 # 1000))%Q
    /\ ((249 # 10 < q)%Q -> (q <= 299 # 10)%Q ->
        f == (105 # 100) + (q - 25) * (2 # 100))%Q
    /\ ((299 # 10 < q)%Q -> (q <= 42)%Q ->
        f == (115 # 100) + (q - 30) * (25 # 1000))%Q
    /\ ((42 < q)%Q -> f == 145 # 100)%Q.
Proof.
  adj_unfold.
  split_ifs; cbn [fadd]; eexists; (split; [reflexivity |]);
    q_reflect; repeat split; intros; try lra.
Qed.

Ltac adj_values :=
  repeat match goal with
  | |- context [_calculate_bmi_adjustment (Fin ?q)] =>
      let f := fresh "f" in
      let E := fresh "Ef" in
      let H := fresh "Hf" in
      destruct (bmi_adjustment_finite q) as (f & E & H);
      rewrite E; clear E
  end.

(** X14.  The BMI adjustment factor is at most 1.45 for every BMI that is
    not [nan] and at least 0.25 for every BMI of zero or more.  It grows
    with the BMI below 18.5, from 18.5 to 29.9 and above 29.9, but it is
    not monotone: every BMI strictly between 17.5 and 18.5 gets a larger
    factor than BMI 18.5, and every BMI strictly between 29.9 and 29.92
    gets a smaller factor than BMI 29.9. *)
Theorem bmi_adjustment_bands (bmi bmi' : pyfloat) :
  (is_nan bmi = false ->
   (_calculate_bmi_adjustment bmi <=? lit 145 100)%F = true)
  /\ ((of_int 0 <=? bmi)%F = true ->
      (lit 25 100 <=? _calculate_bmi_adjustment bmi)%F = true)
  /\ ((bmi <=? bmi')%F = true -> (bmi' <? lit 185 10)%F = true ->
      (_calculate_bmi_adjustment bmi <=? _calculate_bmi_adjustment bmi')%F
      = true)
  /\ ((lit 185 10 <=? bmi)%F = true -> (bmi <=? bmi')%F = true ->
      (bmi' <=? lit 299 10)%F = true ->
      (_calculate_bmi_adjustment bmi <=? _calculate_bmi_adjustment bmi')%F
      = true)
  /\ ((lit 299 10 <? bmi)%F = true -> (bmi <=? bmi')%F = true ->
      (_calculate_bmi_adjustment bmi <=? _calculate_bmi_adjustment bmi')%F
      = true)
  /\ ((lit 175 10 <? bmi)%F = true -> (bmi <? lit 185 10)%F = true ->
      (_calculate_bmi_adjustment (lit 185 10) <? _calculate_bmi_adjustment bmi)%F
      = true)
  /\ ((lit 299 10 <? bmi)%F = true -> (bmi <? lit 2992 100)%F = true ->
      (_calculate_bmi_adjustment bmi <? _calculate_bmi_adjustment (lit 299 10))%F
      = true).
Proof.
  split; [apply bmi_adjustment_upper |].
  split; [apply bmi_adjustment_lower |].
  repeat split.
  - destruct bmi as [q | | |], bmi' as [q' | | |]; intros H1 H2;
      try discriminate H1; try discriminate H2; try reflexivity;
      try (adj_values; reflexivity).
    cbn [fle flt lit] in H1, H2. q_reflect.
    adj_values. cbn [fle]. q_reflect. lra.
  - destruct bmi as [q | | |], bmi' as [q' | | |]; intros H1 H2 H3;
      try discriminate H1; try discriminate H2; try discriminate H3.
    cbn [fle flt lit] in H1, H2, H3. q_reflect.
    adj_values. cbn [fle]. q_reflect.
    destruct (Qlt_le_dec (249 # 10) q); destruct (Qlt_le_dec (249 # 10) q');
      lra.
  - destruct bmi as [q | | |], bmi' as [q' | | |]; intros H1 H2;
      try discriminate H1; try discriminate H2; try reflexivity.
    + cbn [fle flt lit] in H1, H2. q_reflect.
      adj_values. cbn [fle]. q_reflect.
      destruct (Qlt_le_dec 42 q); destruct (Qlt_le_dec 42 q'); lra.
    + change (_calculate_bmi_adjustment PInf) with (Fin ((115 # 100) + (3 # 10))).
      adj_values. cbn [fle]. q_reflect.
      cbn [flt lit] in H1. q_reflect.
      destruct (Qlt_le_dec 42 q); lra.
  - destruct bmi as [q | | |]; intros H1 H2;
      try discriminate H1; try discriminate H2.
    cbn [fle flt lit] in H1, H2. q_reflect. unfold lit.
    adj_values. cbn [flt]. q_reflect. lra.
  - destruct bmi as [q | | |]; intros H1 H2;
      try discriminate H1; try discriminate H2.
    cbn [fle flt lit] in H1, H2. q_reflect. unfold lit.
    adj_values. cbn [flt]. q_reflect. lra.
Qed.

(** BMI 18.4 against 18.5 (0.986 against 0.95), and 29.91 against 29.9
    (1.14775 against 1.148). *)
Lemma bmi_adjustment_bands_witness :
  (_calculate_bmi_adjustment (lit 185 10)
   <? _calculate_bmi_adjustment (lit 184 10))%F = true
  /\ (_calculate_bmi_adjustment (lit 2991 100)
      <? _calculate_bmi_adjustment (lit 299 10))%F = true
  /\ (_calculate_bmi_adjustment (of_int 20)
      <=? _calculate_bmi_adjustment (of_int 24))%F = true.
Proof.
  destruct (bmi_adjustment_bands (lit 184 10) (lit 184 10))
    as (_ & _ & _ & _ & _ & H1 & _).
  destruct (bmi_adjustment_bands (lit 2991 100) (lit 2991 100))
    as (_ & _ & _ & _ & _ & _ & H2).
  destruct (bmi_adjustment_bands (of_int 20) (of_int 24))
    as (_ & _ & _ & H3 & _).
  split; [exact (H1 eq_refl eq_refl) |].
  split; [exact (H2 eq_refl eq_refl) | exact (H3 eq_refl eq_refl eq_refl)].
Defined.

(* ------------------------------------------------------------------ *)
(** ** The chart lookups *)

(** What the scanning loop returns: the size of the first entry the value
    fits under, or nothing when it fits under none. *)
Lemma chart_scan_first (x : pyfloat) (sizes : list (Z * string)) :
  match chart_scan x sizes with
  | Some size =>
      exists before measurement after,
        sizes = (before ++ (measurement, size) :: after)%list
        /\ (x <=? of_int measurement)%F = true
        /\ Forall (fun e => (x <=? of_int (fst e))%F = false) before
  | None => Forall (fun e => (x <=? of_int (fst e))%F = false) sizes
  end.
Proof.
  induction sizes as [| [m s] rest IH]; cbn [chart_scan].
  - constructor.
  - destruct (x <=? of_int m)%F eqn:E.
    + exists [], m, rest. repeat split; [exact E | constructor].
    + destruct (chart_scan x rest) as [size |].
      * destruct IH as (before & m' & after & -> & Hle & Hb).
        exists ((m, s) :: before), m', after.
        repeat split; [exact Hle | constructor; assumption].
      * constructor; assumption.
Qed.

(** X15.  [_determine_shirt_size] never raises.  It uses the male chart
    for MALE and the female chart for FEMALE and UNISEX alike, and returns
    the size of the first chart entry whose measurement is at least the
    chest; when the chest is above every entry, or is [nan], it returns
    the last size of the chart, "XXXL". *)
Theorem shirt_size_first_fitting (chest_cm : pyfloat) (gender : Gender.t) :
  exists sizes size,
    sizes = (if Gender.eqb gender Gender.MALE then male_shirt_sizes
             else female_shirt_sizes)
    /\ _determine_shirt_size chest_cm gender = Ok size
    /\ In size (map snd sizes)
    /\ ((exists before measurement after,
           sizes = (before ++ (measurement, size) :: after)%list
           /\ (chest_cm <=? of_int measurement)%F = true
           /\ Forall (fun e => (chest_cm <=? of_int (fst e))%F = false) before)
        \/ (size = "XXXL"
            /\ Forall (fun e => (chest_cm <=? of_int (fst e))%F = false) sizes))
    /\ (is_nan chest_cm = true -> size = "XXXL").
Proof.
  unfold _determine_shirt_size.
  set (sizes := if Gender.eqb gender Gender.MALE then male_shirt_sizes
                else female_shirt_sizes).
  assert (Hlast : list_last sizes = Ok (if Gender.eqb gender Gender.MALE
                                        then (117%Z, "XXXL")
                                        else (112%Z, "XXXL")))
    by (unfold sizes; destruct (Gender.eqb gender Gender.MALE); reflexivity).
  assert (Hin : In "XXXL" (map snd sizes))
    by (unfold sizes; destruct (Gender.eqb gender Gender.MALE); simpl; tauto).
  pose proof (chart_scan_first chest_cm sizes) as Hscan.
  exists sizes.
  destruct (chart_scan chest_cm sizes) as [size |] eqn:Es.
  - exists size. split; [reflexivity |]. split; [reflexivity |].
    destruct Hscan as (before & m & after & E & Hle & Hb).
    split; [rewrite E, map_app; apply in_or_app; right; left; reflexivity |].
    split; [left; exists before, m, after; auto |].
    intros Hnan. destruct chest_cm; try discriminate Hnan. discriminate Hle.
  - exists "XXXL". split; [reflexivity |].
    rewrite Hlast. cbn [bind].
    split; [destruct (Gender.eqb gender Gender.MALE); reflexivity |].
    split; [exact Hin |]. split; [right; auto | reflexivity].
Qed.

(** A chest of 93 is an M for a man (first entry of at least 93 is 97)
    and an L on the female chart; a [nan] chest is an XXXL. *)
Lemma shirt_size_first_fitting_witness :
  _determine_shirt_size (of_int 93) Gender.MALE = Ok "M"
  /\ _determine_shirt_size (of_int 93) Gender.UNISEX = Ok "L"
  /\ _determine_shirt_size NaN Gender.MALE = Ok "XXXL".
Proof.
  destruct (shirt_size_first_fitting NaN Gender.MALE)
    as (sizes & size & _ & E & _ & _ & Hnan).
  split; [reflexivity |]. split; [reflexivity |].
  rewrite E, (Hnan eq_refl). reflexivity.
Defined.

Lemma dress_scan_total (x : pyfloat) :
  exists size,
    match chart_scan x female_dress_sizes with
    | Some s => s
    | None => "20"
    end = size
    /\ In size (map snd female_dress_sizes)
    /\ _determine_dress_size x Gender.FEMALE = Ok size
    /\ _determine_dress_size x Gender.UNISEX = Ok size
    /\ _determine_pant_size x Gender.FEMALE = Ok ("Size " ++ size).
Proof.
  unfold _determine_dress_size, _determine_pant_size. cbn [Gender.eqb].
  pose proof (chart_scan_first x female_dress_sizes) as Hscan.
  destruct (chart_scan x female_dress_sizes) as [s |].
  - exists s. destruct Hscan as (before & m & after & E & _ & _).
    repeat split. rewrite E, map_app. apply in_or_app. right. left.
    reflexivity.
  - exists "20". repeat split. simpl. tauto.
Qed.

(** X16.  [_determine_dress_size] and [_determine_pant_size] never raise.
    A man's dress size is "N/A".  For FEMALE the pant size is "Size "
    followed by the dress size the same measurement gets, and UNISEX gets
    the same dress size as FEMALE but the pant size of MALE.  A measurement
    above the whole chart, or [nan], gets the largest size: "20",
    "Size 20" or "42". *)
Theorem pant_and_dress_sizes (x : pyfloat) :
  _determine_dress_size x Gender.MALE = Ok "N/A"
  /\ (exists size,
        In size (map snd female_dress_sizes)
        /\ _determine_dress_size x Gender.FEMALE = Ok size
        /\ _determine_dress_size x Gender.UNISEX = Ok size
        /\ _determine_pant_size x Gender.FEMALE = Ok ("Size " ++ size))
  /\ (exists size,
        In size (map snd male_pant_sizes)
        /\ _determine_pant_size x Gender.MALE = Ok size
        /\ _determine_pant_size x Gender.UNISEX = Ok size)
  /\ ((of_int 114 <? x)%F = true \/ is_nan x = true ->
      _determine_dress_size x Gender.FEMALE = Ok "20"
      /\ _determine_pant_size x Gender.FEMALE = Ok "Size 20"
      /\ _determine_pant_size x Gender.MALE = Ok "42").
Proof.
  split; [reflexivity |]. split; [| split].
  - destruct (dress_scan_total x) as (size & _ & Hin & H1 & H2 & H3).
    exists size. auto.
  - unfold _determine_pant_size. cbn [Gender.eqb].
    pose proof (chart_scan_first x male_pant_sizes) as Hscan.
    destruct (chart_scan x male_pant_sizes) as [s |].
    + exists s. destruct Hscan as (before & m & after & E & _ & _).
      repeat split. rewrite E, map_app. apply in_or_app. right. left.
      reflexivity.
    + exists "42". repeat split. simpl. tauto.
  - intros H.
    assert (Hno : forall m : Z, (m <= 114)%Z -> (x <=? of_int m)%F = false).
    { intros m Hm. destruct H as [H | H].
      - destruct x as [q | | |]; try discriminate H; try reflexivity.
        cbn [flt fle of_int] in *. q_reflect.
        assert (inject_Z m <= inject_Z 114)%Q
          by (unfold Qle, inject_Z; simpl; lia).
        lra.
      - destruct x; try discriminate H. reflexivity. }
    unfold _determine_dress_size, _determine_pant_size, female_dress_sizes,
      male_pant_sizes.
    cbn [Gender.eqb chart_scan]. rewrite !Hno by lia. repeat split.
Qed.

(** A waist of 80: "Size 6" for a woman, "32" for a man; a waist of 120 is
    above both charts. *)
Lemma pant_and_dress_sizes_witness :
  _determine_pant_size (of_int 80) Gender.FEMALE = Ok "Size 6"
  /\ _determine_pant_size (of_int 80) Gender.MALE = Ok "32"
  /\ _determine_pant_size (of_int 120) Gender.FEMALE = Ok "Size 20"
  /\ _determine_pant_size (of_int 120) Gender.MALE = Ok "42".
Proof.
  destruct (pant_and_dress_sizes (of_int 120)) as (_ & _ & _ & H).
  destruct (H (or_introl eq_refl)) as (_ & H1 & H2).
  split; [reflexivity |]. split; [reflexivity |]. split; assumption.
Defined.

(* ------------------------------------------------------------------ *)
(** ** The predictor's shirt size against the recommended size *)

(** X17.  For a man with a finite chest of at most 112 cm, the shirt size
    of [_determine_shirt_size] is the value of a catalog size, and
    [get_recommended_size] (which aims 4 cm above the chest) returns that
    size or the next one up, never a smaller one. *)
Theorem recommended_is_shirt_size_or_next (chest_cm : pyfloat) :
  is_finite chest_cm = true ->
  (chest_cm <=? of_int 112)%F = true ->
  exists s,
    _determine_shirt_size chest_cm Gender.MALE = Ok (GarmentSize.value s)
    /\ (get_recommended_size chest_cm "male" = s
        \/ size_rank (get_recommended_size chest_cm "male")
           = Datatypes.S (size_rank s)).
Proof.
  intros Hfin. destruct chest_cm as [q | | |]; try discriminate Hfin.
  rewrite recommended_chart.
  change (inject_Z (comfort_allowance "male")) with 4%Q.
  unfold _determine_shirt_size, male_shirt_sizes, size_chart.
  cbn [Gender.eqb chart_scan fle of_int]. intros H112.
  repeat match goal with
  | |- context [Qle_bool ?a ?b] =>
      let E := fresh "E" in destruct (Qle_bool a b) eqn:E
  end; q_reflect; unfold inject_Z in *;
  try (exfalso; lra);
  first [ exists GarmentSize.XS; split; [reflexivity |]; cbn; auto; fail
        | exists GarmentSize.S; split; [reflexivity |]; cbn; auto; fail
        | exists GarmentSize.M; split; [reflexivity |]; cbn; auto; fail
        | exists GarmentSize.L; split; [reflexivity |]; cbn; auto; fail
        | exists GarmentSize.XL; split; [reflexivity |]; cbn; auto; fail
        | exists GarmentSize.XXL; split; [reflexivity |]; cbn; auto; fail ].
Qed.

(** Chest 90: shirt size S, recommended size S; chest 91: shirt size S,
    recommended size M. *)
Lemma recommended_is_shirt_size_or_next_witness :
  (_determine_shirt_size (of_int 90) Gender.MALE = Ok "S"
   /\ get_recommended_size (of_int 90) "male" = GarmentSize.S)
  /\ (_determine_shirt_size (of_int 91) Gender.MALE = Ok "S"
      /\ get_recommended_size (of_int 91) "male" = GarmentSize.M)
  /\ exists s,
       _determine_shirt_size (of_int 91) Gender.MALE
         = Ok (GarmentSize.value s)
       /\ (get_recommended_size (of_int 91) "male" = s
           \/ size_rank (get_recommended_size (of_int 91) "male")
              = Datatypes.S (size_rank s)).
Proof.
  split; [split; reflexivity |]. split; [split; reflexivity |].
  exact (recommended_is_shirt_size_or_next (of_int 91) eq_refl eq_refl).
Defined.

(* ------------------------------------------------------------------ *)
(** ** _estimate_shoe_size *)

Lemma round_half_even_below (q : Q) (n : Z) :
  (q < inject_Z n + (1 # 2))%Q \/
  ((q <= inject_Z n + (1 # 2))%Q /\ Z.even n = true) ->
  (round_half_even q <= n)%Z.
Proof.
  intros H. unfold round_half_even.
  pose proof (Qfloor_le q) as Hf.
  set (f := Qfloor q) in *.
  assert (Hfn : (f <= n)%Z).
  { destruct (Z_le_gt_dec f n) as [Hle | Hgt]; [exact Hle |].
    assert (inject_Z (n + 1) <= inject_Z f)%Q by (rewrite <- Zle_Qle; lia).
    rewrite inject_Z_plus in *. change (inject_Z 1) with 1%Q in *.
    destruct H as [H | [H _]]; lra. }
  destruct (Z.eq_dec f n) as [-> | Hne].
  - destruct (q - inject_Z n ?= 1 # 2)%Q eqn:C.
    + destruct H as [H | [_ He]]; [| rewrite He; lia].
      apply Qeq_alt in C. lra.
    + lia.
    + apply Qgt_alt in C. destruct H as [H | [H _]]; lra.
  - destruct (q - inject_Z f ?= 1 # 2)%Q; [destruct (Z.even f) | |]; lia.
Qed.

Lemma shoe_us_size (q : Q) (offset : Z) :
  ((Fin q * lit 15 100 - of_int offset) / lit 847 1000)%F
  = Fin ((q * (15 # 100) + - inject_Z offset) / (847 # 1000)).
Proof. reflexivity. Qed.

(** X18.  For a finite height [_estimate_shoe_size] returns
    "US n (approx)" with n between 6 and 15 for MALE and between 5 and 12
    otherwise; a [nan] height raises [ValueError] and an infinite one
    [OverflowError].  Every man of at most 183 cm gets "US 6 (approx)" and
    every other person of at most 171 cm gets "US 5 (approx)". *)
Theorem shoe_size_clamped (height_cm : pyfloat) (gender : Gender.t) :
  (is_finite height_cm = true ->
   exists n,
     _estimate_shoe_size height_cm gender
       = Ok ("US " ++ str_of_int n ++ " (approx)")
     /\ if Gender.eqb gender Gender.MALE then (6 <= n <= 15)%Z
        else (5 <= n <= 12)%Z)
  /\ (is_nan height_cm = true ->
      _estimate_shoe_size height_cm gender = Raise ValueError)
  /\ (height_cm = PInf \/ height_cm = NInf ->
      _estimate_shoe_size height_cm gender = Raise OverflowError)
  /\ (is_finite height_cm = true ->
      (height_cm <=? of_int 183)%F = true ->
      _estimate_shoe_size height_cm Gender.MALE = Ok "US 6 (approx)")
  /\ (is_finite height_cm = true ->
      (height_cm <=? of_int 171)%F = true ->
      gender <> Gender.MALE ->
      _estimate_shoe_size height_cm gender = Ok "US 5 (approx)").
Proof.
  repeat split.
  - intros Hfin. destruct height_cm as [q | | |]; try discriminate Hfin.
    unfold _estimate_shoe_size.
    destruct (Gender.eqb gender Gender.MALE);
      rewrite shoe_us_size; cbn [py_round bind];
      eexists; (split; [reflexivity |]); lia.
  - intros Hnan. destruct height_cm; try discriminate Hnan.
    destruct gender; reflexivity.
  - intros [-> | ->]; destruct gender; reflexivity.
  - intros Hfin Hle. destruct height_cm as [q | | |]; try discriminate Hfin.
    unfold _estimate_shoe_size. cbn [Gender.eqb].
    rewrite shoe_us_size. cbn [py_round bind].
    cbn [fle of_int] in Hle. q_reflect.
    assert (Hr : (round_half_even
                    ((q * (15 # 100) + - inject_Z 22) / (847 # 1000)) <= 6)%Z).
    { apply round_half_even_below. left.
      unfold inject_Z in *. apply Qlt_shift_div_r; lra. }
    replace (Z.max 6 (Z.min 15 _)) with 6%Z by lia. reflexivity.
  - intros Hfin Hle Hg. destruct height_cm as [q | | |]; try discriminate Hfin.
    unfold _estimate_shoe_size.
    replace (Gender.eqb gender Gender.MALE) with false
      by (destruct gender; try reflexivity; elim Hg; reflexivity).
    rewrite shoe_us_size. cbn [py_round bind].
    cbn [fle of_int] in Hle. q_reflect.
    assert (Hr : (round_half_even
                    ((q * (15 # 100) + - inject_Z 21) / (847 # 1000)) <= 5)%Z).
    { apply round_half_even_below. left.
      unfold inject_Z in *. apply Qlt_shift_div_r; lra. }
    replace (Z.max 5 (Z.min 12 _)) with 5%Z by lia. reflexivity.
Qed.

(** Heights 175 (man) and 160 (woman), and a [nan] height. *)
Lemma shoe_size_clamped_witness :
  _estimate_shoe_size (of_int 175) Gender.MALE = Ok "US 6 (approx)"
  /\ _estimate_shoe_size (of_int 160) Gender.FEMALE = Ok "US 5 (approx)"
  /\ _estimate_shoe_size NaN Gender.MALE = Raise ValueError.
Proof.
  destruct (shoe_size_clamped (of_int 175) Gender.MALE)
    as (_ & _ & _ & H1 & _).
  destruct (shoe_size_clamped (of_int 160) Gender.FEMALE)
    as (_ & _ & _ & _ & H2).
  destruct (shoe_size_clamped NaN Gender.MALE) as (_ & H3 & _).
  split; [exact (H1 eq_refl eq_refl) |].
  split; [apply (H2 eq_refl eq_refl); discriminate | exact (H3 eq_refl)].
Defined.

(* ------------------------------------------------------------------ *)
(** ** _get_bmi_category against _calculate_bmi_adjustment *)

(** X19.  Although the category limits (18.5, 25, 30) and the limits of
    the adjustment bands (18.5, 24.9, 29.9) differ, the category of a BMI
    that is not [nan] fixes the range of its adjustment factor: below 0.99
    for "Underweight", from 0.95 to 1.05 for "Normal weight", from 1.05 to
    1.15 for "Overweight", from 1.15 to 1.45 for "Obese".  (In exact
    arithmetic the limits 1.05 and 1.15 are not reached from below; in
    binary64 they are, at the last float below BMI 25 and below BMI 30.)
    A [nan] BMI is "Obese" with a [nan] factor. *)
Theorem bmi_category_fixes_adjustment_range (bmi : pyfloat) :
  (is_nan bmi = false ->
   (_get_bmi_category bmi = "Underweight" ->
    (_calculate_bmi_adjustment bmi <? lit 99 100)%F = true)
   /\ (_get_bmi_category bmi = "Normal weight" ->
       (lit 95 100 <=? _calculate_bmi_adjustment bmi)%F = true
       /\ (_calculate_bmi_adjustment bmi <=? lit 105 100)%F = true)
   /\ (_get_bmi_category bmi = "Overweight" ->
       (lit 105 100 <=? _calculate_bmi_adjustment bmi)%F = true
       /\ (_calculate_bmi_adjustment bmi <=? lit 115 100)%F = true)
   /\ (_get_bmi_category bmi = "Obese" ->
       (lit 115 100 <=? _calculate_bmi_adjustment bmi)%F = true
       /\ (_calculate_bmi_adjustment bmi <=? lit 145 100)%F = true))
  /\ _get_bmi_category NaN = "Obese"
  /\ _calculate_bmi_adjustment NaN = NaN.
Proof.
  split; [| split; reflexivity].
  intros Hnan. destruct bmi as [q | | |]; try discriminate Hnan.
  - unfold _get_bmi_category. cbn [flt lit of_int].
    destruct (bmi_adjustment_finite q) as (f & -> & Hf).
    destruct Hf as (F1 & F2 & F3 & F4 & F5).
    unfold lit. cbn [flt fle].
    split_ifs; q_reflect; unfold inject_Z in *;
      (split; [| split; [| split]]); intros Hc; try discriminate Hc;
      try split; q_reflect;
      destruct (Qlt_le_dec (249 # 10) q);
      destruct (Qlt_le_dec (299 # 10) q);
      destruct (Qlt_le_dec 42 q); lra.
  - repeat (split || intro); try discriminate; reflexivity.
  - repeat (split || intro); try discriminate; reflexivity.
Qed.

(** BMI 24.95 is "Normal weight" and already in the third adjustment band:
    its factor is still at most 1.05. *)
Lemma bmi_category_fixes_adjustment_range_witness :
  _get_bmi_category (lit 2495 100) = "Normal weight"
  /\ (lit 95 100 <=? _calculate_bmi_adjustment (lit 2495 100))%F = true
  /\ (_calculate_bmi_adjustment (lit 2495 100) <=? lit 105 100)%F = true.
Proof.
  destruct (bmi_category_fixes_adjustment_range (lit 2495 100)) as [H _].
  destruct (H eq_refl) as (_ & Hn & _).
  destruct (Hn eq_refl) as [Hge Hle].
  split; [reflexivity |]. split; [exact Hge | exact Hle].
Defined.
